(** * osmnx/pois.py: points of interest from OpenStreetMap

    A shallow embedding of [osmnx/pois.py] and the properties of its
    query builder, its element parsers and its relation resolution.

    Python values that the module only passes around (coordinates,
    shapely geometries) are kept abstract in the class [External];
    dictionaries are association lists in insertion order; exceptions are
    values of [result]; logging and the Overpass request are recorded in
    a trace of events. *)

From Stdlib Require Import String Ascii List ZArith Bool Lia DecimalString.
Import ListNotations.
Local Open Scope string_scope.
Local Open Scope list_scope.
Local Open Scope Z_scope.
Set Warnings "-register-all".

(** ** Exceptions and results *)

(** Keys that a failed subscript reports. *)
Inductive pykey :=
| KStr (s : string)
| KInt (z : Z)
| KInts (l : list Z).

Inductive exn :=
| KeyError (k : pykey)
| TypeError (msg : string)
| ValueError (msg : string)
| UnboundLocalError (var : string)
| GeometryError.

Inductive result (A : Type) :=
| Ok (a : A)
| Raise (e : exn).
Arguments Ok {A} a.
Arguments Raise {A} e.

(** ** What the module imports *)

(** The collaborators of [pois.py] that are not part of it: Python floats
    and their [.6f] formatting, the settings template of
    [settings.default_overpass_query_settings], and the shapely
    constructors. A constructor that raises returns [None]. *)
Class External := {
  float : Type;
  geometry : Type;
  (* '{:.6f}'.format(x) *)
  format_6f : float -> string;
  (* settings.default_overpass_query_settings.format(timeout=, maxsize=) *)
  default_overpass_query_settings : Z -> string -> string;
  (* shapely.geometry.Point(lon, lat) *)
  Point : float -> float -> geometry;
  (* shapely.geometry.Polygon(ring) *)
  Polygon : list (float * float) -> option geometry;
  (* shapely.geometry.MultiPolygon(polygons), all of them geometries *)
  MultiPolygon : list geometry -> option geometry;
  (* bool(geometry): an empty geometry is falsy *)
  geom_bool : geometry -> bool;
  (* polygon.bounds = (west, south, east, north); the empty tuple of an
     empty geometry is None *)
  bounds : geometry -> option (float * float * float * float);
  (* geometry.centroid.within(polygon) *)
  centroid_within : geometry -> geometry -> bool
}.

(** ** Python values of a tag filter *)

Inductive pyval :=
| VNone
| VBool (b : bool)
| VInt (z : Z)
| VStr (s : string)
| VList (l : list pyval)
| VTuple (l : list pyval)
| VDict (items : list (string * pyval)).

(** [isinstance(s, str)] *)
Definition is_str (v : pyval) : bool :=
  match v with VStr _ => true | _ => false end.

(** The strings of a list all of whose elements are [str]. *)
Definition strs (l : list pyval) : list string :=
  flat_map (fun v => match v with VStr s => [s] | _ => [] end) l.

(** ** Dictionaries in insertion order *)

(** Hashable keys: strings (tag names, columns) and ints (OSM ids). *)
Class Key (K : Type) := {
  key_eqb : K -> K -> bool;
  key_eqb_spec : forall a b, reflect (a = b) (key_eqb a b)
}.

#[export] Instance string_key : Key string :=
  {| key_eqb := String.eqb; key_eqb_spec := String.eqb_spec |}.

#[export] Instance Z_key : Key Z :=
  {| key_eqb := Z.eqb; key_eqb_spec := Z.eqb_spec |}.

Section Dict.
Context {K V : Type} `{Key K}.

(** [d[k] = v]: an existing key keeps its place. *)
Fixpoint dict_set (d : list (K * V)) (k : K) (v : V) : list (K * V) :=
  match d with
  | [] => [(k, v)]
  | (k', v') :: d' =>
      if key_eqb k' k then (k', v) :: d'
      else (k', v') :: dict_set d' k v
  end.

(** [d.get(k)] *)
Fixpoint dict_get (d : list (K * V)) (k : K) : option V :=
  match d with
  | [] => None
  | (k', v') :: d' => if key_eqb k' k then Some v' else dict_get d' k
  end.

(** [k in d] *)
Definition mem (k : K) (l : list K) : bool := existsb (key_eqb k) l.
End Dict.

(** ** create_poi_query *)

Definition dq : string := String (ascii_of_nat 34) EmptyString.

(** [str(n)] for an int. *)
Definition str_int (n : Z) : string := NilZero.string_of_int (Z.to_int n).

Definition error_msg : string :=
  "tags must be a dict with values of bool, str, or list of str".

(** A value of [tags_dict]: a bool, or a list of str. *)
Inductive tag_value :=
| TBool (b : bool)
| TList (l : list string).

(** The value of a one-entry dict of [tags_list]: a bool, or a str. *)
Inductive tag_entry :=
| EBool (b : bool)
| EStr (s : string).

(** The loop that fills [tags_dict] (lines 86-101). *)
Fixpoint validate_tags (items : list (string * pyval))
    (tags_dict : list (string * tag_value))
  : result (list (string * tag_value)) :=
  match items with
  | [] => Ok tags_dict
  | (key, value) :: rest =>
      match value with
      | VBool b => validate_tags rest (dict_set tags_dict key (TBool b))
      | VStr s => validate_tags rest (dict_set tags_dict key (TList [s]))
      | VList l =>
          if forallb is_str l
          then validate_tags rest (dict_set tags_dict key (TList (strs l)))
          else Raise (TypeError error_msg)
      | _ => Raise (TypeError error_msg)
      end
  end.

(** The loop that fills [tags_list] (lines 104-110). *)
Definition make_tags_list (tags_dict : list (string * tag_value))
  : list (string * tag_entry) :=
  flat_map (fun kv =>
    match snd kv with
    | TBool b => [(fst kv, EBool b)]
    | TList l => map (fun value_item => (fst kv, EStr value_item)) l
    end) tags_dict.

Definition kinds : list string := ["node"; "way"; "relation"].

Section Query.
Context {E : External}.

(** Line 113. *)
Definition bbox_literal (north south east west : float) : string :=
  ("(" ++ format_6f south ++ "," ++ format_6f west ++ ","
       ++ format_6f north ++ "," ++ format_6f east ++ ")")%string.

(** Lines 120-125. *)
Definition tag_str (bbox : string) (key : string) (value : tag_entry)
  : string :=
  match value with
  | EBool _ => ("[" ++ dq ++ key ++ dq ++ "]" ++ bbox ++ ";(._;>;);")%string
  | EStr v =>
      ("[" ++ dq ++ key ++ dq ++ "=" ++ dq ++ v ++ dq ++ "]"
           ++ bbox ++ ";(._;>;);")%string
  end.

(** Line 128. *)
Definition component (tag : string) (kind : string) : string :=
  ("(" ++ kind ++ tag ++ ");")%string.

(** The list [components] before it is joined (lines 116-128). *)
Definition query_components (bbox : string)
    (tags_list : list (string * tag_entry)) : list string :=
  flat_map (fun d => map (component (tag_str bbox (fst d) (snd d))) kinds)
           tags_list.

(** Lines 68-78; [if custom_settings:] holds for a non-empty string. *)
Definition make_overpass_settings (timeout : Z) (memory : option Z)
    (custom_settings : option string) : string :=
  let maxsize :=
    match memory with
    | None => EmptyString
    | Some m => ("[maxsize:" ++ str_int m ++ "]")%string
    end in
  match custom_settings with
  | Some (String a s) => String a s
  | _ => default_overpass_query_settings timeout maxsize
  end.

Definition create_poi_query (north south east west : float) (tags : pyval)
    (timeout : Z) (memory : option Z) (custom_settings : option string)
  : result string :=
  let overpass_settings :=
    make_overpass_settings timeout memory custom_settings in
  match tags with
  | VDict items =>
      match validate_tags items [] with
      | Raise e => Raise e
      | Ok tags_dict =>
          let tags_list := make_tags_list tags_dict in
          let bbox := bbox_literal north south east west in
          let components :=
            String.concat EmptyString (query_components bbox tags_list) in
          Ok (overpass_settings ++ ";(" ++ components ++ ");out;")%string
      end
  | _ => Raise (TypeError error_msg)
  end.
End Query.

(** ** Effects: local variables, logging, requests, exceptions *)

(** What [log] writes, before it is formatted. *)
Inductive log_msg :=
| PolygonInvalid (nodes : list Z)
| PointInvalid (osmid : Z)
| MultiPolygonInvalid (relation_id : Z) (way_ids : list Z)
| RelationUnparsed (relation_id : Z).

Inductive event :=
| Log (m : log_msg)
| Request (query : string) (timeout : Z).

(** A computation over local variables [L]: it returns the locals as it
    leaves them (also when it raises), the events it caused, and its
    result. *)
Definition M (L A : Type) : Type := L -> L * list event * result A.

Section Monad.
Context {L : Type}.

Definition ret {A} (a : A) : M L A := fun l => (l, [], Ok a).

Definition raise {A} (e : exn) : M L A := fun l => (l, [], Raise e).

Definition lift {A} (r : result A) : M L A := fun l => (l, [], r).

Definition bind {A B} (m : M L A) (f : A -> M L B) : M L B :=
  fun l =>
    match m l with
    | (l1, t1, Ok a) =>
        match f a l1 with
        | (l2, t2, r) => (l2, t1 ++ t2, r)
        end
    | (l1, t1, Raise e) => (l1, t1, Raise e)
    end.

(** [try: m except Exception: h] *)
Definition try_except {A} (m : M L A) (h : M L A) : M L A :=
  fun l =>
    match m l with
    | (l1, t1, Raise _) =>
        match h l1 with
        | (l2, t2, r) => (l2, t1 ++ t2, r)
        end
    | done => done
    end.

Definition log (m : log_msg) : M L unit := fun l => (l, [Log m], Ok tt).

Definition get : M L L := fun l => (l, [], Ok l).

Definition put (l' : L) : M L unit := fun _ => (l', [], Ok tt).

(** A call: the callee runs on its own locals. *)
Definition call {L' A} (m : M L' A) (init : L') : M L A :=
  fun l => match m init with (_, t, r) => (l, t, r) end.

(** [for x in xs: body x] *)
Fixpoint for_each {X} (xs : list X) (body : X -> M L unit) : M L unit :=
  match xs with
  | [] => ret tt
  | x :: xs' => bind (body x) (fun _ => for_each xs' body)
  end.
End Monad.

Notation "x <- m ;; k" := (bind m (fun x => k))
  (at level 61, m at next level, right associativity).
Notation "m ;; k" := (bind m (fun _ => k))
  (at level 61, right associativity).

(** [d[k]] on a key that may be absent. *)
Definition item {A} (k : string) (o : option A) : result A :=
  match o with
  | Some a => Ok a
  | None => Raise (KeyError (KStr k))
  end.

(** ** Elements of an Overpass response *)

Record member := {
  m_type : string;
  m_ref : Z;
  m_role : string
}.

Section Pois.
Context {E : External}.

(** One entry of [elements]: a JSON object whose keys may be absent. *)
Record element := {
  e_type : option string;
  e_id : option Z;
  e_lat : option float;
  e_lon : option float;
  e_nodes : option (list Z);
  e_tags : option (list (string * string));
  e_members : option (list member)
}.

Record response := { elements : list element }.

(** ['type' in result and result['type'] == kind] *)
Definition has_type (result : element) (kind : string) : bool :=
  match e_type result with
  | Some t => String.eqb t kind
  | None => false
  end.

(** ['tags' in result] *)
Definition has_tags (result : element) : bool :=
  match e_tags result with
  | Some _ => true
  | None => false
  end.

(** ** Cells, rows and frames *)

(** The value of a column in a row. [member_nodes] is a list of the
    cells of the column [nodes]. *)
Inductive cell :=
| CNaN
| CNone
| CGeom (g : geometry)
| CInt (z : Z)
| CStr (s : string)
| CIds (l : list Z)
| CCells (l : list cell).

(** A [poi] dict, and a row of a frame: its columns in insertion
    order. *)
Definition poi : Type := list (string * cell).

(** A (Geo)DataFrame: its columns, and its rows under their index
    labels. A column that a row does not have is NaN there. *)
Record DataFrame := {
  columns : list string;
  rows : list (Z * poi)
}.

Definition index (df : DataFrame) : list Z := map fst (rows df).

Definition row_cell (row : poi) (col : string) : cell :=
  match dict_get row col with
  | Some c => c
  | None => CNaN
  end.

(** [gpd.GeoDataFrame()] *)
Definition empty_frame : DataFrame := {| columns := []; rows := [] |}.

(** Columns of [a] followed by the new ones of [b], in the order of
    [b]. *)
Definition union_columns (a b : list string) : list string :=
  a ++ filter (fun c => negb (mem c a)) b.

(** Each name once, at its first place. *)
Fixpoint unique (names : list string) : list string :=
  match names with
  | [] => []
  | c :: rest => c :: filter (fun c' => negb (String.eqb c' c)) (unique rest)
  end.

(** [sorted(names)] *)
Fixpoint insert_sorted (c : string) (sorted : list string) : list string :=
  match sorted with
  | [] => [c]
  | c' :: rest =>
      if String.leb c c' then c :: sorted else c' :: insert_sorted c rest
  end.

Definition sort_strings (names : list string) : list string :=
  fold_right insert_sorted [] names.

(** [gpd.GeoDataFrame(d).T] for a dict of dicts: the columns are the
    keys of the inner dicts in the order in which the rows first show
    them; pandas sorts them when there is one inner dict only. *)
Definition frame_of_dict (d : list (Z * poi)) : DataFrame :=
  {| columns :=
       match d with
       | [(_, row)] => sort_strings (map fst row)
       | _ => unique (flat_map (fun r => map fst (snd r)) d)
       end;
     rows := d |}.

(** The frame of one row whose columns were made one after the other:
    they keep that order. *)
Definition frame_of_row (label : Z) (row : poi) : DataFrame :=
  {| columns := map fst row; rows := [(label, row)] |}.

(** [df[col]] *)
Definition column (df : DataFrame) (col : string) : result (list cell) :=
  if mem col (columns df)
  then Ok (map (fun r => row_cell (snd r) col) (rows df))
  else Raise (KeyError (KStr col)).

(** Is the index free of duplicates? *)
Fixpoint uniqueb (l : list Z) : bool :=
  match l with
  | [] => true
  | x :: l' => negb (mem x l') && uniqueb l'
  end.

(** [df.reindex(labels)]: the rows at [labels], in that order; a label
    not in the index gives a row of NaN. pandas refuses to reindex a
    frame whose index has duplicates. *)
Definition reindex (df : DataFrame) (labels : list Z) : result DataFrame :=
  match labels with
  | _ :: _ =>
      if uniqueb (index df)
      then Ok {| columns := columns df;
                 rows := map (fun i =>
                   match dict_get (rows df) i with
                   | Some row => (i, row)
                   | None => (i, [])
                   end) labels |}
      else Raise (ValueError "cannot reindex from a duplicate axis")
  | [] => Ok {| columns := columns df; rows := [] |}
  end.

(** pandas [isna]. *)
Definition isna (c : cell) : bool :=
  match c with
  | CNaN | CNone => true
  | _ => false
  end.

(** [df.dropna(subset=[col])] *)
Definition dropna (df : DataFrame) (col : string) : result DataFrame :=
  if mem col (columns df)
  then Ok {| columns := columns df;
             rows := filter (fun r => negb (isna (row_cell (snd r) col)))
                            (rows df) |}
  else Raise (KeyError (KStr col)).

(** [df.append(other, sort=False)] *)
Definition append (df other : DataFrame) : DataFrame :=
  {| columns := union_columns (columns df) (columns other);
     rows := rows df ++ rows other |}.

(** [df.drop(labels)]: every label must be in the index. *)
Definition drop (df : DataFrame) (labels : list Z) : result DataFrame :=
  match filter (fun i => negb (mem i (index df))) labels with
  | [] => Ok {| columns := columns df;
                rows := filter (fun r => negb (mem (fst r) labels))
                               (rows df) |}
  | missing => Raise (KeyError (KInts missing))
  end.

(** ** parse_nodes_coords *)

Fixpoint parse_nodes_coords_loop (results : list element)
    (coords : list (Z * (float * float)))
  : result (list (Z * (float * float))) :=
  match results with
  | [] => Ok coords
  | result :: rest =>
      if has_type result "node" then
        match item "lat" (e_lat result) with
        | Raise e => Raise e
        | Ok lat =>
        match item "lon" (e_lon result) with
        | Raise e => Raise e
        | Ok lon =>
        match item "id" (e_id result) with
        | Raise e => Raise e
        | Ok id => parse_nodes_coords_loop rest (dict_set coords id (lat, lon))
        end end end
      else parse_nodes_coords_loop rest coords
  end.

(** [coords[id]] is the pair (lat, lon). *)
Definition parse_nodes_coords (osm_response : response)
  : result (list (Z * (float * float))) :=
  parse_nodes_coords_loop (elements osm_response) [].

(** ** parse_polygonal_poi *)

(** [[(coords[node]['lon'], coords[node]['lat']) for node in nodes]] *)
Fixpoint ring_of (coords : list (Z * (float * float))) (nodes : list Z)
  : result (list (float * float)) :=
  match nodes with
  | [] => Ok []
  | node :: rest =>
      match dict_get coords node with
      | None => Raise (KeyError (KInt node))
      | Some (lat, lon) =>
          match ring_of coords rest with
          | Ok ring => Ok ((lon, lat) :: ring)
          | Raise e => Raise e
          end
      end
  end.

(** [for tag in response['tags']: poi[tag] = response['tags'][tag]] *)
Definition add_tags (p : poi) (tags : option (list (string * string)))
  : poi :=
  match tags with
  | Some ts => fold_left (fun p tag => dict_set p (fst tag) (CStr (snd tag)))
                         ts p
  | None => p
  end.

Definition make_polygon (ring : list (float * float)) : result geometry :=
  match Polygon ring with
  | Some g => Ok g
  | None => Raise GeometryError
  end.

(** Returns [None] where the source returns None. *)
Definition parse_polygonal_poi {L} (coords : list (Z * (float * float)))
    (response : element) : M L (option poi) :=
  if has_type response "way" then
    nodes <- lift (item "nodes" (e_nodes response)) ;;
    try_except
      (ring <- lift (ring_of coords nodes) ;;
       polygon <- lift (make_polygon ring) ;;
       osmid <- lift (item "id" (e_id response)) ;;
       let p := [("nodes", CIds nodes); ("geometry", CGeom polygon);
                 ("osmid", CInt osmid)] in
       ret (Some (add_tags p (e_tags response))))
      (log (PolygonInvalid nodes) ;; ret None)
  else ret None.

(** ** parse_osm_node *)

(** The local [poi] is bound only when the body of the [try] reached
    its assignment; [return poi] reads it after the handler. *)
Definition parse_osm_node {L} (response : element) : M L poi :=
  bound <- try_except
    (lon <- lift (item "lon" (e_lon response)) ;;
     lat <- lift (item "lat" (e_lat response)) ;;
     let point := Point lon lat in
     osmid <- lift (item "id" (e_id response)) ;;
     let p := [("osmid", CInt osmid); ("geometry", CGeom point)] in
     ret (Some (add_tags p (e_tags response))))
    (osmid <- lift (item "id" (e_id response)) ;;
     log (PointInvalid osmid) ;;
     ret None) ;;
  match bound with
  | Some p => ret p
  | None => raise (UnboundLocalError "poi")
  end.

(** ** invalid_multipoly_handler *)

(** The geometries of a list of cells, if all of them are geometries. *)
Fixpoint geoms_of (cells : list cell) : option (list geometry) :=
  match cells with
  | [] => Some []
  | CGeom g :: rest =>
      match geoms_of rest with
      | Some gs => Some (g :: gs)
      | None => None
      end
  | _ :: _ => None
  end.

(** [MultiPolygon(list(column))]: a cell that is no geometry (NaN for
    a way that is not in the table) makes the constructor raise. *)
Definition make_multipolygon (cells : list cell) : result geometry :=
  match geoms_of cells with
  | Some gs =>
      match MultiPolygon gs with
      | Some g => Ok g
      | None => Raise GeometryError
      end
  | None => Raise (TypeError "not a polygon")
  end.

Definition invalid_multipoly_handler {L} (gdf : DataFrame)
    (relation : element) (way_ids : list Z) : M L (option geometry) :=
  try_except
    (gdf_clean <- lift (dropna gdf "geometry") ;;
     cells <- lift (column gdf_clean "geometry") ;;
     multipoly <- lift (make_multipolygon cells) ;;
     ret (Some multipoly))
    (rid <- lift (item "id" (e_id relation)) ;;
     log (MultiPolygonInvalid rid way_ids) ;;
     ret None).

(** ** parse_osm_relations *)

(** The two frames that the loop rebinds. *)
Record rel_locals := {
  gdf_relations : DataFrame;
  osm_way_df : DataFrame
}.

(** [if multipoly:] *)
Definition truthy (multipoly : option geometry) : bool :=
  match multipoly with
  | Some g => geom_bool g
  | None => false
  end.

(** The row [geo] of a relation (lines 368-376). *)
Definition relation_row (tags : list (string * string)) (rid : Z)
    (multipoly : option geometry) (member_way_ids : list Z)
    (member_nodes : list cell) : poi :=
  let geo := map (fun kv => (fst kv, CStr (snd kv))) tags in
  let geo := fold_left (fun g col => dict_set g col CNone)
               ["geometry"; "ways"; "nodes"; "element_type"; "osmid"] geo in
  let geo := dict_set geo "geometry"
               (match multipoly with Some g => CGeom g | None => CNone end) in
  let geo := dict_set geo "ways" (CIds member_way_ids) in
  let geo := dict_set geo "nodes" (CCells member_nodes) in
  let geo := dict_set geo "element_type" (CStr "relation") in
  dict_set geo "osmid" (CInt rid).

Definition member_way_ids_of (members : list member) : list Z :=
  map m_ref (filter (fun m => String.eqb (m_type m) "way") members).

(** The body of the loop over [relations] (lines 352-383). *)
Definition parse_relation (relation : element) : M rel_locals unit :=
  try_except
    (tags <- lift (item "tags" (e_tags relation)) ;;
     type <- lift (item "type" (dict_get tags "type")) ;;
     if String.eqb type "multipolygon" then
       members <- lift (item "members" (e_members relation)) ;;
       let member_way_ids := member_way_ids_of members in
       l <- get ;;
       member_ways <- lift (reindex (osm_way_df l) member_way_ids) ;;
       member_nodes <- lift (column member_ways "nodes") ;;
       multipoly <- try_except
         (cells <- lift (column member_ways "geometry") ;;
          g <- lift (make_multipolygon cells) ;;
          ret (Some g))
         (invalid_multipoly_handler member_ways relation member_way_ids) ;;
       if truthy multipoly then
         rid <- lift (item "id" (e_id relation)) ;;
         let geo := frame_of_row rid
           (relation_row tags rid multipoly member_way_ids member_nodes) in
         l <- get ;;
         put {| gdf_relations := append (gdf_relations l) geo;
                osm_way_df := osm_way_df l |} ;;
         l <- get ;;
         ways <- lift (drop (osm_way_df l) member_way_ids) ;;
         put {| gdf_relations := gdf_relations l; osm_way_df := ways |}
       else ret tt
     else ret tt)
    (rid <- lift (item "id" (e_id relation)) ;;
     log (RelationUnparsed rid)).

(** The loop, and the merge after it. *)
Definition parse_osm_relations_body (relations : list element)
  : M rel_locals DataFrame :=
  for_each relations parse_relation ;;
  l <- get ;;
  ret (append (osm_way_df l) (gdf_relations l)).

Definition parse_osm_relations {L} (relations : list element)
    (osm_way_df : DataFrame) : M L DataFrame :=
  call (parse_osm_relations_body relations)
       {| gdf_relations := empty_frame; osm_way_df := osm_way_df |}.

(** ** osm_poi_download *)

(** [downloader.overpass_request], the one network call. *)
Variable overpass_request : string -> Z -> result response.

Definition request {L} (query : string) (timeout : Z) : M L response :=
  fun l => (l, [Request query timeout], overpass_request query timeout).

(** What unpacking the empty tuple into four names says. *)
Definition unpack_msg : string :=
  "not enough values to unpack (expected 4, got 0)".

Definition missing_area_msg : string :=
  "You must pass a polygon or north, south, east, and west".

Definition osm_poi_download {L} (tags : pyval) (polygon : option geometry)
    (north south east west : option float)
    (timeout : Z) (memory : option Z) (custom_settings : option string)
  : M L response :=
  box <- match polygon with
         | Some p =>
             match bounds p with
             | Some (w, s, e, n) => ret (n, s, e, w)
             | None => raise (ValueError unpack_msg)
             end
         | None =>
             match north, south, east, west with
             | Some n, Some s, Some e, Some w => ret (n, s, e, w)
             | _, _, _, _ => raise (ValueError missing_area_msg)
             end
         end ;;
  match box with
  | (n, s, e, w) =>
      query <- lift (create_poi_query n s e w tags timeout memory
                       custom_settings) ;;
      request query timeout
  end.

(** ** create_poi_gdf *)

(** The three collections that the loop over the elements fills. *)
Record gdf_locals := {
  poi_nodes : list (Z * poi);
  poi_ways : list (Z * poi);
  relations : list element
}.

(** The body of the loop over [responses['elements']]
    (lines 451-469). *)
Definition classify (coords : list (Z * (float * float)))
    (result : element) : M gdf_locals unit :=
  type <- lift (item "type" (e_type result)) ;;
  if String.eqb type "node" && has_tags result then
    p <- parse_osm_node result ;;
    let p := dict_set p "element_type" (CStr "node") in
    id <- lift (item "id" (e_id result)) ;;
    l <- get ;;
    put {| poi_nodes := dict_set (poi_nodes l) id p;
           poi_ways := poi_ways l; relations := relations l |}
  else if String.eqb type "way" then
    poi_area <- parse_polygonal_poi coords result ;;
    match poi_area with
    | Some p =>
        let p := dict_set p "element_type" (CStr "way") in
        id <- lift (item "id" (e_id result)) ;;
        l <- get ;;
        put {| poi_nodes := poi_nodes l;
               poi_ways := dict_set (poi_ways l) id p;
               relations := relations l |}
    | None => ret tt
    end
  else if String.eqb type "relation" then
    l <- get ;;
    put {| poi_nodes := poi_nodes l; poi_ways := poi_ways l;
           relations := relations l ++ [result] |}
  else ret tt.

(** [gdf.loc[gdf['geometry'].centroid.within(polygon) == True]]: a row
    without a geometry is not within. *)
Definition within_filter (gdf : DataFrame) (polygon : geometry)
  : result DataFrame :=
  match column gdf "geometry" with
  | Raise e => Raise e
  | Ok _ =>
      Ok {| columns := columns gdf;
            rows := filter (fun r =>
                      match row_cell (snd r) "geometry" with
                      | CGeom g => centroid_within g polygon
                      | _ => false
                      end) (rows gdf) |}
  end.

Definition create_poi_gdf_body (tags : pyval) (polygon : option geometry)
    (north south east west : option float)
    (timeout : Z) (memory : option Z) (custom_settings : option string)
  : M gdf_locals DataFrame :=
  responses <- osm_poi_download tags polygon north south east west
                 timeout memory custom_settings ;;
  coords <- lift (parse_nodes_coords responses) ;;
  for_each (elements responses) (classify coords) ;;
  l <- get ;;
  let gdf_nodes := frame_of_dict (poi_nodes l) in
  let gdf_ways := frame_of_dict (poi_ways l) in
  gdf_ways <- parse_osm_relations (relations l) gdf_ways ;;
  let gdf := append gdf_nodes gdf_ways in
  match polygon with
  | Some p => if geom_bool p then lift (within_filter gdf p) else ret gdf
  | None => ret gdf
  end.

Definition create_poi_gdf {L} (tags : pyval) (polygon : option geometry)
    (north south east west : option float)
    (timeout : Z) (memory : option Z) (custom_settings : option string)
  : M L DataFrame :=
  call (create_poi_gdf_body tags polygon north south east west
          timeout memory custom_settings)
       {| poi_nodes := []; poi_ways := []; relations := [] |}.

(** ** pois_from_polygon *)

Definition pois_from_polygon {L} (polygon : option geometry) (tags : pyval)
    (timeout : Z) (memory : option Z) (custom_settings : option string)
  : M L DataFrame :=
  create_poi_gdf tags polygon None None None None
    timeout memory custom_settings.

(** ** pois_from_point, pois_from_address, pois_from_place *)

(** [core.bbox_from_point]: north, south, east, west. *)
Variable bbox_from_point :
  float * float -> float -> float * float * float * float.

(** [geo_utils.geocode] *)
Variable geocode : string -> result (float * float).

(** [core.gdf_from_place(place, which_result)['geometry'].iloc[0]] *)
Variable place_polygon : string -> Z -> result (option geometry).

Definition pois_from_point {L} (point : float * float) (tags : pyval)
    (distance : float)
    (timeout : Z) (memory : option Z) (custom_settings : option string)
  : M L DataFrame :=
  match bbox_from_point point distance with
  | (north, south, east, west) =>
      create_poi_gdf tags None (Some north) (Some south) (Some east)
        (Some west) timeout memory custom_settings
  end.

Definition pois_from_address {L} (address : string) (tags : pyval)
    (distance : float)
    (timeout : Z) (memory : option Z) (custom_settings : option string)
  : M L DataFrame :=
  point <- lift (geocode address) ;;
  pois_from_point point tags distance timeout memory custom_settings.

Definition pois_from_place {L} (place : string) (tags : pyval)
    (which_result : Z)
    (timeout : Z) (memory : option Z) (custom_settings : option string)
  : M L DataFrame :=
  polygon <- lift (place_polygon place which_result) ;;
  create_poi_gdf tags polygon None None None None
    timeout memory custom_settings.
End Pois.

(** ** A concrete geometry library

    Coordinates are whole degrees, a whole number standing for the
    double nearest to it; a ring needs three vertices unless it is
    empty; a multipolygon is made of rings; an empty geometry is falsy
    and has no bounds. The centroid of a shape with area is exact, as a
    pair of fractions, and is within a polygon when it is inside one of
    its rings and off the edges; a shape without area other than a point
    has no centroid here. It serves to run the functions on concrete
    responses. *)

Module Plane.

Inductive shape :=
| Pt (lon lat : Z)
| Ring (ring : list (Z * Z))
| Multi (parts : list shape).

Definition is_ring (s : shape) : bool :=
  match s with Ring _ => true | _ => false end.

Fixpoint nonempty (s : shape) : bool :=
  match s with
  | Pt _ _ => true
  | Ring [] => false
  | Ring (_ :: _) => true
  | Multi parts => existsb nonempty parts
  end.

Definition polygon (ring : list (Z * Z)) : option shape :=
  match ring with
  | [_] | [_; _] => None
  | _ => Some (Ring ring)
  end.

Definition multipolygon (parts : list shape) : option shape :=
  if forallb is_ring parts then Some (Multi parts) else None.

Fixpoint vertices (s : shape) : list (Z * Z) :=
  match s with
  | Pt lon lat => [(lon, lat)]
  | Ring ring => ring
  | Multi parts => flat_map vertices parts
  end.

(** West, south, east, north of the vertices. *)
Definition box (s : shape) : option (Z * Z * Z * Z) :=
  match vertices s with
  | [] => None
  | (x, y) :: rest =>
      let xs := map fst rest in
      let ys := map snd rest in
      Some (fold_right Z.min x xs, fold_right Z.min y ys,
            fold_right Z.max x xs, fold_right Z.max y ys)
  end.

(** The edges of a ring, the last vertex joined to the first. *)
Definition edges (ring : list (Z * Z)) : list ((Z * Z) * (Z * Z)) :=
  match ring with
  | [] => []
  | first :: rest => combine ring (rest ++ [first])
  end.

Definition cross (edge : (Z * Z) * (Z * Z)) : Z :=
  match edge with
  | ((x1, y1), (x2, y2)) => x1 * y2 - x2 * y1
  end.

(** Twice the signed area of a ring, and six times its moments: the
    centroid is (mx / (3 a), my / (3 a)). *)
Definition ring_sums (ring : list (Z * Z)) : Z * Z * Z :=
  fold_right
    (fun edge sums =>
       match edge, sums with
       | ((x1, y1), (x2, y2)), (a, mx, my) =>
           (a + cross edge, mx + (x1 + x2) * cross edge,
            my + (y1 + y2) * cross edge)
       end)
    (0, 0, 0) (edges ring).

(** The sums of the rings of a shape, each ring counted with a positive
    area. *)
Fixpoint area_sums (s : shape) : Z * Z * Z :=
  match s with
  | Pt _ _ => (0, 0, 0)
  | Ring ring =>
      match ring_sums ring with
      | (a, mx, my) => (Z.abs a, Z.sgn a * mx, Z.sgn a * my)
      end
  | Multi parts =>
      fold_right
        (fun part sums =>
           match area_sums part, sums with
           | (a, mx, my), (a', mx', my') => (a + a', mx + mx', my + my')
           end)
        (0, 0, 0) parts
  end.

(** The centroid as numerators over a positive denominator. *)
Definition centroid (s : shape) : option (Z * Z * Z) :=
  match s with
  | Pt lon lat => Some (lon, lat, 1)
  | _ =>
      match area_sums s with
      | (a, mx, my) => if 0 <? a then Some (mx, my, 3 * a) else None
      end
  end.

(** The point (px / d, py / d) against one edge: is it on the edge, and
    what the edge adds to the winding number. *)
Definition side (px py d : Z) (edge : (Z * Z) * (Z * Z)) : Z :=
  match edge with
  | ((x1, y1), (x2, y2)) =>
      (d * x2 - d * x1) * (py - d * y1) - (px - d * x1) * (d * y2 - d * y1)
  end.

Definition on_edge (px py d : Z) (edge : (Z * Z) * (Z * Z)) : bool :=
  match edge with
  | ((x1, y1), (x2, y2)) =>
      (side px py d edge =? 0)
      && (Z.min (d * x1) (d * x2) <=? px) && (px <=? Z.max (d * x1) (d * x2))
      && (Z.min (d * y1) (d * y2) <=? py) && (py <=? Z.max (d * y1) (d * y2))
  end.

Definition winding (px py d : Z) (edge : (Z * Z) * (Z * Z)) : Z :=
  match edge with
  | ((x1, y1), (x2, y2)) =>
      if d * y1 <=? py
      then if (py <? d * y2) && (0 <? side px py d edge) then 1 else 0
      else if (d * y2 <=? py) && (side px py d edge <? 0) then -1 else 0
  end.

(** Strictly inside a ring: off its edges, with a winding number that is
    not zero. *)
Definition in_ring (px py d : Z) (ring : list (Z * Z)) : bool :=
  negb (existsb (on_edge px py d) (edges ring))
  && negb (fold_right (fun edge n => winding px py d edge + n) 0 (edges ring)
           =? 0).

Fixpoint covers (p : shape) (px py d : Z) : bool :=
  match p with
  | Pt _ _ => false
  | Ring ring => in_ring px py d ring
  | Multi parts => existsb (fun part => covers part px py d) parts
  end.

(** [s.centroid.within(p)] *)
Definition inside (s p : shape) : bool :=
  match centroid s with
  | Some (px, py, d) => covers p px py d
  | None => false
  end.

(** The double nearest to a whole number, ties to even; beyond the range
    of the doubles it is infinite. *)
Definition nearest_double (x : Z) : Z :=
  let a := Z.abs x in
  if a <? 2 ^ 53 then x
  else
    let k := Z.log2 a - 52 in
    let q := a / 2 ^ k in
    let r := a mod 2 ^ k in
    let half := 2 ^ (k - 1) in
    let q' := if r <? half then q
              else if half <? r then q + 1
              else if Z.even q then q else q + 1 in
    Z.sgn x * (q' * 2 ^ k).

(** ['{:.6f}'.format(x)] for the float of a whole number. *)
Definition format_whole (x : Z) : string :=
  let v := nearest_double x in
  if 2 ^ 1024 <=? Z.abs v
  then (if v <? 0 then "-inf" else "inf")
  else (str_int v ++ ".000000")%string.

Definition settings_template (timeout : Z) (maxsize : string) : string :=
  ("[out:json][timeout:" ++ str_int timeout ++ "]" ++ maxsize)%string.

Definition env : External :=
  {| float := Z;
     geometry := shape;
     format_6f := format_whole;
     default_overpass_query_settings := settings_template;
     Point := Pt;
     Polygon := polygon;
     MultiPolygon := multipolygon;
     geom_bool := nonempty;
     bounds := box;
     centroid_within := inside |}.

End Plane.

(** ** Sample responses

    Three triangular ways and relations over them, in the concrete
    geometry of [Plane]. *)

Module Sample.
Import Plane.
#[local] Existing Instance env.

Definition triangle (k : Z) : list (Z * Z) := [(k, 0); (k + 1, 0); (k, 1)].

(** The row of way [id] as [create_poi_gdf] stores it. *)
Definition way_row (id : Z) : Z * poi :=
  (id, [("nodes", CIds [10 * id; 10 * id + 1; 10 * id + 2]);
        ("geometry", CGeom (Ring (triangle id)));
        ("osmid", CInt id);
        ("element_type", CStr "way")]).

Definition ways : DataFrame := frame_of_dict [way_row 1; way_row 2; way_row 3].

Definition way_member (ref : Z) : member :=
  {| m_type := "way"; m_ref := ref; m_role := "outer" |}.

(** A multipolygon relation with the given member ways. *)
Definition multipolygon_relation (id : Z) (refs : list Z) : element :=
  {| e_type := Some "relation"; e_id := Some id;
     e_lat := None; e_lon := None; e_nodes := None;
     e_tags := Some [("type", "multipolygon")];
     e_members := Some (map way_member refs) |}.

Definition start : rel_locals :=
  {| gdf_relations := empty_frame; osm_way_df := ways |}.

(** A node, with or without coordinates and tags. *)
Definition node (id : Z) (lat lon : option Z)
    (tags : option (list (string * string))) : element :=
  {| e_type := Some "node"; e_id := Some id; e_lat := lat; e_lon := lon;
     e_nodes := None; e_tags := tags; e_members := None |}.

(** A way without tags. *)
Definition plain_way (id : Z) (nodes : list Z) : element :=
  {| e_type := Some "way"; e_id := Some id; e_lat := None; e_lon := None;
     e_nodes := Some nodes; e_tags := None; e_members := None |}.

Definition corner_nodes : list element :=
  [node 1 (Some 0) (Some 0) None; node 2 (Some 0) (Some 1) None;
   node 3 (Some 1) (Some 0) None].

(** The server that answers every query with three untagged nodes and
    the untagged way through them. *)
Definition triangle_server (query : string) (timeout : Z) : result response :=
  Ok {| elements := corner_nodes ++ [plain_way 9 [1; 2; 3]] |}.

(** The query for every amenity in the box from (0, 0) to (1, 1). *)
Definition amenity_tags : pyval := VDict [("amenity", VBool true)].

Definition amenity_query : string :=
  match create_poi_query (1 : float) 0 1 0 amenity_tags 180 None None with
  | Ok query => query
  | Raise _ => EmptyString
  end.

(** The two frames when the loop has passed relation 6 over way 3. *)
Definition after_relation_6 : rel_locals :=
  fst (fst (for_each [multipolygon_relation 6 [3]] parse_relation start)).

Definition no_place (place : string) (which_result : Z)
  : result (option geometry) := Ok None.

End Sample.

(** ** The words of the specification *)

(** A tag filter value is a boolean, a string, or a list of strings. *)
Definition valid_value (v : pyval) : bool :=
  match v with
  | VBool _ | VStr _ => true
  | VList l => forallb is_str l
  | _ => false
  end.

Definition valid_filter (items : list (string * pyval)) : bool :=
  forallb (fun kv => valid_value (snd kv)) items.

(** The normalized (key, value-or-wildcard) pairs of a filter: a boolean
    becomes one wildcard entry for its key, a string one entry, a list of
    strings one entry per string, in input order. [None] is the
    wildcard. *)
Definition normalized_pairs (items : list (string * pyval))
  : list (string * option string) :=
  flat_map (fun kv =>
    match snd kv with
    | VBool _ => [(fst kv, None)]
    | VStr s => [(fst kv, Some s)]
    | VList l => map (fun s => (fst kv, Some s)) (strs l)
    | _ => []
    end) items.

(** The entry of [tags_dict] that a valid value is normalized to. *)
Definition normal (v : pyval) : tag_value :=
  match v with
  | VBool b => TBool b
  | VStr s => TList [s]
  | VList l => TList (strs l)
  | _ => TList []
  end.

(** Reading every boolean as [True]: in a filter, and in [tags_dict]. *)
Definition as_true (kv : string * pyval) : string * pyval :=
  match snd kv with
  | VBool _ => (fst kv, VBool true)
  | _ => kv
  end.

Definition as_wildcard (kv : string * tag_value) : string * tag_value :=
  match snd kv with
  | TBool _ => (fst kv, TBool true)
  | _ => kv
  end.

(** A node element that has no [tags] key. *)
Definition untagged_node {E : External} (result : element) : bool :=
  has_type result "node" && negb (has_tags result).

(** The row of a way that has no tags: its four columns. *)
Definition untagged_way_row {E : External} (osmid : Z) (nodes : list Z)
    (polygon : geometry) : poi :=
  [("nodes", CIds nodes); ("geometry", CGeom polygon); ("osmid", CInt osmid);
   ("element_type", CStr "way")].

(** The cell of a column for the way labelled [i]: NaN when the table
    has no such way. *)
Definition cell_at {E : External} (ways : DataFrame) (col : string) (i : Z)
  : cell :=
  match dict_get (rows ways) i with
  | Some row => row_cell row col
  | None => CNaN
  end.

(** The rows of a frame under a label. *)
Definition rows_at {E : External} (df : DataFrame) (i : Z) : list (Z * poi) :=
  filter (fun r => Z.eqb (fst r) i) (rows df).

Definition has_id {E : External} (relation : element) : Prop :=
  e_id relation <> None.

(** What one pass of the loop over the relations may do to the two
    frames: ways only leave the table, and the rows that are appended to
    the relations are labelled with the id of the relation. *)
Definition step_inv {E : External} (rid : Z) (l l' : rel_locals) : Prop :=
  columns (osm_way_df l') = columns (osm_way_df l)
  /\ (exists keep, rows (osm_way_df l') = filter keep (rows (osm_way_df l)))
  /\ (exists extra,
        rows (gdf_relations l') = rows (gdf_relations l) ++ extra
        /\ Forall (fun r => fst r = rid) extra).

(** The same for a run of the loop over [relations]. *)
Definition loop_inv {E : External} (relations : list element)
    (l l' : rel_locals) : Prop :=
  columns (osm_way_df l') = columns (osm_way_df l)
  /\ (exists keep, rows (osm_way_df l') = filter keep (rows (osm_way_df l)))
  /\ (exists extra,
        rows (gdf_relations l') = rows (gdf_relations l) ++ extra
        /\ Forall (fun r => In (Some (fst r)) (map e_id relations)) extra).

(** What [parse_osm_relations] returns: the result of its body on the
    way table and no relations yet. *)
Definition parse_osm_relations_result {E : External}
    (relations : list element) (ways : DataFrame) : result DataFrame :=
  snd (parse_osm_relations_body relations
         {| gdf_relations := empty_frame; osm_way_df := ways |}).

(** A relation is absorbed by a run of [parse_osm_relations]: the
    relations have one row under its id, [row], and none of its member
    way ids is left in the way table. *)
Definition absorbed {E : External} (relations : list element)
    (ways : DataFrame) (rid : Z) (row : poi) (ids : list Z) : Prop :=
  exists final t,
    parse_osm_relations_body relations
      {| gdf_relations := empty_frame; osm_way_df := ways |} =
      (final, t, Ok (append (osm_way_df final) (gdf_relations final)))
    /\ rows_at (gdf_relations final) rid = [(rid, row)]
    /\ (forall i, In i ids -> ~ In i (index (osm_way_df final)))
    /\ incl (rows (osm_way_df final)) (rows ways).

(** [sub] occurs in [s]. *)
Definition contains (sub s : string) : Prop :=
  exists pre post, s = (pre ++ sub ++ post)%string.

(** The clause of one element kind for one normalized pair. *)
Definition clause {E : External} (bbox : string) (pair : string * option string)
    (kind : string) : string :=
  match snd pair with
  | None => component (tag_str bbox (fst pair) (EBool true)) kind
  | Some v => component (tag_str bbox (fst pair) (EStr v)) kind
  end.

(** The text of the clause of one element kind for one normalized pair
    in Overpass QL, written out: the kind, the key between double quotes
    in brackets, with the value between double quotes after an equals
    sign unless it is the wildcard, the bounding box, and the
    recursion. *)
Definition quote : string := String "034"%char EmptyString.

Definition overpass_clause (kind key : string) (value : option string)
    (bbox : string) : string :=
  match value with
  | None =>
      ("(" ++ kind ++ "[" ++ quote ++ key ++ quote ++ "]"
           ++ bbox ++ ";(._;>;););")%string
  | Some v =>
      ("(" ++ kind ++ "[" ++ quote ++ key ++ quote ++ "=" ++ quote ++ v
           ++ quote ++ "]" ++ bbox ++ ";(._;>;););")%string
  end.

(** The three clauses of a normalized pair. *)
Definition clauses_of (bbox : string) (pair : string * option string)
  : list string :=
  [overpass_clause "node" (fst pair) (snd pair) bbox;
   overpass_clause "way" (fst pair) (snd pair) bbox;
   overpass_clause "relation" (fst pair) (snd pair) bbox].

(** [tags] is a dict whose values are booleans, strings or lists of
    strings. *)
Definition valid_tags (tags : pyval) : bool :=
  match tags with
  | VDict items => valid_filter items
  | _ => false
  end.

(** [d'] is [d] with an entry of no values for [key], which [d] lacks. *)
Definition with_empty (key : string) (d d' : list (string * tag_value))
  : Prop :=
  exists d1 d2,
    d = d1 ++ d2 /\ d' = d1 ++ (key, TList []) :: d2
    /\ ~ In key (map fst d).

(** The coordinates, latitude first, of the last node element with id
    [i] among [results]. *)
Fixpoint last_node_coords {E : External} (results : list element) (i : Z)
  : option (float * float) :=
  match results with
  | [] => None
  | r :: rest =>
      match last_node_coords rest i with
      | Some c => Some c
      | None =>
          match e_id r, e_lat r, e_lon r with
          | Some id, Some lat, Some lon =>
              if has_type r "node" && Z.eqb id i then Some (lat, lon) else None
          | _, _, _ => None
          end
      end
  end.

(** A node element that lacks its latitude, its longitude or its id. *)
Definition incomplete_node {E : External} (result : element) : Prop :=
  has_type result "node" = true
  /\ (e_lat result = None \/ e_lon result = None \/ e_id result = None).

(** The columns that [parse_polygonal_poi] fills before the tags. *)
Definition way_columns {E : External} (osmid : Z) (nodes : list Z)
    (polygon : geometry) : poi :=
  [("nodes", CIds nodes); ("geometry", CGeom polygon); ("osmid", CInt osmid)].

(** The columns that [parse_osm_node] fills before the tags. *)
Definition node_columns {E : External} (osmid : Z) (lat lon : float) : poi :=
  [("osmid", CInt osmid); ("geometry", CGeom (Point lon lat))].

(** The collections of the loop over the elements are well formed: the
    ways are stored under distinct ids, each with the four columns of a
    way and the element type "way"; each node has the element type
    "node". *)
Definition way_record_ok {E : External} (record : poi) : Prop :=
  row_cell record "element_type" = CStr "way"
  /\ forall col, In col ["nodes"; "geometry"; "osmid"; "element_type"] ->
                 In col (map fst record).

Definition collections_ok {E : External} (g : gdf_locals) : Prop :=
  NoDup (map fst (poi_ways g))
  /\ Forall (fun r => way_record_ok (snd r)) (poi_ways g)
  /\ Forall (fun r => row_cell (snd r) "element_type" = CStr "node")
            (poi_nodes g).

(** A relation whose type tag is there and is not "multipolygon". *)
Definition other_type {E : External} (relation : element) : bool :=
  match e_tags relation with
  | Some tags =>
      match dict_get tags "type" with
      | Some type => negb (String.eqb type "multipolygon")
      | None => false
      end
  | None => false
  end.

(** A row that [parse_osm_relations] made for one of [relations]. *)
Definition relation_record {E : External} (relations : list element)
    (r : Z * poi) : Prop :=
  In (Some (fst r)) (map e_id relations)
  /\ row_cell (snd r) "element_type" = CStr "relation"
  /\ row_cell (snd r) "osmid" = CInt (fst r)
  /\ exists mp, row_cell (snd r) "geometry" = CGeom mp /\ geom_bool mp = true.

(** A node element that has its type, coordinates and id. *)
Definition complete_node {E : External} (result : element) : bool :=
  has_type result "node"
  && match e_lat result, e_lon result, e_id result with
     | Some _, Some _, Some _ => true
     | _, _, _ => false
     end.

(** The row that [create_poi_gdf] stores for a node. *)
Definition node_record {E : External} (result : element) : list (Z * poi) :=
  match e_id result, e_lat result, e_lon result with
  | Some osmid, Some lat, Some lon =>
      [(osmid,
        dict_set (add_tags (node_columns osmid lat lon) (e_tags result))
          "element_type" (CStr "node"))]
  | _, _, _ => []
  end.

(** ** More sample data *)

Module Town.
Import Plane.
#[local] Existing Instance env.

(** The server that answers every query with [results]. *)
Definition server (results : list element) (query : string) (timeout : Z)
  : result response :=
  Ok {| elements := results |}.

(** The query for every amenity in a box. *)
Definition query_for (n s e w : Z) : string :=
  match create_poi_query (n : float) s e w Sample.amenity_tags 180 None None
  with
  | Ok query => query
  | Raise _ => EmptyString
  end.

Definition corner_coords : list (Z * (float * float)) :=
  [(1, (0, 0)); (2, (0, 1)); (3, (1, 0))].

(** The triangle from (0, 0) to (2, 0) and (0, 2); its bounds are west 0,
    south 0, east 2, north 2. *)
Definition district : shape := Ring [(0, 0); (2, 0); (0, 2)].

Definition cafe : element :=
  Sample.node 5 (Some 1) (Some 1) (Some [("amenity", "cafe")]).

Definition bar : element :=
  Sample.node 6 (Some 1) (Some 2) (Some [("amenity", "bar"); ("name", "Zum")]).

(** A way whose tags use the names of two columns. *)
Definition odd_way : element :=
  {| e_type := Some "way"; e_id := Some 9; e_lat := None; e_lon := None;
     e_nodes := Some [1; 2; 3];
     e_tags := Some [("geometry", "flat"); ("element_type", "road")];
     e_members := None |}.

Definition untyped : element :=
  {| e_type := None; e_id := Some 4; e_lat := None; e_lon := None;
     e_nodes := None; e_tags := None; e_members := None |}.

Definition way_without_nodes : element :=
  {| e_type := Some "way"; e_id := Some 4; e_lat := None; e_lon := None;
     e_nodes := None; e_tags := None; e_members := None |}.

Definition relation_without_tags : element :=
  {| e_type := Some "relation"; e_id := Some 7; e_lat := None; e_lon := None;
     e_nodes := None; e_tags := None;
     e_members := Some [Sample.way_member 1] |}.

(** Relation 7 over ways 1 and 2 again, with other roles and with a node
    among its members. *)
Definition relation_with_roles : element :=
  {| e_type := Some "relation"; e_id := Some 7;
     e_lat := None; e_lon := None; e_nodes := None;
     e_tags := Some [("type", "multipolygon")];
     e_members :=
       Some [{| m_type := "way"; m_ref := 1; m_role := "inner" |};
             {| m_type := "node"; m_ref := 3; m_role := "label" |};
             {| m_type := "way"; m_ref := 2; m_role := "" |}] |}.

(** A way table whose one row holds a point where a polygon should
    be. *)
Definition pointed_ways : DataFrame :=
  frame_of_dict
    [(1, [("nodes", CIds [10; 11; 12]); ("geometry", CGeom (Pt 0 0));
          ("osmid", CInt 1); ("element_type", CStr "way")])].

Definition no_locals : gdf_locals :=
  {| poi_nodes := []; poi_ways := []; relations := [] |}.

(** The box of the given half width around a point (latitude,
    longitude). *)
Definition box_around (point : Z * Z) (distance : Z) : Z * Z * Z * Z :=
  (fst point + distance, fst point - distance,
   snd point + distance, snd point - distance).

Definition geocoder (address : string) : result (Z * Z) := Ok (1, 1).

End Town.

(** * Properties *)

(** ** Dictionaries *)

Section DictFacts.
Context {K V : Type} `{Key K}.

Lemma key_eqb_refl (k : K) : key_eqb k k = true.
Proof. destruct (key_eqb_spec k k); congruence. Qed.

Lemma key_eqb_neq (a b : K) : a <> b -> key_eqb a b = false.
Proof. intros Hab. destruct (key_eqb_spec a b); congruence. Qed.

Lemma mem_In (k : K) (l : list K) : mem k l = true <-> In k l.
Proof.
  unfold mem. rewrite existsb_exists. split.
  - intros [x [Hx Hk]]. destruct (key_eqb_spec k x); congruence.
  - intros Hk. exists k. split; [assumption | apply key_eqb_refl].
Qed.

Lemma mem_false (k : K) (l : list K) : mem k l = false <-> ~ In k l.
Proof.
  rewrite <- mem_In. destruct (mem k l); split; congruence.
Qed.

(** Setting a key that the dict does not have appends the entry. *)
Lemma dict_set_fresh (d : list (K * V)) (k : K) (v : V) :
  ~ In k (map fst d) -> dict_set d k v = d ++ [(k, v)].
Proof.
  induction d as [| [k' v'] d IH]; simpl; intros Hk.
  - reflexivity.
  - rewrite key_eqb_neq by tauto. rewrite IH by tauto. reflexivity.
Qed.

Lemma dict_get_set_same (d : list (K * V)) (k : K) (v : V) :
  dict_get (dict_set d k v) k = Some v.
Proof.
  induction d as [| [k' v'] d IH]; simpl.
  - now rewrite key_eqb_refl.
  - destruct (key_eqb k' k) eqn:Hk; simpl; rewrite Hk; auto.
Qed.

Lemma dict_get_set_other (d : list (K * V)) (k k' : K) (v : V) :
  k <> k' -> dict_get (dict_set d k v) k' = dict_get d k'.
Proof.
  intros Hne. induction d as [| [k0 v0] d IH]; simpl.
  - now rewrite key_eqb_neq.
  - destruct (key_eqb_spec k0 k) as [-> | Hk0]; simpl.
    + now rewrite key_eqb_neq.
    + destruct (key_eqb k0 k'); auto.
Qed.

Lemma dict_get_None (d : list (K * V)) (k : K) :
  dict_get d k = None <-> ~ In k (map fst d).
Proof.
  induction d as [| [k' v'] d IH]; simpl.
  - tauto.
  - destruct (key_eqb_spec k' k) as [-> | Hne].
    + split; [discriminate | tauto].
    + rewrite IH. tauto.
Qed.

Lemma dict_get_In (d : list (K * V)) (k : K) (v : V) :
  dict_get d k = Some v -> In (k, v) d.
Proof.
  induction d as [| [k' v'] d IH]; simpl; [discriminate |].
  destruct (key_eqb_spec k' k) as [-> | Hne].
  - intros [= ->]. now left.
  - auto.
Qed.
End DictFacts.

(** ** Strings *)

Lemma string_append_assoc (a b c : string) :
  ((a ++ b) ++ c = a ++ (b ++ c))%string.
Proof.
  induction a as [| ch a IH]; simpl; [reflexivity | now rewrite IH].
Qed.

(** ** The query builder *)

Section QueryFacts.
Context {E : External}.

(** The loop over the items of a filter stops with the error as soon as
    one value is of a wrong type, whatever it has collected. *)
Lemma validate_tags_invalid (items : list (string * pyval)) :
  forall key value tags_dict,
    In (key, value) items -> valid_value value = false ->
    validate_tags items tags_dict = Raise (TypeError error_msg).
Proof.
  induction items as [| [k v] rest IH]; intros key value d Hin Hbad.
  - destruct Hin.
  - destruct Hin as [Heq | Hin].
    + injection Heq as -> ->. simpl.
      destruct value; simpl in Hbad; try discriminate; try reflexivity.
      now rewrite Hbad.
    + simpl. destruct v; try reflexivity; try (apply (IH key value); assumption).
      destruct (forallb is_str l); [apply (IH key value); assumption | reflexivity].
Qed.

Lemma validate_tags_valid (items : list (string * pyval)) :
  forall tags_dict,
    valid_filter items = true ->
    NoDup (map fst tags_dict ++ map fst items) ->
    validate_tags items tags_dict =
      Ok (tags_dict ++ map (fun kv => (fst kv, normal (snd kv))) items).
Proof.
  induction items as [| [k v] rest IH]; intros d Hvalid Hnodup; simpl.
  - now rewrite app_nil_r.
  - simpl in Hvalid. apply andb_prop in Hvalid as [Hv Hrest].
    assert (Hfresh : ~ In k (map fst d)).
    { simpl in Hnodup. apply NoDup_remove_2 in Hnodup.
      intros Hk. apply Hnodup, in_or_app. now left. }
    assert (Hnext : forall t, NoDup (map fst (d ++ [(k, t)]) ++ map fst rest)).
    { intros t. rewrite map_app, <- app_assoc. exact Hnodup. }
    destruct v; simpl in Hv; try discriminate.
    + rewrite dict_set_fresh by assumption. rewrite IH by auto.
      now rewrite <- app_assoc.
    + rewrite dict_set_fresh by assumption. rewrite IH by auto.
      now rewrite <- app_assoc.
    + rewrite Hv. rewrite dict_set_fresh by assumption. rewrite IH by auto.
      now rewrite <- app_assoc.
Qed.

(** The components of the normalized dict are the clauses of the
    normalized pairs. *)
Lemma components_of_normal (bbox : string) (items : list (string * pyval)) :
  query_components bbox
    (make_tags_list (map (fun kv => (fst kv, normal (snd kv))) items)) =
  flat_map (fun pair => map (clause bbox pair) kinds) (normalized_pairs items).
Proof.
  unfold query_components, make_tags_list, normalized_pairs.
  induction items as [| [k v] rest IH]; simpl; [reflexivity |].
  rewrite !flat_map_app. f_equal; [| exact IH].
  destruct v; simpl; try reflexivity.
  induction (strs l) as [| s ss IHs]; simpl; [reflexivity |].
  now rewrite IHs.
Qed.

Lemma clause_contains_bbox (bbox : string) (pair : string * option string)
    (kind : string) :
  contains bbox (clause bbox pair kind).
Proof.
  unfold clause, component, tag_str, contains.
  destruct pair as [k [v |]]; simpl snd; simpl fst.
  - exists ("(" ++ kind ++ "[" ++ dq ++ k ++ dq ++ "=" ++ dq ++ v ++ dq ++ "]")%string,
      ";(._;>;););"%string.
    rewrite !string_append_assoc. reflexivity.
  - exists ("(" ++ kind ++ "[" ++ dq ++ k ++ dq ++ "]")%string,
      ";(._;>;););"%string.
    rewrite !string_append_assoc. reflexivity.
Qed.

Lemma dict_set_as_wildcard (d : list (string * tag_value)) (k : string)
    (v : tag_value) :
  map as_wildcard (dict_set d k v) =
  dict_set (map as_wildcard d) k (snd (as_wildcard (k, v))).
Proof.
  induction d as [| [k' v'] d IH]; simpl.
  - now destruct v.
  - assert (Hfst : fst (as_wildcard (k', v')) = k') by now destruct v'.
    destruct (as_wildcard (k', v')) as [k0 v0] eqn:Hw. simpl in Hfst. subst k0.
    destruct (String.eqb k' k); simpl.
    + f_equal. now destruct v.
    + now rewrite Hw, IH.
Qed.

(** Validation does not look at the truth value of a boolean. *)
Lemma validate_tags_as_true (items : list (string * pyval)) :
  forall tags_dict,
    validate_tags (map as_true items) (map as_wildcard tags_dict) =
    match validate_tags items tags_dict with
    | Ok d => Ok (map as_wildcard d)
    | Raise e => Raise e
    end.
Proof.
  induction items as [| [k v] rest IH]; intros d; simpl; [reflexivity |].
  destruct v; simpl; try reflexivity.
  - rewrite <- IH, dict_set_as_wildcard. reflexivity.
  - rewrite <- IH, dict_set_as_wildcard. reflexivity.
  - destruct (forallb is_str l); [| reflexivity].
    rewrite <- IH, dict_set_as_wildcard. reflexivity.
Qed.

(** Neither do the components. *)
Lemma components_as_wildcard (bbox : string) (d : list (string * tag_value)) :
  query_components bbox (make_tags_list (map as_wildcard d)) =
  query_components bbox (make_tags_list d).
Proof.
  unfold query_components, make_tags_list.
  induction d as [| [k v] d IH]; simpl; [reflexivity |].
  rewrite !flat_map_app. f_equal; [| exact IH].
  now destruct v.
Qed.

Lemma create_poi_query_as_true (north south east west : float)
    (items : list (string * pyval)) (timeout : Z) (memory : option Z)
    (custom_settings : option string) :
  create_poi_query north south east west (VDict (map as_true items))
    timeout memory custom_settings =
  create_poi_query north south east west (VDict items)
    timeout memory custom_settings.
Proof.
  unfold create_poi_query.
  change (@nil (string * tag_value)) with (map as_wildcard []).
  rewrite validate_tags_as_true. simpl map.
  destruct (validate_tags items []); [| reflexivity].
  now rewrite components_as_wildcard.
Qed.
End QueryFacts.

(** C4. A tag filter with a value that is not a boolean, not a string and
    not a list of strings makes [create_poi_query] raise its filter error
    (the [TypeError] with [error_msg]), whatever the key and whatever the
    other arguments; no query is returned. *)
Theorem C4_invalid_filter_raises {E : External}
    (north south east west : float) (items : list (string * pyval))
    (key : string) (value : pyval)
    (timeout : Z) (memory : option Z) (custom_settings : option string) :
  In (key, value) items ->
  valid_value value = false ->
  create_poi_query north south east west (VDict items)
    timeout memory custom_settings = Raise (TypeError error_msg).
Proof.
  intros Hin Hbad. unfold create_poi_query.
  now rewrite (validate_tags_invalid items key value [] Hin Hbad).
Qed.

Lemma overpass_clause_is_component {E : External} (bbox : string)
    (pair : string * option string) (kind : string) :
  overpass_clause kind (fst pair) (snd pair) bbox = clause bbox pair kind.
Proof.
  unfold overpass_clause, clause, component, tag_str, quote, dq.
  destruct pair as [k [v |]]; simpl;
    repeat (rewrite string_append_assoc; simpl); reflexivity.
Qed.

(** C6. For a valid tag filter (a dict, so its keys are distinct),
    [create_poi_query] returns the settings followed by the joined
    clauses; for each normalized pair in order these are the clause of
    the pair for node, the one for way and the one for relation, so
    there are three times as many as normalized pairs; each is the text
    of [overpass_clause] and contains the bounding-box literal, which is
    the [.6f] formats of south, west, north and east in that order. *)
Theorem C6_three_clauses_per_pair {E : External}
    (north south east west : float) (items : list (string * pyval))
    (timeout : Z) (memory : option Z) (custom_settings : option string) :
  valid_filter items = true ->
  NoDup (map fst items) ->
  let bbox := ("(" ++ format_6f south ++ "," ++ format_6f west ++ ","
                   ++ format_6f north ++ "," ++ format_6f east ++ ")")%string in
  let clauses := flat_map (clauses_of bbox) (normalized_pairs items) in
  create_poi_query north south east west (VDict items)
    timeout memory custom_settings =
    Ok (make_overpass_settings timeout memory custom_settings ++ ";("
        ++ String.concat EmptyString clauses ++ ");out;")%string
  /\ length clauses = (3 * length (normalized_pairs items))%nat
  /\ Forall (contains bbox) clauses.
Proof.
  intros Hvalid Hnodup bbox clauses.
  assert (Hclauses : clauses =
    flat_map (fun pair => map (clause bbox pair) kinds)
             (normalized_pairs items)).
  { subst clauses. apply flat_map_ext. intros pair. unfold clauses_of, kinds.
    simpl. now rewrite !overpass_clause_is_component. }
  split; [| split].
  - unfold create_poi_query.
    rewrite (validate_tags_valid items [] Hvalid Hnodup). simpl app.
    unfold bbox_literal. fold bbox.
    now rewrite components_of_normal, Hclauses.
  - subst clauses. clear Hclauses.
    induction (normalized_pairs items) as [| p ps IH].
    + reflexivity.
    + simpl. simpl in IH. rewrite IH. lia.
  - rewrite Hclauses. apply Forall_forall. intros c Hc.
    apply in_flat_map in Hc as [pair [_ Hc]].
    apply in_map_iff in Hc as [kind [<- _]].
    apply clause_contains_bbox.
Qed.

(** C10. The boolean False passes the validation of a tag filter, and
    the query for a filter with False at a key is the query for the
    same filter with True at that key: the query of the one-key filter
    with False is the wildcard clause of the key for node, way and
    relation. *)
Theorem C10_false_same_as_true {E : External}
    (north south east west : float)
    (before after : list (string * pyval)) (key : string)
    (timeout : Z) (memory : option Z) (custom_settings : option string) :
  create_poi_query north south east west
    (VDict (before ++ (key, VBool false) :: after))
    timeout memory custom_settings =
  create_poi_query north south east west
    (VDict (before ++ (key, VBool true) :: after))
    timeout memory custom_settings
  /\ create_poi_query north south east west (VDict [(key, VBool false)])
       timeout memory custom_settings =
     Ok (make_overpass_settings timeout memory custom_settings ++ ";("
         ++ String.concat EmptyString
              (map (clause (bbox_literal north south east west) (key, None))
                   kinds)
         ++ ");out;")%string.
Proof.
  split.
  - rewrite <- (create_poi_query_as_true _ _ _ _
                  (before ++ (key, VBool false) :: after)).
    rewrite <- (create_poi_query_as_true _ _ _ _
                  (before ++ (key, VBool true) :: after)).
    now rewrite !map_app.
  - reflexivity.
Qed.

(** ** Running computations *)

Section MonadFacts.
Context {L : Type}.

Lemma bind_ok {A B} (a : A) (f : A -> M L B) (l : L) :
  bind (lift (Ok a)) f l = f a l.
Proof. unfold bind, lift. now destruct (f a l) as [[l' t] r]. Qed.

Lemma bind_ret {A B} (a : A) (f : A -> M L B) (l : L) :
  bind (ret a) f l = f a l.
Proof. unfold bind, ret. now destruct (f a l) as [[l' t] r]. Qed.

(** A loop over a concatenation runs the second part after the first. *)
Lemma for_each_app {X} (xs ys : list X) (body : X -> M L unit) (l : L) :
  for_each (xs ++ ys) body l =
  bind (for_each xs body) (fun _ => for_each ys body) l.
Proof.
  revert l. induction xs as [| x xs IH]; intros l; simpl.
  - now rewrite bind_ret.
  - unfold bind in *. destruct (body x l) as [[l1 t1] [[] | e]]; [| reflexivity].
    rewrite IH.
    destruct (for_each xs body l1) as [[l2 t2] [[] | e]]; [| reflexivity].
    destruct (for_each ys body l2) as [[l3 t3] r].
    now rewrite app_assoc.
Qed.

(** A loop whose body changes nothing changes nothing. *)
Lemma for_each_skip {X} (xs : list X) (body : X -> M L unit) (l : L) :
  (forall x, In x xs -> body x l = (l, [], Ok tt)) ->
  for_each xs body l = (l, [], Ok tt).
Proof.
  induction xs as [| x xs IH]; intros Hskip; simpl; [reflexivity |].
  unfold bind. rewrite (Hskip x) by now left.
  rewrite IH by (intros y Hy; apply Hskip; now right). reflexivity.
Qed.
End MonadFacts.

(** ** The element parsers *)

Section ParserFacts.
Context {E : External}.

(** A node id that the index does not have makes the ring fail. *)
Lemma ring_of_absent (coords : list (Z * (float * float))) (nodes : list Z)
    (node : Z) :
  In node nodes -> dict_get coords node = None ->
  exists e, ring_of coords nodes = Raise e.
Proof.
  induction nodes as [| n rest IH]; intros Hin Habsent; [destruct Hin |].
  simpl. destruct (dict_get coords n) as [[lat lon] |] eqn:Hn.
  - destruct Hin as [-> | Hin]; [congruence |].
    destruct (IH Hin Habsent) as [e ->]. now exists e.
  - now exists (KeyError (KInt n)).
Qed.
End ParserFacts.

(** C7. A way whose node-id list has an id that the node index lacks:
    [parse_polygonal_poi] returns None, logs the node-id list and raises
    nothing; the loop of [create_poi_gdf] that called it goes on with its
    collections unchanged. *)
Theorem C7_way_with_absent_node {E : External} {L : Type}
    (coords : list (Z * (float * float))) (response : element)
    (nodes : list Z) (node : Z) (l : L) (g : gdf_locals) :
  e_type response = Some "way" ->
  e_nodes response = Some nodes ->
  In node nodes ->
  dict_get coords node = None ->
  parse_polygonal_poi coords response l =
    (l, [Log (PolygonInvalid nodes)], Ok None)
  /\ classify coords response g = (g, [Log (PolygonInvalid nodes)], Ok tt).
Proof.
  intros Htype Hnodes Hin Habsent.
  destruct (ring_of_absent coords nodes node Hin Habsent) as [e He].
  assert (Hparse : forall L' (l' : L'),
             parse_polygonal_poi coords response l' =
               (l', [Log (PolygonInvalid nodes)], Ok None)).
  { intros L' l'. unfold parse_polygonal_poi, has_type.
    rewrite Htype, Hnodes. simpl.
    rewrite bind_ok. unfold try_except. rewrite He. reflexivity. }
  split; [apply Hparse |].
  unfold classify. rewrite Htype. simpl. rewrite bind_ok. simpl.
  unfold bind. rewrite Hparse. reflexivity.
Qed.

(** C5. A node element without [lat] or without [lon] (and with an id):
    [parse_osm_node] logs the failure and then raises
    [UnboundLocalError], because [return poi] reads a local that the
    failed [try] never bound. The element is not dropped quietly: the
    call crashes. *)
Theorem C5_node_without_coordinate_raises {E : External} {L : Type}
    (response : element) (osmid : Z) (l : L) :
  e_lat response = None \/ e_lon response = None ->
  e_id response = Some osmid ->
  parse_osm_node response l =
    (l, [Log (PointInvalid osmid)], Raise (UnboundLocalError "poi")).
Proof.
  intros Hmissing Hid. unfold parse_osm_node, try_except, bind.
  destruct (e_lon response) as [lon |] eqn:Hlon; simpl.
  - destruct Hmissing as [Hlat | Hlon']; [| discriminate].
    rewrite Hlat. simpl. rewrite Hid. reflexivity.
  - rewrite Hid. reflexivity.
Qed.

(** C8. Without a polygon and with one of north, south, east and west
    unset, the download, the assembly of the table, and the entry points
    that can be called so (from a polygon that is None, from a place
    that has no polygon) raise the missing-area error (the [ValueError]
    with [missing_area_msg]); no request is sent and nothing is logged. *)
Theorem C8_missing_area_raises {E : External} {L : Type}
    (overpass_request : string -> Z -> result response)
    (place_polygon : string -> Z -> result (option geometry))
    (tags : pyval) (north south east west : option float)
    (place : string) (which_result : Z)
    (timeout : Z) (memory : option Z) (custom_settings : option string)
    (l : L) :
  north = None \/ south = None \/ east = None \/ west = None ->
  osm_poi_download overpass_request tags None north south east west
    timeout memory custom_settings l =
    (l, [], Raise (ValueError missing_area_msg))
  /\ create_poi_gdf overpass_request tags None north south east west
       timeout memory custom_settings l =
     (l, [], Raise (ValueError missing_area_msg))
  /\ pois_from_polygon overpass_request None tags
       timeout memory custom_settings l =
     (l, [], Raise (ValueError missing_area_msg))
  /\ (place_polygon place which_result = Ok None ->
      pois_from_place overpass_request place_polygon place tags which_result
        timeout memory custom_settings l =
      (l, [], Raise (ValueError missing_area_msg))).
Proof.
  intros Hunset.
  assert (Hdownload : forall L' (l' : L'),
    osm_poi_download overpass_request tags None north south east west
      timeout memory custom_settings l' =
    (l', [], Raise (ValueError missing_area_msg))).
  { intros L' l'. unfold osm_poi_download.
    destruct north, south, east, west;
      try reflexivity;
      destruct Hunset as [H | [H | [H | H]]]; discriminate. }
  split; [apply Hdownload |]. split; [| split].
  - unfold create_poi_gdf, call, create_poi_gdf_body, bind.
    now rewrite Hdownload.
  - reflexivity.
  - intros Hplace. unfold pois_from_place. rewrite Hplace, bind_ok.
    reflexivity.
Qed.

(** ** The loop over the elements *)

Section ClassifyFacts.
Context {E : External}.

(** The loop passes over a node without tags. *)
Lemma classify_untagged_node (coords : list (Z * (float * float)))
    (result : element) (l : gdf_locals) :
  untagged_node result = true ->
  classify coords result l = (l, [], Ok tt).
Proof.
  unfold classify, untagged_node, has_type, has_tags. intros Hnode.
  destruct (e_type result) as [t |]; [| discriminate].
  destruct (e_tags result); [now rewrite andb_false_r in Hnode |].
  rewrite andb_true_r in Hnode. apply String.eqb_eq in Hnode. subst t.
  reflexivity.
Qed.

(** A way without tags whose ring is built is stored under its id, with
    its four columns and no other. *)
Lemma classify_untagged_way (coords : list (Z * (float * float)))
    (result : element) (nodes : list Z) (osmid : Z)
    (ring : list (float * float)) (polygon : geometry) (l : gdf_locals) :
  e_type result = Some "way" ->
  e_tags result = None ->
  e_nodes result = Some nodes ->
  e_id result = Some osmid ->
  ring_of coords nodes = Ok ring ->
  Polygon ring = Some polygon ->
  classify coords result l =
    ({| poi_nodes := poi_nodes l;
        poi_ways := dict_set (poi_ways l) osmid
                      (untagged_way_row osmid nodes polygon);
        relations := relations l |}, [], Ok tt).
Proof.
  intros Htype Htags Hnodes Hid Hring Hpolygon.
  unfold classify, parse_polygonal_poi, has_type, make_polygon, try_except,
    bind.
  rewrite Htype, Hnodes. simpl. rewrite Hring. simpl. rewrite Hpolygon. simpl.
  rewrite Hid. simpl. rewrite Htags. reflexivity.
Qed.

Lemma for_each_untagged_nodes (coords : list (Z * (float * float)))
    (results : list element) (l : gdf_locals) :
  for_each results (classify coords) l =
  for_each (filter (fun r => negb (untagged_node r)) results)
           (classify coords) l.
Proof.
  revert l. induction results as [| r rest IH]; intros l; [reflexivity |].
  simpl. destruct (untagged_node r) eqn:Hr; simpl.
  - unfold bind. rewrite classify_untagged_node by assumption. simpl.
    rewrite IH. now destruct (for_each _ _ l) as [[l' t] res].
  - unfold bind. destruct (classify coords r l) as [[l1 t1] [[] | e]];
      [| reflexivity].
    now rewrite IH.
Qed.
End ClassifyFacts.

(** ** Frames *)

Section FrameFacts.
Context {E : External}.

Lemma geoms_of_NaN (cells : list cell) :
  In CNaN cells -> geoms_of cells = None.
Proof.
  induction cells as [| c cells IH]; intros Hin; [destruct Hin |].
  destruct Hin as [-> | Hin]; [reflexivity |].
  simpl. destruct c; try reflexivity. now rewrite IH.
Qed.

Lemma filter_map_comm {A B} (f : A -> B) (p : B -> bool) (l : list A) :
  map f (filter (fun a => p (f a)) l) = filter p (map f l).
Proof.
  induction l as [| a l IH]; simpl; [reflexivity |].
  destruct (p (f a)); simpl; now rewrite IH.
Qed.

(** The column of a reindexed frame. *)
Lemma reindex_column (ways : DataFrame) (ids : list Z) :
  uniqueb (index ways) = true ->
  exists member_ways,
    reindex ways ids = Ok member_ways
    /\ columns member_ways = columns ways
    /\ forall col, map (fun r => row_cell (snd r) col) (rows member_ways) =
                   map (cell_at ways col) ids.
Proof.
  intros Hunique. unfold reindex. destruct ids as [| i ids].
  - eexists. split; [reflexivity |]. split; reflexivity.
  - rewrite Hunique. eexists. split; [reflexivity |]. split; [reflexivity |].
    intros col. cbn [rows]. rewrite map_map. apply map_ext. intros j.
    unfold cell_at. now destruct (dict_get (rows ways) j).
Qed.

(** A way with a geometry cell that is not NaN is in the table. *)
Lemma cell_at_present (ways : DataFrame) (col : string) (i : Z) :
  cell_at ways col i <> CNaN -> In i (index ways).
Proof.
  unfold cell_at, index. intros Hcell.
  destruct (dict_get (rows ways) i) as [row |] eqn:Hrow; [| congruence].
  apply dict_get_In in Hrow. now apply (in_map fst) in Hrow.
Qed.

Lemma geoms_of_present (ways : DataFrame) (ids : list Z) (gs : list geometry) :
  geoms_of (map (cell_at ways "geometry") ids) = Some gs ->
  forall i, In i ids -> In i (index ways).
Proof.
  intros Hgs i Hi. apply cell_at_present with (col := "geometry").
  intros Hnan. apply (in_map (cell_at ways "geometry")) in Hi.
  rewrite Hnan in Hi. apply geoms_of_NaN in Hi. congruence.
Qed.

(** Dropping labels that are all in the index removes their rows. *)
Lemma drop_present (ways : DataFrame) (ids : list Z) :
  (forall i, In i ids -> In i (index ways)) ->
  drop ways ids =
    Ok {| columns := columns ways;
          rows := filter (fun r => negb (mem (fst r) ids)) (rows ways) |}.
Proof.
  intros Hpresent. unfold drop.
  replace (filter (fun i => negb (mem i (index ways))) ids) with (@nil Z);
    [reflexivity |].
  symmetry. induction ids as [| i ids IH]; [reflexivity |].
  simpl. rewrite (proj2 (mem_In i (index ways))) by (apply Hpresent; now left).
  simpl. apply IH. intros j Hj. apply Hpresent. now right.
Qed.

End FrameFacts.

(** ** Relation resolution *)

(** Case analysis on the innermost scrutinee first. *)
Ltac crunch :=
  repeat (simpl;
          match goal with
          | |- context [match ?x with _ => _ end] =>
              lazymatch x with
              | context [match _ with _ => _ end] => fail
              | _ => destruct x eqn:?
              end
          end).

Section RelationFacts.
Context {E : External}.

(** A relation whose member ways are all in the table with a geometry,
    and whose multipolygon is built and not empty: its row is appended
    and its member ways leave the table. *)
Lemma parse_relation_absorbs (relation : element) (l : rel_locals)
    (tags : list (string * string)) (members : list member) (rid : Z)
    (gs : list geometry) (mp : geometry) :
  let ids := member_way_ids_of members in
  e_tags relation = Some tags ->
  dict_get tags "type" = Some "multipolygon" ->
  e_members relation = Some members ->
  e_id relation = Some rid ->
  uniqueb (index (osm_way_df l)) = true ->
  mem "nodes" (columns (osm_way_df l)) = true ->
  mem "geometry" (columns (osm_way_df l)) = true ->
  geoms_of (map (cell_at (osm_way_df l) "geometry") ids) = Some gs ->
  MultiPolygon gs = Some mp ->
  geom_bool mp = true ->
  parse_relation relation l =
    ({| gdf_relations :=
          append (gdf_relations l)
            (frame_of_row rid
               (relation_row tags rid (Some mp) ids
                  (map (cell_at (osm_way_df l) "nodes") ids)));
        osm_way_df :=
          {| columns := columns (osm_way_df l);
             rows := filter (fun r => negb (mem (fst r) ids))
                            (rows (osm_way_df l)) |} |},
     [], Ok tt).
Proof.
  intros ids Htags Htype Hmembers Hid Hunique Hnodes Hgeometry Hgs Hmp Htruthy.
  destruct (reindex_column (osm_way_df l) ids Hunique)
    as [member_ways [Hreindex [Hcolumns Hcells]]].
  unfold parse_relation, try_except, bind, lift, get, put, ret, item, column.
  rewrite Htags, Htype, Hmembers. simpl. fold ids.
  rewrite Hreindex, Hcolumns, Hnodes, Hgeometry, !Hcells.
  unfold make_multipolygon. rewrite Hgs, Hmp. simpl. rewrite Htruthy, Hid.
  simpl. rewrite (drop_present _ ids (geoms_of_present _ _ _ Hgs)).
  reflexivity.
Qed.

Lemma filter_all {A} (l : list A) : filter (fun _ => true) l = l.
Proof. induction l as [| a l IH]; simpl; [reflexivity | now rewrite IH]. Qed.

Lemma step_inv_refl (rid : Z) (l : rel_locals) : step_inv rid l l.
Proof.
  split; [reflexivity |]. split.
  - exists (fun _ => true). now rewrite filter_all.
  - exists []. split; [now rewrite app_nil_r | constructor].
Qed.

Lemma drop_Ok (ways dropped : DataFrame) (ids : list Z) :
  drop ways ids = Ok dropped ->
  columns dropped = columns ways
  /\ rows dropped = filter (fun r => negb (mem (fst r) ids)) (rows ways).
Proof.
  unfold drop. destruct (filter _ ids); [| discriminate].
  intros [= <-]. split; reflexivity.
Qed.

(** A relation that has an id never makes the loop raise, whatever else
    it lacks. *)
Lemma parse_relation_inv (relation : element) (rid : Z) (l : rel_locals) :
  e_id relation = Some rid ->
  exists l' t, parse_relation relation l = (l', t, Ok tt) /\ step_inv rid l l'.
Proof.
  intros Hid.
  unfold parse_relation, invalid_multipoly_handler, try_except, bind, lift,
    get, put, ret, log, item.
  rewrite Hid.
  crunch.
  all: simpl; do 2 eexists; (split; [reflexivity |]).
  all: try apply step_inv_refl.
  all: unfold step_inv; simpl.
  all: try match goal with
           | H : drop _ _ = Ok _ |- _ =>
               apply drop_Ok in H; destruct H as [Hcols Hrows];
               rewrite Hcols, Hrows
           end.
  all: (split; [reflexivity |]); split.
  all: try (eexists; reflexivity).
  all: try (exists (fun _ => true); now rewrite filter_all).
  all: try (eexists; split; [reflexivity |]; repeat constructor).
Qed.

Lemma filter_filter {A} (p q : A -> bool) (l : list A) :
  filter p (filter q l) = filter (fun a => q a && p a) l.
Proof.
  induction l as [| a l IH]; simpl; [reflexivity |].
  destruct (q a); simpl; [destruct (p a) |]; now rewrite IH.
Qed.

(** The loop over relations that all have an id runs to its end. *)
Lemma relations_loop_inv (relations : list element) :
  forall l, Forall has_id relations ->
  exists l' t,
    for_each relations parse_relation l = (l', t, Ok tt)
    /\ loop_inv relations l l'.
Proof.
  induction relations as [| r rs IH]; intros l Hids.
  - exists l, []. split; [reflexivity |]. split; [reflexivity |]. split.
    + exists (fun _ => true). now rewrite filter_all.
    + exists []. split; [now rewrite app_nil_r | constructor].
  - inversion Hids as [| r' rs' Hr Hrs]; subst.
    unfold has_id in Hr. destruct (e_id r) as [rid |] eqn:Hrid; [| congruence].
    destruct (parse_relation_inv r rid l Hrid)
      as [l1 [t1 [Hstep [Hcols1 [[keep1 Hways1] [extra1 [Hrels1 Hlabels1]]]]]]].
    destruct (IH l1 Hrs)
      as [l2 [t2 [Hloop [Hcols2 [[keep2 Hways2] [extra2 [Hrels2 Hlabels2]]]]]]].
    exists l2, (t1 ++ t2). split.
    + simpl. unfold bind. now rewrite Hstep, Hloop.
    + split; [congruence |]. split.
      * exists (fun a => keep1 a && keep2 a).
        now rewrite Hways2, Hways1, filter_filter.
      * exists (extra1 ++ extra2). split.
        { now rewrite Hrels2, Hrels1, app_assoc. }
        apply Forall_app. split.
        { eapply Forall_impl; [| exact Hlabels1].
          intros row Hrow. simpl. left. now rewrite Hrid, Hrow. }
        { eapply Forall_impl; [| exact Hlabels2].
          intros row Hrow. simpl. now right. }
Qed.

(** Rows leave an index without duplicates without duplicates. *)
Lemma uniqueb_filter (keep : Z * poi -> bool) (rs : list (Z * poi)) :
  uniqueb (map fst rs) = true -> uniqueb (map fst (filter keep rs)) = true.
Proof.
  induction rs as [| r rs IH]; simpl; [reflexivity |].
  intros Hu. apply andb_prop in Hu as [Hfresh Hrest].
  destruct (keep r); simpl; [| now apply IH].
  rewrite IH by assumption. rewrite andb_true_r.
  apply negb_true_iff in Hfresh. apply negb_true_iff.
  apply mem_false. apply mem_false in Hfresh.
  intros Hin. apply Hfresh. apply in_map_iff in Hin as [x [Hx Hin]].
  apply filter_In in Hin as [Hin _]. rewrite <- Hx. now apply in_map.
Qed.

(** The cells of the row of a relation. *)
Lemma relation_row_cells (tags : list (string * string)) (rid : Z)
    (mp : geometry) (ids : list Z) (member_nodes : list cell) :
  let row := relation_row tags rid (Some mp) ids member_nodes in
  row_cell row "element_type" = CStr "relation"
  /\ row_cell row "osmid" = CInt rid
  /\ row_cell row "geometry" = CGeom mp
  /\ row_cell row "ways" = CIds ids.
Proof.
  unfold relation_row, row_cell. cbv zeta. repeat split.
  - rewrite dict_get_set_other by discriminate.
    now rewrite dict_get_set_same.
  - now rewrite dict_get_set_same.
  - do 4 (rewrite dict_get_set_other by discriminate).
    now rewrite dict_get_set_same.
  - do 3 (rewrite dict_get_set_other by discriminate).
    now rewrite dict_get_set_same.
Qed.
End RelationFacts.

Section AbsorptionFacts.
Context {E : External}.

Lemma rows_at_other (relations : list element) (extra : list (Z * poi))
    (rid : Z) :
  Forall (fun r => In (Some (fst r)) (map e_id relations)) extra ->
  ~ In (Some rid) (map e_id relations) ->
  filter (fun r => Z.eqb (fst r) rid) extra = [].
Proof.
  intros Hlabels Hfresh. induction Hlabels as [| r extra Hr _ IH]; [reflexivity |].
  simpl. destruct (Z.eqb_spec (fst r) rid) as [Heq | _]; [| exact IH].
  rewrite Heq in Hr. contradiction.
Qed.

Lemma index_filter (keep : Z * poi -> bool) (rs : list (Z * poi)) (i : Z) :
  In i (map fst (filter keep rs)) ->
  exists r, In r rs /\ fst r = i /\ keep r = true.
Proof.
  intros Hin. apply in_map_iff in Hin as [r [Hr Hin]].
  apply filter_In in Hin as [Hin Hkeep]. now exists r.
Qed.
End AbsorptionFacts.

(** C1, on the way table as the relation finds it. A multipolygon
    relation whose member ways are all, with a geometry, in the way table
    when the loop reaches the relation, and whose multipolygon is built
    and is not empty:
    [parse_osm_relations] returns the way table that is left followed by
    the rows of the relations; the relations have exactly one row under
    the id of this relation, with element_type "relation", osmid the id
    and the multipolygon of the member geometries; and no member way id
    is left in the way table, which holds rows of the input table only.
    The relations all have an id, and no other has this one. *)
Theorem C1_relation_absorbed {E : External} {L : Type}
    (before after : list element) (relation : element) (ways : DataFrame)
    (reached : rel_locals) (t0 : list event)
    (tags : list (string * string)) (members : list member) (rid : Z)
    (gs : list geometry) (mp : geometry) (l : L) :
  let ids := member_way_ids_of members in
  let row := relation_row tags rid (Some mp) ids
               (map (cell_at (osm_way_df reached) "nodes") ids) in
  Forall has_id (before ++ relation :: after) ->
  ~ In (Some rid) (map e_id (before ++ after)) ->
  e_tags relation = Some tags ->
  dict_get tags "type" = Some "multipolygon" ->
  e_members relation = Some members ->
  e_id relation = Some rid ->
  uniqueb (index ways) = true ->
  mem "nodes" (columns ways) = true ->
  mem "geometry" (columns ways) = true ->
  for_each before parse_relation
    {| gdf_relations := empty_frame; osm_way_df := ways |} =
    (reached, t0, Ok tt) ->
  geoms_of (map (cell_at (osm_way_df reached) "geometry") ids) = Some gs ->
  MultiPolygon gs = Some mp ->
  geom_bool mp = true ->
  absorbed (before ++ relation :: after) ways rid row ids
  /\ (exists t, parse_osm_relations (before ++ relation :: after) ways l =
                  (l, t, parse_osm_relations_result
                           (before ++ relation :: after) ways))
  /\ row_cell row "element_type" = CStr "relation"
  /\ row_cell row "osmid" = CInt rid
  /\ row_cell row "geometry" = CGeom mp.
Proof.
  intros ids row Hids Hfresh Htags Htype Hmembers Hid Hunique Hnodes Hgeometry
    Hbefore Hgs Hmp Htruthy.
  apply Forall_app in Hids as [Hids_before Hids_rest].
  inversion Hids_rest as [| r rs _ Hids_after]; subst r rs.
  (* the loop up to the relation *)
  destruct (relations_loop_inv before
              {| gdf_relations := empty_frame; osm_way_df := ways |}
              Hids_before)
    as [l0 [t0' [Hloop0 [Hcols0 [[keep0 Hways0] [extra0 [Hrels0 Hlabels0]]]]]]].
  rewrite Hbefore in Hloop0. injection Hloop0 as <- <-.
  simpl in Hcols0, Hways0, Hrels0.
  assert (Hunique0 : uniqueb (index (osm_way_df reached)) = true).
  { unfold index. rewrite Hways0. now apply uniqueb_filter. }
  rewrite <- Hcols0 in Hnodes, Hgeometry.
  (* the relation *)
  assert (Hstep := parse_relation_absorbs relation reached tags members rid
                     gs mp Htags Htype Hmembers Hid Hunique0 Hnodes Hgeometry
                     Hgs Hmp Htruthy).
  cbv zeta in Hstep. fold ids in Hstep.
  (* the loop after the relation *)
  match type of Hstep with _ = (?l1, _, _) => set (taken := l1) in * end.
  destruct (relations_loop_inv after taken Hids_after)
    as [final [t2 [Hloop2 [Hcols2 [[keep2 Hways2] [extra2 [Hrels2 Hlabels2]]]]]]].
  assert (Hloop : for_each (before ++ relation :: after) parse_relation
                    {| gdf_relations := empty_frame; osm_way_df := ways |} =
                  (final, t0 ++ t2, Ok tt)).
  { rewrite for_each_app. unfold bind at 1. rewrite Hbefore. simpl.
    unfold bind. now rewrite Hstep, Hloop2. }
  assert (Hbody : parse_osm_relations_body (before ++ relation :: after)
                    {| gdf_relations := empty_frame; osm_way_df := ways |} =
                  (final, t0 ++ t2,
                   Ok (append (osm_way_df final) (gdf_relations final)))).
  { unfold parse_osm_relations_body, bind. rewrite Hloop. simpl.
    now rewrite !app_nil_r. }
  destruct (relation_row_cells tags rid mp ids
              (map (cell_at (osm_way_df reached) "nodes") ids))
    as [Hkind [Hosmid [Hgeom _]]].
  split; [| split; [| split; [exact Hkind | split; [exact Hosmid | exact Hgeom]]]].
  - exists final, (t0 ++ t2). split; [exact Hbody |]. split; [| split].
    + unfold rows_at. rewrite Hrels2. subst taken. simpl.
      rewrite Hrels0. rewrite !filter_app. simpl.
      rewrite Z.eqb_refl.
      rewrite (rows_at_other before extra0 rid Hlabels0)
        by (intros Hin; apply Hfresh; rewrite map_app; apply in_or_app;
            now left).
      rewrite (rows_at_other after extra2 rid Hlabels2)
        by (intros Hin; apply Hfresh; rewrite map_app; apply in_or_app;
            now right).
      reflexivity.
    + intros i Hi Hin. unfold index in Hin. rewrite Hways2 in Hin.
      apply index_filter in Hin as [r [Hr [Hfst _]]].
      subst taken. simpl in Hr. apply filter_In in Hr as [_ Hdropped].
      rewrite Hfst in Hdropped. apply negb_true_iff in Hdropped.
      apply mem_false in Hdropped. contradiction.
    + intros r Hr. rewrite Hways2 in Hr. apply filter_In in Hr as [Hr _].
      subst taken. simpl in Hr. apply filter_In in Hr as [Hr _].
      rewrite Hways0 in Hr. now apply filter_In in Hr as [Hr _].
  - exists (t0 ++ t2).
    unfold parse_osm_relations, call, parse_osm_relations_result.
    now rewrite Hbody.
Qed.

(** ** Relations with member ways that the table does not have *)

Section DegradedFacts.
Context {E : External}.




(** The geometry column after [dropna]. *)
Lemma dropna_column (member_ways : DataFrame) :
  mem "geometry" (columns member_ways) = true ->
  exists clean,
    dropna member_ways "geometry" = Ok clean
    /\ column clean "geometry" =
       Ok (filter (fun c => negb (isna c))
             (map (fun r => row_cell (snd r) "geometry") (rows member_ways))).
Proof.
  intros Hcol. unfold dropna. rewrite Hcol. eexists. split; [reflexivity |].
  unfold column. cbn [columns rows]. rewrite Hcol.
  now rewrite (filter_map_comm (fun r => row_cell (snd r) "geometry")
                 (fun c => negb (isna c))).
Qed.



End DegradedFacts.


(** ** More on the query builder *)

Section QueryMore.
Context {E : External}.

(** Validation fails with the one error, and only on a value of a wrong
    type. *)
Lemma validate_tags_outcome (items : list (string * pyval)) :
  forall tags_dict,
    match validate_tags items tags_dict with
    | Ok _ => valid_filter items = true
    | Raise e => valid_filter items = false /\ e = TypeError error_msg
    end.
Proof.
  induction items as [| [k v] rest IH]; intros d; simpl; [reflexivity |].
  destruct v; simpl; try (split; reflexivity); try apply IH.
  destruct (forallb is_str l); simpl; [apply IH | split; reflexivity].
Qed.

(** The loop over a filter in two parts. *)
Lemma validate_tags_app (first second : list (string * pyval)) :
  forall tags_dict,
    validate_tags (first ++ second) tags_dict =
    match validate_tags first tags_dict with
    | Ok d => validate_tags second d
    | Raise e => Raise e
    end.
Proof.
  induction first as [| [k v] rest IH]; intros d; simpl; [reflexivity |].
  destruct v; try reflexivity; try apply IH.
  destruct (forallb is_str l); [apply IH | reflexivity].
Qed.

Lemma dict_set_app_l {V} (d1 d2 : list (string * V)) (k : string) (v : V) :
  In k (map fst d1) -> dict_set (d1 ++ d2) k v = dict_set d1 k v ++ d2.
Proof.
  induction d1 as [| [k' v'] d1 IH]; simpl; intros Hin; [destruct Hin |].
  destruct (String.eqb_spec k' k) as [-> | Hne]; [reflexivity |].
  rewrite IH by (destruct Hin; [contradiction | assumption]). reflexivity.
Qed.

Lemma dict_set_app_r {V} (d1 d2 : list (string * V)) (k : string) (v : V) :
  ~ In k (map fst d1) -> dict_set (d1 ++ d2) k v = d1 ++ dict_set d2 k v.
Proof.
  induction d1 as [| [k' v'] d1 IH]; simpl; intros Hin; [reflexivity |].
  destruct (String.eqb_spec k' k) as [-> | Hne]; [tauto |].
  rewrite IH by tauto. reflexivity.
Qed.

Lemma dict_set_keys {V} (d : list (string * V)) (k k' : string) (v : V) :
  In k' (map fst (dict_set d k v)) <-> k' = k \/ In k' (map fst d).
Proof.
  induction d as [| [k0 v0] d IH]; simpl.
  - intuition.
  - destruct (String.eqb_spec k0 k) as [-> | Hne]; simpl.
    + intuition.
    + rewrite IH. intuition.
Qed.

Lemma with_empty_set (key k : string) (v : tag_value)
    (d d' : list (string * tag_value)) :
  k <> key -> with_empty key d d' ->
  with_empty key (dict_set d k v) (dict_set d' k v).
Proof.
  intros Hne [d1 [d2 [-> [-> Hfresh]]]].
  assert (Hkeys : ~ In key (map fst (dict_set (d1 ++ d2) k v))).
  { rewrite dict_set_keys. intros [Heq | Hin]; [congruence | tauto]. }
  destruct (in_dec string_dec k (map fst d1)) as [Hin | Hout].
  - exists (dict_set d1 k v), d2. rewrite !dict_set_app_l by assumption.
    repeat split; try reflexivity.
    now rewrite <- (dict_set_app_l d1 d2 k v Hin).
  - exists d1, (dict_set d2 k v). rewrite !dict_set_app_r by assumption.
    simpl. rewrite (proj2 (String.eqb_neq key k)) by congruence.
    repeat split; try reflexivity.
    now rewrite <- (dict_set_app_r d1 d2 k v Hout).
Qed.

Lemma validate_tags_with_empty (key : string)
    (items : list (string * pyval)) :
  forall d d',
    ~ In key (map fst items) -> with_empty key d d' ->
    match validate_tags items d, validate_tags items d' with
    | Ok r, Ok r' => with_empty key r r'
    | Raise e, Raise e' => e = e'
    | _, _ => False
    end.
Proof.
  induction items as [| [k v] rest IH]; intros d d' Hfresh Hd; simpl.
  - exact Hd.
  - simpl in Hfresh.
    assert (Hne : k <> key) by tauto.
    assert (Hrest : ~ In key (map fst rest)) by tauto.
    destruct v; try reflexivity;
      try (apply IH; [assumption | now apply with_empty_set]).
    destruct (forallb is_str l); [| reflexivity].
    apply IH; [assumption | now apply with_empty_set].
Qed.

Lemma components_with_empty (bbox key : string)
    (d d' : list (string * tag_value)) :
  with_empty key d d' ->
  query_components bbox (make_tags_list d') =
  query_components bbox (make_tags_list d).
Proof.
  intros [d1 [d2 [-> [-> _]]]]. unfold make_tags_list.
  now rewrite !flat_map_app.
Qed.
End QueryMore.

(** X1. [create_poi_query] returns a query exactly for a dict whose
    values are all booleans, strings or lists of strings; for every
    other argument it raises the one [TypeError]. *)
Theorem X1_query_returned_iff_valid {E : External}
    (north south east west : float) (tags : pyval)
    (timeout : Z) (memory : option Z) (custom_settings : option string) :
  match create_poi_query north south east west tags timeout memory
          custom_settings with
  | Ok _ => valid_tags tags = true
  | Raise e => valid_tags tags = false /\ e = TypeError error_msg
  end.
Proof.
  unfold create_poi_query.
  destruct tags; simpl; try (split; reflexivity).
  assert (Hloop := validate_tags_outcome items []).
  now destruct (validate_tags items []).
Qed.

(** X2. A string as the value of a key gives the query of the
    one-element list of that string. *)
Theorem X2_string_is_singleton_list {E : External}
    (north south east west : float)
    (before after : list (string * pyval)) (key value : string)
    (timeout : Z) (memory : option Z) (custom_settings : option string) :
  create_poi_query north south east west
    (VDict (before ++ (key, VStr value) :: after))
    timeout memory custom_settings =
  create_poi_query north south east west
    (VDict (before ++ (key, VList [VStr value]) :: after))
    timeout memory custom_settings.
Proof.
  unfold create_poi_query. rewrite !validate_tags_app.
  now destruct (validate_tags before []).
Qed.

(** X3. A key whose value is the empty list is accepted and adds no
    clause: the query is the query of the filter without the key. *)
Theorem X3_empty_list_adds_nothing {E : External}
    (north south east west : float)
    (before after : list (string * pyval)) (key : string)
    (timeout : Z) (memory : option Z) (custom_settings : option string) :
  ~ In key (map fst (before ++ after)) ->
  create_poi_query north south east west
    (VDict (before ++ (key, VList []) :: after))
    timeout memory custom_settings =
  create_poi_query north south east west (VDict (before ++ after))
    timeout memory custom_settings.
Proof.
  intros Hfresh. rewrite map_app, in_app_iff in Hfresh.
  unfold create_poi_query. rewrite !validate_tags_app.
  destruct (validate_tags before []) as [d |] eqn:Hbefore; [| reflexivity].
  simpl validate_tags at 1.
  assert (Hd : ~ In key (map fst d)).
  { (* the keys of the dict are keys of the filter *)
    clear - Hbefore Hfresh.
    assert (Hkeys : forall items acc r,
      validate_tags items acc = Ok r ->
      forall k, In k (map fst r) -> In k (map fst acc) \/ In k (map fst items)).
    { induction items as [| [k v] rest IH]; intros acc r Hr k' Hk'; simpl in Hr.
      - injection Hr as <-. now left.
      - destruct v; try discriminate;
          try (destruct (forallb is_str l); [| discriminate]);
          (destruct (IH _ _ Hr k' Hk') as [Hacc | Hrest];
           [apply dict_set_keys in Hacc as [-> | Hacc];
            [right; now left | now left]
           | right; now right]). }
    intros Hin. destruct (Hkeys _ _ _ Hbefore key Hin) as [[] | Hin'].
    tauto. }
  assert (Hins : with_empty key d (dict_set d key (TList []))).
  { exists d, []. rewrite dict_set_fresh by assumption.
    rewrite app_nil_r. repeat split; auto. }
  assert (Hloop := validate_tags_with_empty key after d _
                     (fun H => Hfresh (or_intror H)) Hins).
  destruct (validate_tags after d) as [r |];
    destruct (validate_tags after (dict_set d key (TList []))) as [r' |];
    try contradiction; [| now subst].
  now rewrite (components_with_empty _ key r r' Hloop).
Qed.

(** ** More on the download and the assembly *)

Section DownloadMore.
Context {E : External}.
Variable overpass_request : string -> Z -> result response.

Lemma create_poi_query_invalid (north south east west : float) (tags : pyval)
    (timeout : Z) (memory : option Z) (custom_settings : option string) :
  valid_tags tags = false ->
  create_poi_query north south east west tags timeout memory custom_settings =
    Raise (TypeError error_msg).
Proof.
  intros Hbad. unfold create_poi_query.
  destruct tags; try reflexivity. simpl in Hbad.
  assert (Hloop := validate_tags_outcome items []).
  destruct (validate_tags items []) as [d | e]; [congruence |].
  now destruct Hloop as [_ ->].
Qed.

(** With a polygon the download is the download for its bounds. *)
Lemma osm_poi_download_bounds {L} (tags : pyval) (polygon : geometry)
    (north south east west : option float) (n s e w : float)
    (timeout : Z) (memory : option Z) (custom_settings : option string)
    (l : L) :
  bounds polygon = Some (w, s, e, n) ->
  osm_poi_download overpass_request tags (Some polygon) north south east west
    timeout memory custom_settings l =
  osm_poi_download overpass_request tags None (Some n) (Some s) (Some e)
    (Some w) timeout memory custom_settings l.
Proof.
  intros Hbounds. unfold osm_poi_download. now rewrite Hbounds.
Qed.
End DownloadMore.

(** X4. With an area given (a polygon that has bounds, or no polygon and
    all four bounds), a tag filter of a wrong shape makes the download
    and the assembly raise the [TypeError] of the query builder before
    anything is sent. A polygon without bounds, the empty polygon, does
    not reach the query builder: unpacking its bounds raises a
    [ValueError], whatever the filter, and nothing is sent either. *)
Theorem X4_invalid_filter_sends_nothing {E : External} {L : Type}
    (overpass_request : string -> Z -> result response)
    (tags : pyval) (polygon : option geometry)
    (north south east west : option float)
    (timeout : Z) (memory : option Z) (custom_settings : option string)
    (l : L) :
  (valid_tags tags = false ->
   match polygon with
   | Some p => bounds p <> None
   | None => north <> None /\ south <> None /\ east <> None /\ west <> None
   end ->
   osm_poi_download overpass_request tags polygon north south east west
     timeout memory custom_settings l =
     (l, [], Raise (TypeError error_msg))
   /\ create_poi_gdf overpass_request tags polygon north south east west
        timeout memory custom_settings l =
      (l, [], Raise (TypeError error_msg)))
  /\ (forall p, polygon = Some p -> bounds p = None ->
      osm_poi_download overpass_request tags polygon north south east west
        timeout memory custom_settings l =
        (l, [], Raise (ValueError unpack_msg))
      /\ create_poi_gdf overpass_request tags polygon north south east west
           timeout memory custom_settings l =
         (l, [], Raise (ValueError unpack_msg))).
Proof.
  split.
  - intros Hbad Harea.
    assert (Hdownload : forall L' (l' : L'),
      osm_poi_download overpass_request tags polygon north south east west
        timeout memory custom_settings l' =
      (l', [], Raise (TypeError error_msg))).
    { intros L' l'. unfold osm_poi_download.
      destruct polygon as [p |].
      - destruct (bounds p) as [[[[w s] e] n] |]; [| congruence].
        rewrite bind_ret.
        unfold bind, lift. now rewrite create_poi_query_invalid.
      - destruct Harea as [Hn [Hs [He Hw]]].
        destruct north, south, east, west; try congruence.
        rewrite bind_ret. unfold bind, lift.
        now rewrite create_poi_query_invalid. }
    split; [apply Hdownload |].
    unfold create_poi_gdf, call, create_poi_gdf_body, bind.
    now rewrite Hdownload.
  - intros p -> Hnone.
    assert (Hdownload : forall L' (l' : L'),
      osm_poi_download overpass_request tags (Some p) north south east west
        timeout memory custom_settings l' =
      (l', [], Raise (ValueError unpack_msg))).
    { intros L' l'. unfold osm_poi_download. now rewrite Hnone. }
    split; [apply Hdownload |].
    unfold create_poi_gdf, call, create_poi_gdf_body, bind.
    now rewrite Hdownload.
Qed.

(** X5. When a polygon is passed its bounds make the bounding box of the
    query, south, west, north and east taken from west, south, east and
    north of the bounds; bounds passed next to it are not looked at. *)
Theorem X5_polygon_bounds_make_the_box {E : External} {L : Type}
    (overpass_request : string -> Z -> result response)
    (tags : pyval) (polygon : geometry)
    (north south east west : option float) (n s e w : float)
    (timeout : Z) (memory : option Z) (custom_settings : option string)
    (l : L) :
  bounds polygon = Some (w, s, e, n) ->
  osm_poi_download overpass_request tags (Some polygon) north south east west
    timeout memory custom_settings l =
  osm_poi_download overpass_request tags None (Some n) (Some s) (Some e)
    (Some w) timeout memory custom_settings l
  /\ create_poi_gdf overpass_request tags (Some polygon) north south east west
       timeout memory custom_settings l =
     create_poi_gdf overpass_request tags (Some polygon) None None None None
       timeout memory custom_settings l.
Proof.
  intros Hbounds. split.
  - now apply osm_poi_download_bounds.
  - unfold create_poi_gdf, call, create_poi_gdf_body, bind.
    rewrite (osm_poi_download_bounds overpass_request tags polygon
               north south east west n s e w) by assumption.
    rewrite (osm_poi_download_bounds overpass_request tags polygon
               None None None None n s e w) by assumption.
    reflexivity.
Qed.


(** X7. Custom settings that are not empty replace the settings of the
    query: the timeout and the memory then have no part in the query.
    Custom settings that are the empty string count as none. *)
Theorem X7_custom_settings_replace_the_defaults {E : External}
    (north south east west : float) (tags : pyval)
    (timeout timeout' : Z) (memory memory' : option Z)
    (first : ascii) (more : string) :
  create_poi_query north south east west tags timeout memory
    (Some (String first more)) =
  create_poi_query north south east west tags timeout' memory'
    (Some (String first more))
  /\ create_poi_query north south east west tags timeout memory
       (Some EmptyString) =
     create_poi_query north south east west tags timeout memory None
  /\ (forall query,
        create_poi_query north south east west tags timeout memory
          (Some (String first more)) = Ok query ->
        exists components,
          query = (String first more ++ ";(" ++ components ++ ");out;")%string).
Proof.
  split; [reflexivity |]. split; [reflexivity |].
  intros query. unfold create_poi_query.
  destruct tags; try discriminate.
  destruct (validate_tags items []); [| discriminate].
  intros [= <-]. eexists. reflexivity.
Qed.

(** ** More on the element parsers *)

Section ParserMore.
Context {E : External}.

Lemma parse_nodes_coords_lookup (results : list element) :
  forall acc coords i,
    parse_nodes_coords_loop results acc = Ok coords ->
    dict_get coords i =
      match last_node_coords results i with
      | Some c => Some c
      | None => dict_get acc i
      end.
Proof.
  induction results as [| r rest IH]; intros acc coords i Hloop; simpl in *.
  - now injection Hloop as ->.
  - destruct (has_type r "node") eqn:Hnode.
    + destruct (e_lat r) as [lat |]; [| discriminate].
      destruct (e_lon r) as [lon |]; [| discriminate].
      destruct (e_id r) as [id |]; [| discriminate]. simpl in Hloop.
      rewrite (IH _ _ i Hloop).
      destruct (last_node_coords rest i); [reflexivity |]. simpl.
      destruct (Z.eqb_spec id i) as [-> | Hne].
      * apply dict_get_set_same.
      * now apply dict_get_set_other.
    + rewrite (IH _ _ i Hloop).
      destruct (last_node_coords rest i); [reflexivity |].
      now destruct (e_id r), (e_lat r), (e_lon r).
Qed.

Lemma parse_nodes_coords_nodes_only (results : list element) :
  forall acc,
    parse_nodes_coords_loop results acc =
    parse_nodes_coords_loop (filter (fun r => has_type r "node") results) acc.
Proof.
  induction results as [| r rest IH]; intros acc; simpl; [reflexivity |].
  destruct (has_type r "node") eqn:Hnode; simpl; [| apply IH].
  rewrite Hnode.
  destruct (e_lat r), (e_lon r), (e_id r); simpl; try reflexivity. apply IH.
Qed.

Lemma parse_nodes_coords_incomplete (results : list element) (r : element) :
  forall acc,
    In r results -> incomplete_node r ->
    exists k,
      parse_nodes_coords_loop results acc = Raise (KeyError (KStr k))
      /\ (k = "lat" \/ k = "lon" \/ k = "id").
Proof.
  induction results as [| r' rest IH]; intros acc Hin Hbad; [destruct Hin |].
  simpl. destruct Hin as [-> | Hin].
  - destruct Hbad as [Hnode Hmissing]. rewrite Hnode.
    destruct (e_lat r); [| exists "lat"; split; auto].
    destruct (e_lon r); [| exists "lon"; split; auto].
    destruct (e_id r); [| exists "id"; split; auto].
    destruct Hmissing as [H | [H | H]]; discriminate.
  - destruct (has_type r' "node"); [| now apply IH].
    destruct (e_lat r'); [| exists "lat"; split; auto].
    destruct (e_lon r'); [| exists "lon"; split; auto].
    destruct (e_id r'); [| exists "id"; split; auto].
    now apply IH.
Qed.

(** The cell of a column after the tags are added: the value of the tag
    of that name, if there is one. *)
Lemma add_tags_cell (tags : list (string * string)) :
  forall (p : poi) (col : string),
    NoDup (map fst tags) ->
    row_cell (add_tags p (Some tags)) col =
      match dict_get tags col with
      | Some v => CStr v
      | None => row_cell p col
      end.
Proof.
  unfold add_tags, row_cell.
  induction tags as [| [k v] tags IH]; intros p col Hnodup; simpl.
  - reflexivity.
  - inversion Hnodup as [| k' ks Hfresh Hrest]; subst.
    rewrite IH by assumption.
    destruct (String.eqb_spec k col) as [-> | Hne].
    + rewrite (proj2 (dict_get_None tags col)) by assumption.
      now rewrite dict_get_set_same.
    + destruct (dict_get tags col); [reflexivity |].
      now rewrite dict_get_set_other.
Qed.
End ParserMore.

(** X8. When [parse_nodes_coords] returns, looking an id up in its
    index gives the latitude and longitude of the last node element of
    the response with that id, and nothing for an id that no node element
    has. *)
Theorem X8_node_index_lookup {E : External}
    (osm_response : response) (coords : list (Z * (float * float))) (i : Z) :
  parse_nodes_coords osm_response = Ok coords ->
  dict_get coords i = last_node_coords (elements osm_response) i.
Proof.
  intros Hindex. unfold parse_nodes_coords in Hindex.
  rewrite (parse_nodes_coords_lookup _ _ _ i Hindex).
  now destruct (last_node_coords (elements osm_response) i).
Qed.

(** X9. [parse_nodes_coords] reads the node elements only: ways,
    relations, elements of another type and elements without a type
    change neither its index nor whether it raises. *)
Theorem X9_node_index_reads_nodes_only {E : External}
    (results : list element) :
  parse_nodes_coords {| elements := results |} =
  parse_nodes_coords
    {| elements := filter (fun r => has_type r "node") results |}.
Proof.
  unfold parse_nodes_coords. simpl. apply parse_nodes_coords_nodes_only.
Qed.

(** X10. A node element without latitude, longitude or id, tagged or
    not, makes [parse_nodes_coords] raise a [KeyError] for one of these
    keys; [create_poi_gdf] then raises it right after the request, and
    parses no element. *)
Theorem X10_incomplete_node_aborts {E : External} {L : Type}
    (overpass_request : string -> Z -> result response)
    (results : list element) (r : element)
    (tags : pyval) (north south east west : float) (query : string)
    (timeout : Z) (memory : option Z) (custom_settings : option string)
    (l : L) :
  In r results ->
  incomplete_node r ->
  create_poi_query north south east west tags timeout memory custom_settings =
    Ok query ->
  overpass_request query timeout = Ok {| elements := results |} ->
  exists k,
    (k = "lat" \/ k = "lon" \/ k = "id")
    /\ parse_nodes_coords {| elements := results |} =
       Raise (KeyError (KStr k))
    /\ create_poi_gdf overpass_request tags None (Some north) (Some south)
         (Some east) (Some west) timeout memory custom_settings l =
       (l, [Request query timeout], Raise (KeyError (KStr k))).
Proof.
  intros Hin Hbad Hquery Hresponse.
  destruct (parse_nodes_coords_incomplete results r [] Hin Hbad)
    as [k [Hraise Hk]].
  exists k. split; [exact Hk |]. split; [exact Hraise |].
  unfold create_poi_gdf, call, create_poi_gdf_body, osm_poi_download.
  unfold bind, ret, lift, request. rewrite Hquery, Hresponse. simpl.
  unfold parse_nodes_coords. simpl. now rewrite Hraise.
Qed.

(** X11. On a way element that has a node list, [parse_polygonal_poi]
    never raises. It returns the record of the way, with nothing logged,
    when every node is in the index, the constructor accepts the ring and
    the way has an id; in every other case it logs the node list and
    returns None. *)
Theorem X11_way_parsed_or_dropped {E : External} {L : Type}
    (coords : list (Z * (float * float))) (way : element)
    (nodes : list Z) (l : L) :
  e_type way = Some "way" ->
  e_nodes way = Some nodes ->
  parse_polygonal_poi coords way l =
    match ring_of coords nodes with
    | Ok ring =>
        match Polygon ring, e_id way with
        | Some polygon, Some osmid =>
            (l, [], Ok (Some (add_tags (way_columns osmid nodes polygon)
                                (e_tags way))))
        | _, _ => (l, [Log (PolygonInvalid nodes)], Ok None)
        end
    | Raise _ => (l, [Log (PolygonInvalid nodes)], Ok None)
    end.
Proof.
  intros Htype Hnodes.
  unfold parse_polygonal_poi, has_type, make_polygon, try_except, bind.
  rewrite Htype, Hnodes. simpl.
  destruct (ring_of coords nodes) as [ring |]; simpl; [| reflexivity].
  destruct (Polygon ring) as [polygon |]; simpl; [| reflexivity].
  now destruct (e_id way).
Qed.

(** X12. In the record of a way the tags are written last: a tag named
    nodes, geometry or osmid replaces the parsed value of that column,
    and every other column holds what its tag or the parser gave. *)
Theorem X12_way_tags_replace_columns {E : External} {L : Type}
    (coords : list (Z * (float * float))) (way : element)
    (nodes : list Z) (osmid : Z) (ring : list (float * float))
    (polygon : geometry) (tags : list (string * string)) (l : L) :
  e_type way = Some "way" ->
  e_nodes way = Some nodes ->
  e_id way = Some osmid ->
  e_tags way = Some tags ->
  NoDup (map fst tags) ->
  ring_of coords nodes = Ok ring ->
  Polygon ring = Some polygon ->
  exists record,
    parse_polygonal_poi coords way l = (l, [], Ok (Some record))
    /\ forall col,
         row_cell record col =
           match dict_get tags col with
           | Some value => CStr value
           | None => row_cell (way_columns osmid nodes polygon) col
           end.
Proof.
  intros Htype Hnodes Hid Htags Hnodup Hring Hpolygon.
  exists (add_tags (way_columns osmid nodes polygon) (Some tags)). split.
  - unfold parse_polygonal_poi, has_type, make_polygon, try_except, bind.
    rewrite Htype, Hnodes. simpl. rewrite Hring. simpl. rewrite Hpolygon.
    simpl. now rewrite Hid, Htags.
  - intros col. now apply add_tags_cell.
Qed.

(** X13. [parse_osm_node] returns a record exactly for a node element
    that has its longitude, its latitude and its id: the point is built
    from longitude then latitude, nothing is logged, and the tags are
    written over the columns. Without an id it raises [KeyError],
    whatever else the element has. *)
Theorem X13_node_parsed_iff_complete {E : External} {L : Type}
    (node : element) (l : L) :
  match e_lon node, e_lat node, e_id node with
  | Some lon, Some lat, Some osmid =>
      parse_osm_node node l =
        (l, [], Ok (add_tags (node_columns osmid lat lon) (e_tags node)))
  | _, _, Some osmid =>
      parse_osm_node node l =
        (l, [Log (PointInvalid osmid)], Raise (UnboundLocalError "poi"))
  | _, _, None =>
      parse_osm_node node l = (l, [], Raise (KeyError (KStr "id")))
  end.
Proof.
  unfold parse_osm_node, try_except, bind.
  destruct (e_lon node) as [lon |] eqn:Hlon;
    destruct (e_lat node) as [lat |] eqn:Hlat;
    destruct (e_id node) as [osmid |] eqn:Hid;
    simpl; rewrite ?Hlon, ?Hlat, ?Hid; simpl; rewrite ?Hid; reflexivity.
Qed.

(** ** More on the loop over the elements *)

Section DictMore.
Context {K V : Type} `{Key K}.

Lemma dict_set_index (d : list (K * V)) (k : K) (v : V) :
  map fst (dict_set d k v) =
  if mem k (map fst d) then map fst d else map fst d ++ [k].
Proof.
  induction d as [| [k' v'] d IH]; simpl; [reflexivity |].
  destruct (key_eqb_spec k' k) as [-> | Hne]; simpl.
  - now rewrite key_eqb_refl.
  - rewrite key_eqb_neq by congruence. simpl. rewrite IH.
    now destruct (mem k (map fst d)).
Qed.

Lemma dict_set_NoDup (d : list (K * V)) (k : K) (v : V) :
  NoDup (map fst d) -> NoDup (map fst (dict_set d k v)).
Proof.
  intros Hnodup. rewrite dict_set_index.
  destruct (mem k (map fst d)) eqn:Hmem; [assumption |].
  apply mem_false in Hmem.
  apply NoDup_app; [assumption | repeat constructor; intros [] |].
  intros x Hx [<- | []]. contradiction.
Qed.

Lemma dict_set_Forall (Q : V -> Prop) (d : list (K * V)) (k : K) (v : V) :
  Forall (fun kv => Q (snd kv)) d -> Q v ->
  Forall (fun kv => Q (snd kv)) (dict_set d k v).
Proof.
  intros Hd Hv. induction Hd as [| [k' v'] d Hkv Hd IH]; simpl.
  - now repeat constructor.
  - destruct (key_eqb k' k); constructor; assumption.
Qed.

Lemma dict_set_mentions (d : list (K * V)) (k k' : K) (v : V) :
  In k' (map fst d) -> In k' (map fst (dict_set d k v)).
Proof.
  rewrite dict_set_index. destruct (mem k (map fst d)); [auto |].
  intros Hin. apply in_or_app. now left.
Qed.
End DictMore.

Section LoopMore.
Context {E : External}.

Lemma uniqueb_NoDup (labels : list Z) :
  NoDup labels -> uniqueb labels = true.
Proof.
  induction 1 as [| i labels Hfresh _ IH]; simpl; [reflexivity |].
  rewrite IH, andb_true_r. apply negb_true_iff. now apply mem_false.
Qed.

Lemma unique_In (names : list string) (c : string) :
  In c (unique names) <-> In c names.
Proof.
  induction names as [| c' rest IH]; simpl; [tauto |].
  rewrite filter_In, IH, negb_true_iff.
  destruct (String.eqb c c') eqn:Heq.
  - apply String.eqb_eq in Heq. subst. tauto.
  - split; [tauto |]. intros [-> | Hin]; [now left | right; tauto].
Qed.

Lemma insert_sorted_In (c c' : string) (sorted : list string) :
  In c' (insert_sorted c sorted) <-> c = c' \/ In c' sorted.
Proof.
  induction sorted as [| x rest IH]; simpl; [tauto |].
  destruct (String.leb c x); simpl; [tauto |]. rewrite IH. tauto.
Qed.

Lemma sort_strings_In (names : list string) (c : string) :
  In c (sort_strings names) <-> In c names.
Proof.
  unfold sort_strings.
  induction names as [| c' rest IH]; simpl; [tauto |].
  rewrite insert_sorted_In, IH. tauto.
Qed.

(** A column of the frame of a dict of rows is a column of some row. *)
Lemma frame_of_dict_column (d : list (Z * poi)) (col : string) :
  mem col (columns (frame_of_dict d)) = true <->
  exists r, In r d /\ In col (map fst (snd r)).
Proof.
  assert (Hunion :
    In col (unique (flat_map (fun r => map fst (snd r)) d)) <->
    exists r, In r d /\ In col (map fst (snd r))).
  { now rewrite unique_In, in_flat_map. }
  unfold frame_of_dict. cbn [columns]. rewrite mem_In.
  destruct d as [| [i row] [| second rest]]; try exact Hunion.
  rewrite sort_strings_In. split.
  - intros Hin. exists (i, row). split; [now left | exact Hin].
  - intros [r [[<- | []] Hin]]. exact Hin.
Qed.

Lemma add_tags_mentions (tags : option (list (string * string))) :
  forall (p : poi) (col : string),
    In col (map fst p) -> In col (map fst (add_tags p tags)).
Proof.
  destruct tags as [tags |]; [| trivial]. unfold add_tags.
  induction tags as [| [k v] tags IH]; intros p col Hin; simpl; [assumption |].
  apply IH. now apply dict_set_mentions.
Qed.

Lemma way_record_is_ok (osmid : Z) (nodes : list Z) (polygon : geometry)
    (tags : option (list (string * string))) :
  way_record_ok
    (dict_set (add_tags (way_columns osmid nodes polygon) tags)
       "element_type" (CStr "way")).
Proof.
  split.
  - unfold row_cell. now rewrite dict_get_set_same.
  - intros col Hcol.
    simpl in Hcol. destruct Hcol as [<- | [<- | [<- | [<- | []]]]].
    + apply dict_set_mentions, add_tags_mentions. simpl. tauto.
    + apply dict_set_mentions, add_tags_mentions. simpl. tauto.
    + apply dict_set_mentions, add_tags_mentions. simpl. tauto.
    + rewrite dict_set_index.
      destruct (mem "element_type" (map fst (add_tags _ tags))) eqn:Hmem.
      * now apply mem_In.
      * apply in_or_app. right. now left.
Qed.

(** What one pass of the loop does when it does not raise. *)
Lemma classify_step (coords : list (Z * (float * float)))
    (result : element) (g : gdf_locals) :
  match classify coords result g with
  | (g', _, Ok _) =>
      relations g' =
        relations g ++ (if has_type result "relation" then [result] else [])
      /\ (collections_ok g -> collections_ok g')
  | (_, _, Raise _) => True
  end.
Proof.
  unfold classify, parse_osm_node, parse_polygonal_poi, has_type, has_tags,
    make_polygon, try_except, bind, lift, get, put, ret, raise, log, item,
    collections_ok.
  crunch.
  all: simpl.
  all: repeat match goal with
              | H : (_ =? _)%string = true |- _ =>
                  apply String.eqb_eq in H; subst
              end.
  all: try discriminate.
  all: try exact I.
  all: rewrite ?app_nil_r.
  all: split; [reflexivity |]; try tauto.
  all: intros [Hnodup [Hways Hnodes]]; simpl.
  all: repeat split; try assumption.
  all: try (apply dict_set_NoDup; assumption).
  all: try (apply (dict_set_Forall
                     (fun p => row_cell p "element_type" = CStr "node"));
            [assumption
            | first [reflexivity
                    | unfold row_cell; now rewrite dict_get_set_same]]).
  all: try (apply (dict_set_Forall way_record_ok); [assumption |]).
  all: match goal with
       | |- way_record_ok
              (dict_set
                 (fold_left _ ?tags
                    [("nodes", CIds ?nodes); ("geometry", CGeom ?polygon);
                     ("osmid", CInt ?osmid)]) _ _) =>
           exact (way_record_is_ok osmid nodes polygon (Some tags))
       | |- way_record_ok
              [("nodes", CIds ?nodes); ("geometry", CGeom ?polygon);
               ("osmid", CInt ?osmid); _] =>
           exact (way_record_is_ok osmid nodes polygon None)
       end.
Qed.
End LoopMore.

Section LoopRuns.
Context {E : External}.

(** The same for a whole run of the loop. *)
Lemma classify_run (coords : list (Z * (float * float)))
    (results : list element) :
  forall g g' t,
    for_each results (classify coords) g = (g', t, Ok tt) ->
    relations g' =
      relations g ++ filter (fun r => has_type r "relation") results
    /\ (collections_ok g -> collections_ok g').
Proof.
  induction results as [| r rest IH]; intros g g' t Hrun; simpl in Hrun.
  - injection Hrun as <- _. simpl. rewrite app_nil_r. tauto.
  - unfold bind in Hrun. assert (Hstep := classify_step coords r g).
    destruct (classify coords r g) as [[g1 t1] [[] | e]]; [| discriminate].
    destruct (for_each rest (classify coords) g1) as [[g2 t2] res] eqn:Hrest.
    injection Hrun as <- _ ->.
    destruct (IH _ _ _ Hrest) as [Hrelations Hok].
    destruct Hstep as [Hrelations1 Hok1].
    split; [| tauto].
    rewrite Hrelations, Hrelations1, <- app_assoc. simpl.
    now destruct (has_type r "relation").
Qed.

(** An element that raises ends the loop there. *)
Lemma for_each_raise {L X} (before after : list X) (bad : X)
    (body : X -> M L unit) (l l1 l2 : L) (t1 t2 : list event) (e : exn) :
  for_each before body l = (l1, t1, Ok tt) ->
  body bad l1 = (l2, t2, Raise e) ->
  for_each (before ++ bad :: after) body l = (l2, t1 ++ t2, Raise e).
Proof.
  intros Hbefore Hbad. rewrite for_each_app. unfold bind. rewrite Hbefore.
  simpl. unfold bind. now rewrite Hbad.
Qed.
End LoopRuns.

(** X14. The loop of [create_poi_gdf] over the elements stops at an
    element that has no type, with [KeyError] for "type", and at a way
    that has no node list, with [KeyError] for "nodes": the collections
    are left as the elements before it made them, and the elements after
    it are not read. *)
Theorem X14_malformed_element_ends_the_loop {E : External}
    (coords : list (Z * (float * float)))
    (before after : list element) (bad : element)
    (g g1 : gdf_locals) (t1 : list event) :
  for_each before (classify coords) g = (g1, t1, Ok tt) ->
  (e_type bad = None ->
   for_each (before ++ bad :: after) (classify coords) g =
     (g1, t1, Raise (KeyError (KStr "type"))))
  /\ (e_type bad = Some "way" -> e_nodes bad = None ->
      for_each (before ++ bad :: after) (classify coords) g =
        (g1, t1, Raise (KeyError (KStr "nodes")))).
Proof.
  intros Hbefore. split.
  - intros Htype.
    rewrite (for_each_raise before after bad (classify coords) g g1 g1 t1 []
               (KeyError (KStr "type")) Hbefore).
    + now rewrite app_nil_r.
    + unfold classify, bind, lift. now rewrite Htype.
  - intros Htype Hnodes.
    rewrite (for_each_raise before after bad (classify coords) g g1 g1 t1 []
               (KeyError (KStr "nodes")) Hbefore).
    + now rewrite app_nil_r.
    + unfold classify, parse_polygonal_poi, has_type, bind, lift.
      rewrite Htype. simpl. now rewrite Hnodes.
Qed.

(** X15. When the loop over the elements ends without raising, the
    relations it has collected are the relation elements of the
    response, in the order of the response. *)
Theorem X15_relations_collected_in_order {E : External}
    (coords : list (Z * (float * float))) (results : list element)
    (g : gdf_locals) (t : list event) :
  for_each results (classify coords)
    {| poi_nodes := []; poi_ways := []; relations := [] |} = (g, t, Ok tt) ->
  relations g = filter (fun r => has_type r "relation") results.
Proof.
  intros Hrun. now destruct (classify_run coords results _ _ _ Hrun) as [-> _].
Qed.

(** X16. When the loop over the elements ends without raising, the way
    table that goes to [parse_osm_relations] has no two rows under one
    id; if it has a row it has the columns nodes and geometry; every row
    has the element type "way", whatever the tags of the way, and every
    node row the element type "node". *)
Theorem X16_way_table_well_formed {E : External}
    (coords : list (Z * (float * float))) (results : list element)
    (g : gdf_locals) (t : list event) :
  for_each results (classify coords)
    {| poi_nodes := []; poi_ways := []; relations := [] |} = (g, t, Ok tt) ->
  let gdf_ways := frame_of_dict (poi_ways g) in
  uniqueb (index gdf_ways) = true
  /\ (rows gdf_ways <> [] ->
      mem "nodes" (columns gdf_ways) = true
      /\ mem "geometry" (columns gdf_ways) = true)
  /\ Forall (fun r => row_cell (snd r) "element_type" = CStr "way")
            (rows gdf_ways)
  /\ Forall (fun r => row_cell (snd r) "element_type" = CStr "node")
            (rows (frame_of_dict (poi_nodes g))).
Proof.
  intros Hrun gdf_ways.
  destruct (classify_run coords results _ _ _ Hrun) as [_ Hok].
  destruct Hok as [Hnodup [Hways Hnodes]].
  { repeat split; constructor. }
  split; [now apply uniqueb_NoDup |]. split; [| split].
  - subst gdf_ways. intros Hrows.
    change (rows (frame_of_dict (poi_ways g))) with (poi_ways g) in Hrows.
    destruct (poi_ways g) as [| r rest] eqn:Hd; [congruence |].
    inversion Hways as [| r' rest' [_ Hcolumns] _]; subst.
    split; apply (proj2 (frame_of_dict_column (r :: rest) _)); exists r;
      (split; [now left | apply Hcolumns; simpl; tauto]).
  - eapply Forall_impl; [| exact Hways]. now intros r [Hkind _].
  - exact Hnodes.
Qed.

(** ** More on relation resolution *)

Section RelationMore.
Context {E : External}.

Lemma parse_relation_other_type (relation : element) (l : rel_locals) :
  other_type relation = true ->
  parse_relation relation l = (l, [], Ok tt).
Proof.
  unfold other_type, parse_relation, try_except, bind, lift, ret, item.
  destruct (e_tags relation) as [tags |]; [| discriminate].
  destruct (dict_get tags "type") as [type |]; [| discriminate].
  intros Hother. apply negb_true_iff in Hother. simpl. now rewrite Hother.
Qed.

Lemma relations_loop_other_type (relations : list element) :
  forall l,
    for_each relations parse_relation l =
    for_each (filter (fun r => negb (other_type r)) relations)
             parse_relation l.
Proof.
  induction relations as [| r rs IH]; intros l; [reflexivity |].
  simpl. destruct (other_type r) eqn:Hr; simpl.
  - unfold bind. rewrite parse_relation_other_type by assumption.
    rewrite IH. now destruct (for_each _ _ l) as [[l' t] res].
  - unfold bind. destruct (parse_relation r l) as [[l1 t1] [[] | e]];
      [| reflexivity].
    now rewrite IH.
Qed.

(** What one pass of the loop over the relations adds and keeps. *)
Lemma parse_relation_rows (relation : element) (rid : Z) (l : rel_locals) :
  e_id relation = Some rid ->
  exists l' t,
    parse_relation relation l = (l', t, Ok tt)
    /\ (exists keep, rows (osm_way_df l') = filter keep (rows (osm_way_df l)))
    /\ (exists extra,
          rows (gdf_relations l') = rows (gdf_relations l) ++ extra
          /\ Forall (relation_record [relation]) extra).
Proof.
  intros Hid.
  unfold parse_relation, invalid_multipoly_handler, try_except, bind, lift,
    get, put, ret, log, item.
  rewrite Hid.
  crunch.
  all: simpl; do 2 eexists; (split; [reflexivity |]).
  all: simpl.
  all: try match goal with
           | H : drop _ _ = Ok _ |- _ =>
               apply drop_Ok in H; destruct H as [_ Hrows]; rewrite Hrows
           end.
  all: split;
    [first [eexists; reflexivity
           | exists (fun _ => true); now rewrite filter_all] |].
  all: try (exists []; split; [now rewrite app_nil_r | constructor]).
  all: eexists; (split; [reflexivity |]); repeat constructor; simpl.
  all: try exact Hid.
  all: try (left; exact Hid).
  all: try match goal with
           | |- row_cell (relation_row ?tags ?rid (Some ?mp) ?ids ?nodes) _
                = _ =>
               now destruct (relation_row_cells tags rid mp ids nodes)
                 as [Hkind [Hosmid [Hgeom _]]]
           end.
  all: match goal with
       | Ht : geom_bool ?mp = true
         |- exists _, row_cell (relation_row ?tags ?rid (Some ?mp) ?ids ?nodes)
                        _ = _ /\ _ =>
           exists mp; split; [| exact Ht];
           now destruct (relation_row_cells tags rid mp ids nodes)
             as [_ [_ [Hgeom _]]]
       end.
Qed.

Lemma relation_record_among (relations more : list element) (r : Z * poi) :
  relation_record relations r ->
  (forall x, In x relations -> In x more) ->
  relation_record more r.
Proof.
  intros [Hlabel Hcells] Hincl. split; [| exact Hcells].
  apply in_map_iff in Hlabel as [x [Hx Hin]].
  apply in_map_iff. exists x. auto.
Qed.

Lemma relations_loop_rows (relations : list element) :
  forall l, Forall has_id relations ->
  exists l' t,
    for_each relations parse_relation l = (l', t, Ok tt)
    /\ (exists keep, rows (osm_way_df l') = filter keep (rows (osm_way_df l)))
    /\ (exists extra,
          rows (gdf_relations l') = rows (gdf_relations l) ++ extra
          /\ Forall (relation_record relations) extra).
Proof.
  induction relations as [| r rs IH]; intros l Hids.
  - exists l, []. split; [reflexivity |]. split.
    + exists (fun _ => true). now rewrite filter_all.
    + exists []. split; [now rewrite app_nil_r | constructor].
  - inversion Hids as [| r' rs' Hr Hrs]; subst.
    unfold has_id in Hr. destruct (e_id r) as [rid |] eqn:Hrid; [| congruence].
    destruct (parse_relation_rows r rid l Hrid)
      as [l1 [t1 [Hstep [[keep1 Hways1] [extra1 [Hrels1 Hrows1]]]]]].
    destruct (IH l1 Hrs)
      as [l2 [t2 [Hloop [[keep2 Hways2] [extra2 [Hrels2 Hrows2]]]]]].
    exists l2, (t1 ++ t2). split.
    + simpl. unfold bind. now rewrite Hstep, Hloop.
    + split.
      * exists (fun a => keep1 a && keep2 a).
        now rewrite Hways2, Hways1, filter_filter.
      * exists (extra1 ++ extra2). split.
        { now rewrite Hrels2, Hrels1, app_assoc. }
        apply Forall_app. split.
        { eapply Forall_impl; [| exact Hrows1]. intros row Hrow.
          apply (relation_record_among [r]); [assumption |].
          intros x [<- | []]. now left. }
        { eapply Forall_impl; [| exact Hrows2]. intros row Hrow.
          apply (relation_record_among rs); [assumption |].
          intros x Hx. now right. }
Qed.

(** A relation matters through its tags, its id and the ids of its
    member ways. *)
Lemma parse_relation_depends (relation relation' : element) (l : rel_locals) :
  e_tags relation = e_tags relation' ->
  e_id relation = e_id relation' ->
  option_map member_way_ids_of (e_members relation) =
    option_map member_way_ids_of (e_members relation') ->
  parse_relation relation l = parse_relation relation' l.
Proof.
  intros Htags Hid Hmembers.
  unfold parse_relation, invalid_multipoly_handler, try_except, bind, lift,
    get, put, ret, log, item.
  rewrite <- Htags, <- Hid.
  destruct (e_members relation) as [ms |], (e_members relation') as [ms' |];
    simpl in Hmembers; try discriminate; [| reflexivity].
  injection Hmembers as Hids. now rewrite <- Hids.
Qed.
End RelationMore.

(** X17. A relation whose type tag is not "multipolygon" is passed over
    without a log: [parse_osm_relations] gives what it gives on the list
    without such relations, and when every relation is such, the table
    it returns has the rows and the columns of the way table. *)
Theorem X17_other_relations_are_passed_over {E : External} {L : Type}
    (relations : list element) (ways : DataFrame) (l : L) :
  parse_osm_relations relations ways l =
    parse_osm_relations (filter (fun r => negb (other_type r)) relations)
      ways l
  /\ (Forall (fun r => other_type r = true) relations ->
      exists out,
        parse_osm_relations relations ways l = (l, [], Ok out)
        /\ rows out = rows ways /\ columns out = columns ways).
Proof.
  assert (Hsame : parse_osm_relations relations ways l =
    parse_osm_relations (filter (fun r => negb (other_type r)) relations)
      ways l).
  { unfold parse_osm_relations, call, parse_osm_relations_body, bind.
    now rewrite relations_loop_other_type. }
  split; [exact Hsame |].
  intros Hall. rewrite Hsame.
  assert (Hnone : filter (fun r => negb (other_type r)) relations = []).
  { clear - Hall. induction Hall as [| r rs Hr _ IH]; [reflexivity |].
    simpl. rewrite Hr. exact IH. }
  rewrite Hnone.
  eexists. split; [reflexivity |]. simpl.
  split; [apply app_nil_r |]. unfold union_columns. simpl. apply app_nil_r.
Qed.

(** X18. A relation without tags, or without a type tag, is skipped: with
    an id it is logged as not parsed and the two frames stay as they
    are; without an id the handler itself raises [KeyError], which ends
    [parse_osm_relations]. *)
Theorem X18_relation_without_type {E : External}
    (relation : element) (l : rel_locals) :
  e_tags relation = None
  \/ (exists tags, e_tags relation = Some tags /\ dict_get tags "type" = None) ->
  parse_relation relation l =
    match e_id relation with
    | Some rid => (l, [Log (RelationUnparsed rid)], Ok tt)
    | None => (l, [], Raise (KeyError (KStr "id")))
    end.
Proof.
  intros Hmissing.
  unfold parse_relation, try_except, bind, lift, log, item.
  destruct Hmissing as [Htags | [tags [Htags Htype]]]; rewrite Htags; simpl.
  - now destruct (e_id relation).
  - rewrite Htype. simpl. now destruct (e_id relation).
Qed.

(** X19. Only the ids of the member ways of a relation are used: two
    relations with the same tags, the same id and the same member way
    ids in the same order are resolved alike, whatever the roles of the
    members and whatever members of other types they have. *)
Theorem X19_roles_and_other_members_unused {E : External} {L : Type}
    (before after : list element) (relation relation' : element)
    (ways : DataFrame) (l : L) :
  e_tags relation = e_tags relation' ->
  e_id relation = e_id relation' ->
  option_map member_way_ids_of (e_members relation) =
    option_map member_way_ids_of (e_members relation') ->
  parse_osm_relations (before ++ relation :: after) ways l =
  parse_osm_relations (before ++ relation' :: after) ways l.
Proof.
  intros Htags Hid Hmembers.
  assert (Hloop : forall l0,
    for_each (before ++ relation :: after) parse_relation l0 =
    for_each (before ++ relation' :: after) parse_relation l0).
  { intros l0. rewrite !for_each_app. unfold bind.
    destruct (for_each before parse_relation l0) as [[l1 t1] [[] | e]];
      [| reflexivity].
    simpl. unfold bind.
    now rewrite (parse_relation_depends relation relation' l1
                   Htags Hid Hmembers). }
  unfold parse_osm_relations, call, parse_osm_relations_body, bind.
  now rewrite Hloop.
Qed.

(** X20. Over relations that all have an id, [parse_osm_relations] does
    not raise, and every row of the table it returns is either a row of
    the way table, unchanged, or the row of one of the relations, with
    the element type "relation", its label as osmid and a multipolygon
    that is not empty. *)
Theorem X20_resolution_returns_ways_and_relations {E : External} {L : Type}
    (relations : list element) (ways : DataFrame) (l : L) :
  Forall has_id relations ->
  exists t out,
    parse_osm_relations relations ways l = (l, t, Ok out)
    /\ forall r, In r (rows out) ->
         In r (rows ways) \/ relation_record relations r.
Proof.
  intros Hids.
  destruct (relations_loop_rows relations
              {| gdf_relations := empty_frame; osm_way_df := ways |} Hids)
    as [final [t [Hloop [[keep Hways] [extra [Hrels Hrows]]]]]].
  exists t, (append (osm_way_df final) (gdf_relations final)). split.
  - unfold parse_osm_relations, call, parse_osm_relations_body, bind.
    rewrite Hloop. simpl. now rewrite !app_nil_r.
  - intros r Hr. simpl in Hr, Hways, Hrels. rewrite Hways, Hrels in Hr.
    apply in_app_or in Hr as [Hr | Hr].
    + left. now apply filter_In in Hr as [Hr _].
    + right. now apply (proj1 (Forall_forall _ _) Hrows).
Qed.

(** ** More on the assembled table *)

Section AssemblyMore.
Context {E : External}.

Lemma geoms_of_notna (cells : list cell) (gs : list geometry) :
  geoms_of cells = Some gs ->
  filter (fun c => negb (isna c)) cells = cells.
Proof.
  revert gs. induction cells as [| c cells IH]; intros gs Hgs; [reflexivity |].
  simpl in Hgs. destruct c; try discriminate.
  destruct (geoms_of cells) as [gs' |] eqn:Hrest; [| discriminate].
  simpl. now rewrite (IH gs').
Qed.

Lemma parse_nodes_coords_complete (results : list element) :
  forall acc,
    Forall (fun r => complete_node r = true) results ->
    exists coords, parse_nodes_coords_loop results acc = Ok coords.
Proof.
  induction results as [| r rest IH]; intros acc Hall.
  - now exists acc.
  - inversion Hall as [| r' rest' Hr Hrest]; subst. simpl.
    unfold complete_node in Hr. apply andb_prop in Hr as [Hnode Hfields].
    rewrite Hnode.
    destruct (e_lat r), (e_lon r), (e_id r); try discriminate. simpl.
    now apply IH.
Qed.

(** The loop over tagged nodes with fresh ids appends their rows. *)
Lemma classify_tagged_nodes (coords : list (Z * (float * float)))
    (results : list element) :
  forall g,
    Forall (fun r => complete_node r = true /\ has_tags r = true) results ->
    NoDup (map fst (poi_nodes g) ++ map fst (flat_map node_record results)) ->
    for_each results (classify coords) g =
      ({| poi_nodes := poi_nodes g ++ flat_map node_record results;
          poi_ways := poi_ways g; relations := relations g |}, [], Ok tt).
Proof.
  induction results as [| r rest IH]; intros g Hall Hnodup.
  - simpl. rewrite app_nil_r. now destruct g.
  - inversion Hall as [| r' rest' [Hr Htags] Hrest]; subst.
    unfold complete_node, has_type in Hr. apply andb_prop in Hr as [Hnode Hfields].
    destruct (e_type r) as [type |] eqn:Htype; [| discriminate].
    apply String.eqb_eq in Hnode. subst type.
    destruct (e_lat r) as [lat |] eqn:Hlat; [| discriminate].
    destruct (e_lon r) as [lon |] eqn:Hlon; [| discriminate].
    destruct (e_id r) as [osmid |] eqn:Hid; [| discriminate].
    assert (Hrecord : node_record r =
      [(osmid, dict_set (add_tags (node_columns osmid lat lon) (e_tags r))
                 "element_type" (CStr "node"))]).
    { unfold node_record. now rewrite Hid, Hlat, Hlon. }
    simpl flat_map in *. rewrite Hrecord in *. simpl in Hnodup.
    assert (Hfresh : ~ In osmid (map fst (poi_nodes g))).
    { intros Hin. apply NoDup_remove_2 in Hnodup. apply Hnodup.
      apply in_or_app. now left. }
    assert (Hstep : classify coords r g =
      ({| poi_nodes := poi_nodes g ++ node_record r;
          poi_ways := poi_ways g; relations := relations g |}, [], Ok tt)).
    { unfold classify, parse_osm_node, try_except, bind, lift, get, put, ret,
        item.
      rewrite Htype, Htags. simpl. rewrite Hlon, Hlat, Hid. simpl.
      rewrite dict_set_fresh by assumption. now rewrite Hrecord. }
    simpl for_each. unfold bind. rewrite Hstep, Hrecord.
    rewrite IH; [| assumption |].
    + simpl. now rewrite <- app_assoc.
    + simpl. rewrite map_app, <- app_assoc. simpl. exact Hnodup.
Qed.
End AssemblyMore.

(** X21. A multipolygon relation whose member ways are all in the table
    with a geometry, of which the constructor makes no multipolygon, is
    dropped: the retry has nothing to leave out and fails too, the
    relation id and the member way ids are logged, no row is added and
    the member ways stay in the table. *)
Theorem X21_rejected_multipolygon_is_dropped {E : External}
    (relation : element) (l : rel_locals)
    (tags : list (string * string)) (members : list member) (rid : Z)
    (gs : list geometry) :
  let ids := member_way_ids_of members in
  e_tags relation = Some tags ->
  dict_get tags "type" = Some "multipolygon" ->
  e_members relation = Some members ->
  e_id relation = Some rid ->
  uniqueb (index (osm_way_df l)) = true ->
  mem "nodes" (columns (osm_way_df l)) = true ->
  mem "geometry" (columns (osm_way_df l)) = true ->
  geoms_of (map (cell_at (osm_way_df l) "geometry") ids) = Some gs ->
  MultiPolygon gs = None ->
  parse_relation relation l =
    (l, [Log (MultiPolygonInvalid rid ids)], Ok tt).
Proof.
  intros ids Htags Htype Hmembers Hid Hunique Hnodes Hgeometry Hgs Hmp.
  destruct (reindex_column (osm_way_df l) ids Hunique)
    as [member_ways [Hreindex [Hcolumns Hcells]]].
  assert (Hgeometry' : mem "geometry" (columns member_ways) = true)
    by now rewrite Hcolumns.
  destruct (dropna_column member_ways Hgeometry')
    as [clean [Hdropna Hclean]].
  rewrite Hcells, (geoms_of_notna _ gs Hgs) in Hclean.
  unfold parse_relation, invalid_multipoly_handler, try_except, bind, lift,
    get, put, ret, log, item.
  rewrite Htags, Htype, Hmembers. simpl. fold ids.
  rewrite Hreindex. unfold column at 1 2. rewrite Hcolumns, Hnodes, Hgeometry.
  rewrite !Hcells.
  unfold make_multipolygon at 1. rewrite Hgs, Hmp.
  rewrite Hdropna, Hclean. unfold make_multipolygon. rewrite Hgs, Hmp.
  rewrite Hid. reflexivity.
Qed.

(** X22. When the response has only nodes without tags (or no element at
    all) nothing is a point of interest: without a polygon
    [create_poi_gdf] returns the table with no row and no column; with a
    truthy polygon it raises [KeyError] for "geometry", the column that
    the centroid test reads and the empty table does not have. *)
Theorem X22_nothing_found {E : External} {L : Type}
    (overpass_request : string -> Z -> result response)
    (results : list element) (tags : pyval) (polygon : geometry)
    (n s e w : float) (query : string)
    (timeout : Z) (memory : option Z) (custom_settings : option string)
    (l : L) :
  Forall (fun r => complete_node r = true /\ has_tags r = false) results ->
  create_poi_query n s e w tags timeout memory custom_settings = Ok query ->
  overpass_request query timeout = Ok {| elements := results |} ->
  create_poi_gdf overpass_request tags None (Some n) (Some s) (Some e)
    (Some w) timeout memory custom_settings l =
    (l, [Request query timeout], Ok {| columns := []; rows := [] |})
  /\ (bounds polygon = Some (w, s, e, n) -> geom_bool polygon = true ->
      create_poi_gdf overpass_request tags (Some polygon) None None None None
        timeout memory custom_settings l =
      (l, [Request query timeout], Raise (KeyError (KStr "geometry")))).
Proof.
  intros Hall Hquery Hresponse.
  assert (Hcomplete : Forall (fun r => complete_node r = true) results).
  { eapply Forall_impl; [| exact Hall]. now intros r [Hr _]. }
  destruct (parse_nodes_coords_complete results [] Hcomplete)
    as [coords Hcoords].
  assert (Hbox :
    create_poi_gdf overpass_request tags None (Some n) (Some s) (Some e)
      (Some w) timeout memory custom_settings l =
    (l, [Request query timeout], Ok {| columns := []; rows := [] |})).
  { unfold create_poi_gdf, call, create_poi_gdf_body, osm_poi_download.
    unfold bind, ret, lift, request. rewrite Hquery, Hresponse. simpl.
    unfold parse_nodes_coords. simpl. rewrite Hcoords.
    rewrite for_each_skip; [reflexivity |].
    intros r Hr. apply classify_untagged_node.
    destruct (proj1 (Forall_forall _ _) Hall r Hr) as [Hnode Htags].
    unfold untagged_node. unfold complete_node in Hnode.
    apply andb_prop in Hnode as [-> _]. now rewrite Htags. }
  split; [exact Hbox |].
  intros Hbounds Htruthy.
  unfold create_poi_gdf, call, create_poi_gdf_body, osm_poi_download.
  rewrite Hbounds.
  unfold bind, ret, lift, request. rewrite Hquery, Hresponse. simpl.
  unfold parse_nodes_coords. simpl. rewrite Hcoords.
  rewrite for_each_skip.
  - simpl. rewrite Htruthy. reflexivity.
  - intros r Hr. apply classify_untagged_node.
    destruct (proj1 (Forall_forall _ _) Hall r Hr) as [Hnode Htags].
    unfold untagged_node. unfold complete_node in Hnode.
    apply andb_prop in Hnode as [-> _]. now rewrite Htags.
Qed.

(** X23. For a response of tagged nodes with distinct ids, each with its
    coordinates, [create_poi_gdf] without a polygon returns their rows
    in the order of the response: each under the id of the node, with
    the point of its longitude and latitude, its tags, and the element
    type "node". *)
Theorem X23_tagged_nodes_make_the_rows {E : External} {L : Type}
    (overpass_request : string -> Z -> result response)
    (results : list element) (tags : pyval)
    (n s e w : float) (query : string)
    (timeout : Z) (memory : option Z) (custom_settings : option string)
    (l : L) :
  Forall (fun r => complete_node r = true /\ has_tags r = true) results ->
  NoDup (map e_id results) ->
  create_poi_query n s e w tags timeout memory custom_settings = Ok query ->
  overpass_request query timeout = Ok {| elements := results |} ->
  exists gdf,
    create_poi_gdf overpass_request tags None (Some n) (Some s) (Some e)
      (Some w) timeout memory custom_settings l =
      (l, [Request query timeout], Ok gdf)
    /\ rows gdf = flat_map node_record results.
Proof.
  intros Hall Hnodup Hquery Hresponse.
  assert (Hcomplete : Forall (fun r => complete_node r = true) results).
  { eapply Forall_impl; [| exact Hall]. now intros r [Hr _]. }
  destruct (parse_nodes_coords_complete results [] Hcomplete)
    as [coords Hcoords].
  assert (Hids : NoDup (map fst (flat_map node_record results))).
  { clear - Hall Hnodup. induction results as [| r rest IH]; [constructor |].
    inversion Hall as [| r' rest' [Hr _] Hrest]; subst.
    inversion Hnodup as [| i ids Hfresh Hnodup']; subst.
    unfold complete_node in Hr. apply andb_prop in Hr as [_ Hfields].
    simpl. unfold node_record at 1.
    destruct (e_lat r), (e_lon r), (e_id r) as [osmid |] eqn:Hid;
      try discriminate.
    simpl. constructor; [| now apply IH].
    intros Hin. apply Hfresh. clear - Hin.
    induction rest as [| x rest IH]; [destruct Hin |].
    simpl in Hin. rewrite map_app in Hin. apply in_app_or in Hin as [Hin | Hin].
    - left. unfold node_record in Hin.
      destruct (e_id x), (e_lat x), (e_lon x); simpl in Hin; try tauto.
      destruct Hin as [<- | []]. reflexivity.
    - right. now apply IH. }
  eexists. split.
  - unfold create_poi_gdf, call, create_poi_gdf_body, osm_poi_download.
    unfold bind, ret, lift, request. rewrite Hquery, Hresponse. simpl.
    unfold parse_nodes_coords. simpl. rewrite Hcoords.
    rewrite (classify_tagged_nodes coords results) by assumption.
    reflexivity.
  - simpl. now rewrite !app_nil_r.
Qed.

(** ** The entry points *)

Section EntryPoints.
Context {E : External}.

Lemma create_poi_query_valid (north south east west : float) (tags : pyval)
    (timeout : Z) (memory : option Z) (custom_settings : option string) :
  valid_tags tags = true ->
  exists query,
    create_poi_query north south east west tags timeout memory
      custom_settings = Ok query.
Proof.
  intros Hvalid. unfold create_poi_query.
  destruct tags; try discriminate. simpl in Hvalid.
  assert (Hloop := validate_tags_outcome items []).
  destruct (validate_tags items []) as [d | e]; [now eexists |].
  destruct Hloop as [Hbad _]. congruence.
Qed.

(** The assembly sends its request first. *)
Lemma create_poi_gdf_requests_first {L}
    (overpass_request : string -> Z -> result response)
    (tags : pyval) (n s e w : float) (query : string)
    (timeout : Z) (memory : option Z) (custom_settings : option string)
    (l : L) :
  create_poi_query n s e w tags timeout memory custom_settings = Ok query ->
  exists t r,
    create_poi_gdf overpass_request tags None (Some n) (Some s) (Some e)
      (Some w) timeout memory custom_settings l =
    (l, Request query timeout :: t, r).
Proof.
  intros Hquery.
  unfold create_poi_gdf, call, create_poi_gdf_body, osm_poi_download.
  unfold bind at 1 2 3. unfold ret at 1. unfold lift at 1.
  rewrite Hquery. unfold request.
  destruct (overpass_request query timeout) as [rs | e1]; simpl;
    [| now do 2 eexists].
  match goal with
  | |- context [bind ?m ?f ?g] => destruct (bind m f g) as [[l1 t1] r1]
  end.
  now do 2 eexists.
Qed.
End EntryPoints.

(** X24. With a valid tag filter [pois_from_point] sends, before
    anything else, the query for the box that [bbox_from_point] gives,
    read as north, south, east, west; so does [pois_from_address] for the
    point of the address. When the geocoder or the place lookup raises,
    [pois_from_address] and [pois_from_place] raise the same and send
    nothing. *)
Theorem X24_entry_points_build_the_box {E : External} {L : Type}
    (overpass_request : string -> Z -> result response)
    (bbox_from_point : float * float -> float ->
                       float * float * float * float)
    (geocode : string -> result (float * float))
    (place_polygon : string -> Z -> result (option geometry))
    (point : float * float) (distance : float) (n s e w : float)
    (address place : string) (which_result : Z) (tags : pyval)
    (timeout : Z) (memory : option Z) (custom_settings : option string)
    (l : L) :
  valid_tags tags = true ->
  bbox_from_point point distance = (n, s, e, w) ->
  exists query,
    create_poi_query n s e w tags timeout memory custom_settings = Ok query
    /\ (exists t r,
          pois_from_point overpass_request bbox_from_point point tags distance
            timeout memory custom_settings l =
          (l, Request query timeout :: t, r))
    /\ (geocode address = Ok point ->
        exists t r,
          pois_from_address overpass_request bbox_from_point geocode address
            tags distance timeout memory custom_settings l =
          (l, Request query timeout :: t, r))
    /\ (forall err, geocode address = Raise err ->
          pois_from_address overpass_request bbox_from_point geocode address
            tags distance timeout memory custom_settings l =
          (l, [], Raise err))
    /\ (forall err, place_polygon place which_result = Raise err ->
          pois_from_place overpass_request place_polygon place tags
            which_result timeout memory custom_settings l =
          (l, [], Raise err)).
Proof.
  intros Hvalid Hbox.
  destruct (create_poi_query_valid n s e w tags timeout memory
              custom_settings Hvalid) as [query Hquery].
  exists query. split; [exact Hquery |].
  assert (Hpoint : exists t r,
    pois_from_point overpass_request bbox_from_point point tags distance
      timeout memory custom_settings l =
    (l, Request query timeout :: t, r)).
  { unfold pois_from_point. rewrite Hbox.
    now apply create_poi_gdf_requests_first. }
  split; [exact Hpoint |]. split; [| split].
  - intros Hgeocode. unfold pois_from_address.
    rewrite Hgeocode, bind_ok. exact Hpoint.
  - intros err Hgeocode. unfold pois_from_address. now rewrite Hgeocode.
  - intros err Hplace. unfold pois_from_place. now rewrite Hplace.
Qed.

(** ** The rows of the assembled table *)

Section PairFacts.
Context {K V : Type} `{Key K}.

Lemma dict_set_In (d : list (K * V)) (k k' : K) (v v' : V) :
  In (k', v') (dict_set d k v) -> (k' = k /\ v' = v) \/ In (k', v') d.
Proof.
  induction d as [| [k0 v0] d IH]; simpl.
  - intros [[= <- <-] | []]. now left.
  - destruct (key_eqb_spec k0 k) as [-> | Hne]; simpl.
    + intros [[= <- <-] | Hin]; [now left | right; now right].
    + intros [Heq | Hin]; [right; now left |].
      destruct (IH Hin); [now left | right; now right].
Qed.

Lemma dict_set_In_other (d : list (K * V)) (k k' : K) (v v' : V) :
  k' <> k -> In (k', v') d -> In (k', v') (dict_set d k v).
Proof.
  induction d as [| [k0 v0] d IH]; simpl; intros Hne Hin; [destruct Hin |].
  destruct (key_eqb_spec k0 k) as [-> | Hk].
  - destruct Hin as [[= <- <-] | Hin]; [congruence | now right].
  - destruct Hin as [Heq | Hin]; [now left | right; now apply IH].
Qed.

Lemma dict_set_In_same (d : list (K * V)) (k : K) (v : V) :
  In (k, v) (dict_set d k v).
Proof.
  induction d as [| [k0 v0] d IH]; simpl; [now left |].
  destruct (key_eqb_spec k0 k) as [-> | Hk]; [now left | now right].
Qed.
End PairFacts.

Section TableRows.
Context {E : External}.

(** Where the rows of the two collections come from, and which rows of
    the ways one pass of the loop keeps. *)
Lemma classify_rows (coords : list (Z * (float * float)))
    (result : element) (g : gdf_locals) :
  match classify coords result g with
  | (g', _, Ok _) =>
      (forall x, In x (poi_nodes g') ->
         In x (poi_nodes g)
         \/ (has_type result "node" = true /\ has_tags result = true
             /\ node_record result = [x]))
      /\ (forall x, In x (poi_ways g) ->
            (has_type result "way" = true -> e_id result <> Some (fst x)) ->
            In x (poi_ways g'))
  | (_, _, Raise _) => True
  end.
Proof.
  unfold classify, parse_osm_node, parse_polygonal_poi, has_type, has_tags,
    make_polygon, try_except, bind, lift, get, put, ret, raise, log, item,
    node_record, node_columns.
  crunch.
  all: simpl.
  all: try exact I.
  all: try discriminate.
  all: repeat match goal with
              | H : _ && false = true |- _ =>
                  rewrite andb_false_r in H; discriminate
              | H : _ && true = true |- _ => rewrite andb_true_r in H
              end.
  all: split; intros [i row] Hin; try tauto.
  all: try (apply dict_set_In in Hin as [[-> ->] | Hin];
            [right; repeat split; assumption | now left]).
  all: intros Hother; try assumption.
  all: simpl in Hother; apply dict_set_In_other; [| assumption].
  all: intros ->; now apply Hother.
Qed.

Lemma classify_run_rows (coords : list (Z * (float * float)))
    (results : list element) :
  forall g g' t,
    for_each results (classify coords) g = (g', t, Ok tt) ->
    (forall x, In x (poi_nodes g') ->
       In x (poi_nodes g)
       \/ exists r, In r results /\ has_type r "node" = true
                    /\ has_tags r = true /\ node_record r = [x])
    /\ (forall x, In x (poi_ways g) ->
          Forall (fun r => has_type r "way" = true -> e_id r <> Some (fst x))
                 results ->
          In x (poi_ways g')).
Proof.
  induction results as [| r rest IH]; intros g g' t Hrun; simpl in Hrun.
  - injection Hrun as <- _. split; [now left | tauto].
  - unfold bind in Hrun. assert (Hstep := classify_rows coords r g).
    destruct (classify coords r g) as [[g1 t1] [[] | e]]; [| discriminate].
    destruct (for_each rest (classify coords) g1) as [[g2 t2] res] eqn:Hrest.
    injection Hrun as <- _ ->.
    destruct (IH _ _ _ Hrest) as [Hnodes Hways].
    destruct Hstep as [Hnodes1 Hways1]. split.
    + intros x Hx. destruct (Hnodes x Hx) as [Hx1 | [r' [Hr' Hfrom]]].
      * destruct (Hnodes1 x Hx1) as [Hx0 | Hfrom]; [now left |].
        right. exists r. split; [now left | exact Hfrom].
      * right. exists r'. split; [now right | exact Hfrom].
    + intros x Hx Hothers.
      inversion Hothers as [| r' rest' Hr Hrest']; subst.
      apply Hways; [| assumption]. now apply Hways1.
Qed.

(** Which rows one pass of the loop over the relations keeps and
    adds. *)
Lemma parse_relation_keeps (relation : element) (l : rel_locals) :
  match parse_relation relation l with
  | (l', _, Ok _) =>
      (forall x, In x (rows (osm_way_df l)) ->
         (forall members, e_members relation = Some members ->
            ~ In (fst x) (member_way_ids_of members)) ->
         In x (rows (osm_way_df l')))
      /\ (forall x, In x (rows (osm_way_df l')) -> In x (rows (osm_way_df l)))
      /\ (forall x, In x (rows (gdf_relations l')) ->
            In x (rows (gdf_relations l))
            \/ row_cell (snd x) "element_type" = CStr "relation")
  | (_, _, Raise _) => True
  end.
Proof.
  unfold parse_relation, invalid_multipoly_handler, try_except, bind, lift,
    get, put, ret, log, item.
  crunch.
  all: simpl.
  all: try exact I.
  all: try (repeat split; intros; tauto).
  all: try match goal with
           | H : drop _ _ = Ok _ |- _ =>
               apply drop_Ok in H; destruct H as [_ Hrows]; rewrite Hrows
           end.
  all: split; [| split].
  all: try (intros x Hx; tauto).
  all: try (intros x Hx; now apply filter_In in Hx).
  all: try (intros x Hx Hout; apply filter_In; split; [assumption |];
            apply negb_true_iff, mem_false; now apply Hout).
  all: intros x Hx; apply in_app_or in Hx as [Hx | [<- | []]];
    [now left | right].
  all: match goal with
       | |- row_cell (snd (_, relation_row ?tags ?rid (Some ?mp) ?ids ?nodes))
              _ = _ =>
           now destruct (relation_row_cells tags rid mp ids nodes)
             as [Hkind _]
       end.
Qed.

Lemma relations_loop_keeps (relations : list element) :
  forall l l' t,
    for_each relations parse_relation l = (l', t, Ok tt) ->
    (forall x, In x (rows (osm_way_df l)) ->
       Forall (fun r => forall members, e_members r = Some members ->
                 ~ In (fst x) (member_way_ids_of members)) relations ->
       In x (rows (osm_way_df l')))
    /\ (forall x, In x (rows (osm_way_df l')) -> In x (rows (osm_way_df l)))
    /\ (forall x, In x (rows (gdf_relations l')) ->
          In x (rows (gdf_relations l))
          \/ row_cell (snd x) "element_type" = CStr "relation").
Proof.
  induction relations as [| r rest IH]; intros l l' t Hrun; simpl in Hrun.
  - injection Hrun as <- _. repeat split; auto.
  - unfold bind in Hrun. assert (Hstep := parse_relation_keeps r l).
    destruct (parse_relation r l) as [[l1 t1] [[] | e]]; [| discriminate].
    destruct (for_each rest parse_relation l1) as [[l2 t2] res] eqn:Hrest.
    injection Hrun as <- _ ->.
    destruct (IH _ _ _ Hrest) as [Hkept [Hfrom Hadded]].
    destruct Hstep as [Hkept1 [Hfrom1 Hadded1]].
    split; [| split].
    + intros x Hx Hout. inversion Hout as [| r' rest' Hr Hrest']; subst.
      apply Hkept; [| assumption]. now apply Hkept1.
    + intros x Hx. now apply Hfrom1, Hfrom.
    + intros x Hx. destruct (Hadded x Hx) as [Hx1 | Hkind]; [| now right].
      now apply Hadded1.
Qed.
End TableRows.

Section Returns.
Context {E : External}.
Variable overpass_request : string -> Z -> result response.

(** The download does not look at the locals of its caller. *)
Lemma osm_poi_download_locals {L L'}
    (tags : pyval) (polygon : option geometry)
    (north south east west : option float)
    (timeout : Z) (memory : option Z) (custom_settings : option string)
    (l l1 : L) (l' : L') (t : list event) (r : result response) :
  osm_poi_download overpass_request tags polygon north south east west
    timeout memory custom_settings l = (l1, t, r) ->
  osm_poi_download overpass_request tags polygon north south east west
    timeout memory custom_settings l' = (l', t, r).
Proof.
  unfold osm_poi_download, bind, ret, raise, lift, request.
  crunch.
  all: intros [= _ <- <-]; reflexivity.
Qed.

Lemma within_filter_Ok (gdf out : DataFrame) (polygon : geometry) :
  within_filter gdf polygon = Ok out ->
  rows out =
    filter (fun r => match row_cell (snd r) "geometry" with
                     | CGeom g => centroid_within g polygon
                     | _ => false
                     end) (rows gdf).
Proof.
  unfold within_filter. destruct (column gdf "geometry"); [| discriminate].
  now intros [= <-].
Qed.

(** What a run of the assembly that returns a table has gone through. *)
Lemma create_poi_gdf_returns {L}
    (tags : pyval) (polygon : option geometry)
    (north south east west : option float)
    (timeout : Z) (memory : option Z) (custom_settings : option string)
    (l l0 l' : L) (t0 t : list event) (results : list element)
    (gdf : DataFrame) :
  osm_poi_download overpass_request tags polygon north south east west
    timeout memory custom_settings l = (l0, t0, Ok {| elements := results |}) ->
  create_poi_gdf overpass_request tags polygon north south east west
    timeout memory custom_settings l = (l', t, Ok gdf) ->
  exists coords g t1 final t2,
    parse_nodes_coords {| elements := results |} = Ok coords
    /\ for_each results (classify coords)
         {| poi_nodes := []; poi_ways := []; relations := [] |} =
       (g, t1, Ok tt)
    /\ for_each (relations g) parse_relation
         {| gdf_relations := empty_frame;
            osm_way_df := frame_of_dict (poi_ways g) |} =
       (final, t2, Ok tt)
    /\ (forall x, In x (rows gdf) ->
          In x (poi_nodes g) \/ In x (rows (osm_way_df final))
          \/ In x (rows (gdf_relations final)))
    /\ (forall x,
          In x (poi_nodes g) \/ In x (rows (osm_way_df final)) ->
          (forall p, polygon = Some p -> geom_bool p = true ->
             exists shape, row_cell (snd x) "geometry" = CGeom shape
                           /\ centroid_within shape p = true) ->
          In x (rows gdf)).
Proof.
  intros Hdownload Hrun.
  unfold create_poi_gdf, call, create_poi_gdf_body, bind in Hrun.
  rewrite (osm_poi_download_locals tags polygon north south
             east west timeout memory custom_settings l l0
             {| poi_nodes := []; poi_ways := []; relations := [] |} t0 _
             Hdownload) in Hrun.
  unfold lift at 1 in Hrun. simpl elements in Hrun.
  destruct (parse_nodes_coords {| elements := results |})
    as [coords | e0] eqn:Hcoords; [| discriminate].
  destruct (for_each results (classify coords) _)
    as [[g t1] [[] | e1]] eqn:Hloop; [| discriminate].
  unfold get, parse_osm_relations, call, parse_osm_relations_body, bind in Hrun.
  destruct (for_each (relations g) parse_relation _)
    as [[final t2] [[] | e2]] eqn:Hrelations; [| discriminate].
  exists coords, g, t1, final, t2.
  split; [reflexivity |]. split; [exact Hloop |]. split; [exact Hrelations |].
  set (table := append (frame_of_dict (poi_nodes g))
                  (append (osm_way_df final) (gdf_relations final))) in *.
  assert (Hrows : rows table =
    poi_nodes g ++ rows (osm_way_df final) ++ rows (gdf_relations final))
    by reflexivity.
  assert (Hcases :
    gdf = table
    \/ exists p, polygon = Some p /\ geom_bool p = true
                 /\ within_filter table p = Ok gdf).
  { unfold ret in Hrun. simpl in Hrun. fold table in Hrun.
    destruct polygon as [p |].
    - destruct (geom_bool p) eqn:Hp.
      + right. exists p. unfold lift in Hrun.
        destruct (within_filter table p) as [out | e3]; [| discriminate].
        injection Hrun as _ _ <-. auto.
      + left. now injection Hrun as _ _ <-.
    - left. now injection Hrun as _ _ <-. }
  clearbody table. clear Hrun.
  destruct Hcases as [-> | [p [-> [Htruthy Hfilter]]]].
  - split.
    + intros x Hx. rewrite Hrows in Hx.
      apply in_app_or in Hx as [Hx | Hx]; [now left |].
      apply in_app_or in Hx as [Hx | Hx]; tauto.
    + intros x Hx _. rewrite Hrows.
      destruct Hx as [Hx | Hx]; apply in_or_app; [now left | right].
      apply in_or_app. now left.
  - apply within_filter_Ok in Hfilter. rewrite Hfilter, Hrows. split.
    + intros x Hx. apply filter_In in Hx as [Hx _].
      apply in_app_or in Hx as [Hx | Hx]; [now left |].
      apply in_app_or in Hx as [Hx | Hx]; tauto.
    + intros x Hx Hwithin. apply filter_In. split.
      * destruct Hx as [Hx | Hx]; apply in_or_app; [now left | right].
        apply in_or_app. now left.
      * destruct (Hwithin p eq_refl Htruthy) as [shape [-> Hin]]. exact Hin.
Qed.
End Returns.

(** C9. The tags are required of nodes only. When the download answers
    with the elements [results] and [create_poi_gdf] returns a table,
    every row of the table is the row of a node element of [results]
    that has tags, or has the element type "way" or "relation": a node
    without tags gives no row. A way of [results] without tags, whose
    ring is built, stands in the table under its id with the columns
    nodes, geometry, osmid and element_type "way" and no other, when no
    later way has its id, no relation of [results] lists it among its
    member ways, and its centroid is within the polygon if a truthy one
    is passed. The loop gives what it gives on the elements without the
    untagged nodes; and for a response of untagged nodes followed by
    such a way, [create_poi_gdf] returns the table whose only row is the
    way's. *)
Theorem C9_tags_required_for_nodes_only {E : External} {L : Type}
    (overpass_request : string -> Z -> result response)
    (tags : pyval) (polygon : option geometry)
    (north south east west : option float)
    (timeout : Z) (memory : option Z) (custom_settings : option string)
    (l l0 l' : L) (t0 t : list event) (results : list element)
    (gdf : DataFrame) :
  (osm_poi_download overpass_request tags polygon north south east west
     timeout memory custom_settings l =
     (l0, t0, Ok {| elements := results |}) ->
   create_poi_gdf overpass_request tags polygon north south east west
     timeout memory custom_settings l = (l', t, Ok gdf) ->
   (forall i row, In (i, row) (rows gdf) ->
      (exists r, In r results /\ has_type r "node" = true
                 /\ has_tags r = true /\ node_record r = [(i, row)])
      \/ row_cell row "element_type" = CStr "way"
      \/ row_cell row "element_type" = CStr "relation")
   /\ (forall before way after coords nodes osmid ring shape,
         results = before ++ way :: after ->
         e_type way = Some "way" ->
         e_tags way = None ->
         e_nodes way = Some nodes ->
         e_id way = Some osmid ->
         parse_nodes_coords {| elements := results |} = Ok coords ->
         ring_of coords nodes = Ok ring ->
         Polygon ring = Some shape ->
         Forall (fun r => has_type r "way" = true -> e_id r <> Some osmid)
                after ->
         Forall (fun r => has_type r "relation" = true ->
                   forall members, e_members r = Some members ->
                     ~ In osmid (member_way_ids_of members)) results ->
         (forall p, polygon = Some p -> geom_bool p = true ->
            centroid_within shape p = true) ->
         In (osmid, untagged_way_row osmid nodes shape) (rows gdf)))
  /\ (forall coords g,
        for_each results (classify coords) g =
        for_each (filter (fun r => negb (untagged_node r)) results)
                 (classify coords) g)
  /\ (forall node_elements way coords nodes osmid ring shape n s e w query,
        e_type way = Some "way" ->
        e_tags way = None ->
        e_nodes way = Some nodes ->
        e_id way = Some osmid ->
        ring_of coords nodes = Ok ring ->
        Polygon ring = Some shape ->
        Forall (fun r => untagged_node r = true) node_elements ->
        create_poi_query n s e w tags timeout memory custom_settings =
          Ok query ->
        overpass_request query timeout =
          Ok {| elements := node_elements ++ [way] |} ->
        parse_nodes_coords {| elements := node_elements ++ [way] |} =
          Ok coords ->
        create_poi_gdf overpass_request tags None (Some n) (Some s) (Some e)
          (Some w) timeout memory custom_settings l =
        (l, [Request query timeout],
         Ok {| columns := ["element_type"; "geometry"; "nodes"; "osmid"];
               rows := [(osmid, untagged_way_row osmid nodes shape)] |})).
Proof.
  split; [| split].
  - intros Hdownload Hrun.
    destruct (create_poi_gdf_returns overpass_request tags polygon north south
                east west timeout memory custom_settings l l0 l' t0 t results
                gdf Hdownload Hrun)
      as [coords [g [t1 [final [t2 [Hcoords [Hloop [Hrel [Hfrom Hinto]]]]]]]]].
    destruct (classify_run_rows coords results _ _ _ Hloop)
      as [Hnodes Hways].
    destruct (classify_run coords results _ _ _ Hloop) as [Hrelations Hok].
    destruct Hok as [_ [Hrecords _]]; [repeat split; constructor |].
    destruct (relations_loop_keeps (relations g) _ _ _ Hrel)
      as [Hkept [Hback Hadded]].
    simpl in Hrelations. split.
    + intros i row Hin.
      destruct (Hfrom _ Hin) as [Hn | [Hw | Hr]].
      * left. destruct (Hnodes _ Hn) as [[] | Hnode]. exact Hnode.
      * right. left. apply Hback in Hw. simpl in Hw.
        now destruct (proj1 (Forall_forall _ _) Hrecords _ Hw) as [Hkind _].
      * right. right. now destruct (Hadded _ Hr) as [[] | Hkind].
    + intros before way after coords' nodes osmid ring shape Hresults
        Htype Htags Hway_nodes Hid Hcoords' Hring Hshape Hlater Hmembers
        Hwithin.
      rewrite Hcoords in Hcoords'. injection Hcoords' as <-.
      set (row := untagged_way_row osmid nodes shape).
      assert (Hstored : In (osmid, row) (poi_ways g)).
      { clear - Hloop Hresults Htype Htags Hway_nodes Hid Hring Hshape Hlater.
        subst results. rewrite for_each_app in Hloop. unfold bind in Hloop.
        destruct (for_each before (classify coords) _)
          as [[g1 t1'] [[] | e1]]; [| discriminate].
        simpl for_each in Hloop. unfold bind in Hloop.
        rewrite (classify_untagged_way coords way nodes osmid ring shape)
          in Hloop by assumption.
        destruct (for_each after (classify coords) _)
          as [[g2 t3] [[] | e2]] eqn:Hafter; [| discriminate].
        injection Hloop as <- _.
        destruct (classify_run_rows coords after _ _ _ Hafter) as [_ Hkeeps].
        apply Hkeeps; [apply dict_set_In_same | exact Hlater]. }
      apply (Hinto (osmid, row)).
      * right. apply Hkept; [exact Hstored |].
        rewrite Hrelations. apply Forall_forall. intros r Hr.
        apply filter_In in Hr as [Hr Hkind].
        exact (proj1 (Forall_forall _ _) Hmembers r Hr Hkind).
      * intros p Hp Htruthy. exists shape. split; [reflexivity |].
        now apply Hwithin.
  - intros coords g. apply for_each_untagged_nodes.
  - intros node_elements way coords nodes osmid ring shape n s e w query
      Htype Htags Hnodes Hid Hring Hshape Hnodes_only Hquery Hresponse
      Hcoords.
    unfold create_poi_gdf, call, create_poi_gdf_body, osm_poi_download.
    unfold bind, ret, lift, request. rewrite Hquery, Hresponse. simpl.
    rewrite Hcoords, for_each_app. unfold bind.
    rewrite for_each_skip.
    2:{ intros r Hr. apply classify_untagged_node.
        now apply (proj1 (Forall_forall _ _) Hnodes_only). }
    simpl. unfold bind, ret.
    rewrite (classify_untagged_way coords way nodes osmid ring shape)
      by assumption.
    reflexivity.
Qed.

(** * The properties on the sample responses *)

#[local] Existing Instance Plane.env.

(** C2. A relation with a member way that the table lacks (way 9): the
    removal of its member ways raises [KeyError] inside the [try], the
    handler logs that the relation could not be parsed, and yet the row
    of the relation, appended before the removal, is in the returned
    table next to all three ways. The failed relation has contributed a
    row. *)
Theorem C2_failed_relation_keeps_its_row :
  let relation := Sample.multipolygon_relation 7 [1; 9] in
  drop Sample.ways (member_way_ids_of (map Sample.way_member [1; 9])) =
    Raise (KeyError (KInts [9]))
  /\ exists out,
       parse_osm_relations [relation] Sample.ways tt =
         (tt, [Log (RelationUnparsed 7)], Ok out)
       /\ index out = [1; 2; 3; 7]
       /\ map (fun r => row_cell (snd r) "element_type") (rows out) =
          [CStr "way"; CStr "way"; CStr "way"; CStr "relation"].
Proof.
  split; [reflexivity |].
  eexists. split; [reflexivity |]. split; reflexivity.
Qed.

(** C1 does not hold of the way table that is passed in. Relations 7
    (ways 1 and 2) and 8 (ways 2 and 3) share way 2; every member way of relation 8 is in the way table
    with a geometry, and the multipolygon of both is built and not empty.
    Relation 7 takes way 2 first: the row of relation 8 holds the
    triangle of way 3 alone, way 3 is left in the way table, and so
    relation 8 is not absorbed. *)
Lemma C1_counterexample_shared_member :
  let relations := [Sample.multipolygon_relation 7 [1; 2];
                    Sample.multipolygon_relation 8 [2; 3]] in
  geoms_of (map (cell_at Sample.ways "geometry") [2; 3]) =
    Some [Plane.Ring (Sample.triangle 2); Plane.Ring (Sample.triangle 3)]
  /\ (exists mp,
        MultiPolygon [Plane.Ring (Sample.triangle 2);
                      Plane.Ring (Sample.triangle 3)] = Some mp
        /\ geom_bool mp = true)
  /\ (exists final t,
        parse_osm_relations_body relations Sample.start =
          (final, t, Ok (append (osm_way_df final) (gdf_relations final)))
        /\ map (fun r => row_cell (snd r) "geometry")
               (rows_at (gdf_relations final) 8) =
           [CGeom (Plane.Multi [Plane.Ring (Sample.triangle 3)])]
        /\ index (osm_way_df final) = [3])
  /\ ~ (exists row, absorbed relations Sample.ways 8 row [2; 3]).
Proof.
  intros relations.
  split; [reflexivity |]. split; [eexists; split; reflexivity |]. split.
  - exists (fst (fst (parse_osm_relations_body relations Sample.start))),
      (snd (fst (parse_osm_relations_body relations Sample.start))).
    split; [reflexivity |]. split; reflexivity.
  - intros [row [final [t [Hbody [_ [Hgone _]]]]]].
    set (run := parse_osm_relations_body _ _) in Hbody.
    assert (Hrun : run = (fst (fst run), snd (fst run),
                          Ok (append (osm_way_df (fst (fst run)))
                                (gdf_relations (fst (fst run))))))
      by reflexivity.
    rewrite Hrun in Hbody. injection Hbody as Hfinal _ _.
    apply (Hgone 3); [simpl; tauto |]. rewrite <- Hfinal.
    change (In 3 [3]). simpl. tauto.
Qed.

(** The filter {amenity: 3} is refused. *)
Lemma C4_witness :
  create_poi_query (1 : float) 0 1 0 (VDict [("amenity", VInt 3)])
    180 None None = Raise (TypeError error_msg).
Proof.
  apply (C4_invalid_filter_raises (E := Plane.env) 1 0 1 0
           [("amenity", VInt 3)]
           "amenity" (VInt 3) 180 None None).
  - left. reflexivity.
  - reflexivity.
Defined.

(** The query for every amenity and for retail and commercial land use
    between the latitudes 0 and 1 and the longitudes 0 and 1: three
    normalized pairs, nine clauses. *)
Lemma C6_witness :
  let q := String "034"%char EmptyString in
  create_poi_query (E := Plane.env) 1 0 1 0
    (VDict [("amenity", VBool true);
            ("landuse", VList [VStr "retail"; VStr "commercial"])])
    180 None None =
    Ok ("[out:json][timeout:180];("
         ++ "(node[" ++ q ++ "amenity" ++ q ++ "](0.000000,0.000000,1.000000,1.000000);(._;>;););"
         ++ "(way[" ++ q ++ "amenity" ++ q ++ "](0.000000,0.000000,1.000000,1.000000);(._;>;););"
         ++ "(relation[" ++ q ++ "amenity" ++ q ++ "](0.000000,0.000000,1.000000,1.000000);(._;>;););"
         ++ "(node[" ++ q ++ "landuse" ++ q ++ "=" ++ q ++ "retail" ++ q ++ "](0.000000,0.000000,1.000000,1.000000);(._;>;););"
         ++ "(way[" ++ q ++ "landuse" ++ q ++ "=" ++ q ++ "retail" ++ q ++ "](0.000000,0.000000,1.000000,1.000000);(._;>;););"
         ++ "(relation[" ++ q ++ "landuse" ++ q ++ "=" ++ q ++ "retail" ++ q ++ "](0.000000,0.000000,1.000000,1.000000);(._;>;););"
         ++ "(node[" ++ q ++ "landuse" ++ q ++ "=" ++ q ++ "commercial" ++ q ++ "](0.000000,0.000000,1.000000,1.000000);(._;>;););"
         ++ "(way[" ++ q ++ "landuse" ++ q ++ "=" ++ q ++ "commercial" ++ q ++ "](0.000000,0.000000,1.000000,1.000000);(._;>;););"
         ++ "(relation[" ++ q ++ "landuse" ++ q ++ "=" ++ q ++ "commercial" ++ q ++ "](0.000000,0.000000,1.000000,1.000000);(._;>;););"
         ++ ");out;")%string.
Proof.
  assert (Hkeys : NoDup (map fst [("amenity", VBool true);
                                  ("landuse",
                                   VList [VStr "retail"; VStr "commercial"])])).
  { repeat (constructor; [simpl; intuition discriminate |]). constructor. }
  exact (proj1 (C6_three_clauses_per_pair (E := Plane.env) 1 0 1 0
                  [("amenity", VBool true);
                   ("landuse", VList [VStr "retail"; VStr "commercial"])]
                  180 None None eq_refl Hkeys)).
Defined.

(** Way 9 names node 4, which the index of nodes 1 to 3 lacks. *)
Lemma C7_witness :
  let coords := [(1, (0, 0)); (2, (0, 1)); (3, (1, 0))] in
  let locals := {| poi_nodes := []; poi_ways := []; relations := [] |} in
  parse_polygonal_poi coords (Sample.plain_way 9 [1; 2; 4]) tt =
    (tt, [Log (PolygonInvalid [1; 2; 4])], Ok None)
  /\ classify coords (Sample.plain_way 9 [1; 2; 4]) locals =
     (locals, [Log (PolygonInvalid [1; 2; 4])], Ok tt).
Proof.
  intros coords locals.
  apply (C7_way_with_absent_node (E := Plane.env) coords (Sample.plain_way 9 [1; 2; 4])
           [1; 2; 4] 4 tt locals).
  - reflexivity.
  - reflexivity.
  - simpl. tauto.
  - reflexivity.
Defined.

(** A tagged node that has a longitude and no latitude. *)
Lemma C5_witness :
  parse_osm_node (Sample.node 5 None (Some 3) (Some [("amenity", "cafe")])) tt =
    (tt, [Log (PointInvalid 5)], Raise (UnboundLocalError "poi")).
Proof.
  apply (C5_node_without_coordinate_raises (E := Plane.env)
           (Sample.node 5 None (Some 3) (Some [("amenity", "cafe")])) 5 tt).
  - left. reflexivity.
  - reflexivity.
Defined.

(** No polygon, and no western bound. *)
Lemma C8_witness :
  let tags := VDict [("amenity", VBool true)] in
  osm_poi_download Sample.triangle_server tags None (Some 1) (Some 0) (Some 1)
    None 180 None None tt =
    (tt, [], Raise (ValueError missing_area_msg))
  /\ create_poi_gdf Sample.triangle_server tags None (Some 1) (Some 0)
       (Some 1) None 180 None None tt =
     (tt, [], Raise (ValueError missing_area_msg))
  /\ pois_from_polygon Sample.triangle_server None tags 180 None None tt =
     (tt, [], Raise (ValueError missing_area_msg))
  /\ pois_from_place Sample.triangle_server Sample.no_place "nowhere" tags 1
       180 None None tt =
     (tt, [], Raise (ValueError missing_area_msg)).
Proof.
  intros tags.
  destruct (C8_missing_area_raises (E := Plane.env)
              Sample.triangle_server Sample.no_place
              tags (Some 1) (Some 0) (Some 1) None "nowhere" 1 180 None None tt)
    as [Hdownload [Hgdf [Hpolygon Hplace]]].
  - right. right. right. reflexivity.
  - split; [exact Hdownload |]. split; [exact Hgdf |].
    split; [exact Hpolygon |]. apply Hplace. reflexivity.
Defined.

(** Three corner nodes without tags, a cafe, and the untagged way
    through the corners: the table has the row of the cafe and the row
    of the way, and none for a corner. Without the cafe the table has
    the one row of the way. *)
Lemma C9_witness :
  let way := Sample.plain_way 9 [1; 2; 3] in
  let results := Sample.corner_nodes ++ [Town.cafe; way] in
  let way_row :=
    untagged_way_row 9 [1; 2; 3] (Plane.Ring [(0, 0); (1, 0); (0, 1)]) in
  let gdf :=
    {| columns := ["amenity"; "element_type"; "geometry"; "osmid"; "nodes"];
       rows := [(5, [("osmid", CInt 5); ("geometry", CGeom (Plane.Pt 1 1));
                     ("amenity", CStr "cafe");
                     ("element_type", CStr "node")]);
                (9, way_row)] |} in
  create_poi_gdf (Town.server results) Sample.amenity_tags None
    (Some 1) (Some 0) (Some 1) (Some 0) 180 None None tt =
    (tt, [Request Sample.amenity_query 180], Ok gdf)
  /\ (forall i row, In (i, row) (rows gdf) ->
        (exists r, In r results /\ has_type r "node" = true
                   /\ has_tags r = true /\ node_record r = [(i, row)])
        \/ row_cell row "element_type" = CStr "way"
        \/ row_cell row "element_type" = CStr "relation")
  /\ In (9, way_row) (rows gdf)
  /\ create_poi_gdf Sample.triangle_server Sample.amenity_tags None
       (Some 1) (Some 0) (Some 1) (Some 0) 180 None None tt =
     (tt, [Request Sample.amenity_query 180],
      Ok {| columns := ["element_type"; "geometry"; "nodes"; "osmid"];
            rows := [(9, way_row)] |}).
Proof.
  intros way results way_row gdf.
  assert (Hrun :
    create_poi_gdf (Town.server results) Sample.amenity_tags None
      (Some 1) (Some 0) (Some 1) (Some 0) 180 None None tt =
    (tt, [Request Sample.amenity_query 180], Ok gdf)) by reflexivity.
  destruct (C9_tags_required_for_nodes_only (E := Plane.env) (L := unit)
              (Town.server results) Sample.amenity_tags None
              (Some 1) (Some 0) (Some 1) (Some 0) 180 None None tt tt tt
              [Request Sample.amenity_query 180]
              [Request Sample.amenity_query 180] results gdf)
    as [Hreturned _].
  destruct (Hreturned eq_refl Hrun) as [Hnodes Hway].
  split; [exact Hrun |]. split; [exact Hnodes |]. split.
  - apply (Hway (Sample.corner_nodes ++ [Town.cafe]) way []
             [(1, (0, 0)); (2, (0, 1)); (3, (1, 0)); (5, (1, 1))]
             [1; 2; 3] 9 [(0, 0); (1, 0); (0, 1)]
             (Plane.Ring [(0, 0); (1, 0); (0, 1)])
             eq_refl eq_refl eq_refl eq_refl eq_refl eq_refl eq_refl eq_refl).
    + constructor.
    + repeat constructor; discriminate.
    + discriminate.
  - destruct (C9_tags_required_for_nodes_only (E := Plane.env) (L := unit)
                Sample.triangle_server Sample.amenity_tags None
                (Some 1) (Some 0) (Some 1) (Some 0) 180 None None tt tt tt
                [] [] [] empty_frame)
      as [_ [_ Htable]].
    apply (Htable Sample.corner_nodes way
             [(1, (0, 0)); (2, (0, 1)); (3, (1, 0))]
             [1; 2; 3] 9 [(0, 0); (1, 0); (0, 1)]
             (Plane.Ring [(0, 0); (1, 0); (0, 1)]) 1 0 1 0
             Sample.amenity_query
             eq_refl eq_refl eq_refl eq_refl eq_refl eq_refl).
    + repeat constructor.
    + reflexivity.
    + reflexivity.
    + reflexivity.
Defined.

(** Relation 7 over ways 1 and 2, after relation 6 has taken way 3 and
    before relation 8 asks for way 2. *)
Lemma C1_witness :
  let before := [Sample.multipolygon_relation 6 [3]] in
  let relation := Sample.multipolygon_relation 7 [1; 2] in
  let after := [Sample.multipolygon_relation 8 [2]] in
  let mp := Plane.Multi [Plane.Ring (Sample.triangle 1);
                         Plane.Ring (Sample.triangle 2)] in
  let row := relation_row [("type", "multipolygon")] 7 (Some mp) [1; 2]
               (map (cell_at (osm_way_df Sample.after_relation_6) "nodes")
                    [1; 2]) in
  absorbed (before ++ relation :: after) Sample.ways 7 row [1; 2]
  /\ (exists t, parse_osm_relations (before ++ relation :: after)
                  Sample.ways tt =
                (tt, t, parse_osm_relations_result
                          (before ++ relation :: after) Sample.ways))
  /\ row_cell row "element_type" = CStr "relation"
  /\ row_cell row "osmid" = CInt 7
  /\ row_cell row "geometry" = CGeom mp.
Proof.
  intros before relation after mp row.
  apply (C1_relation_absorbed (E := Plane.env) (L := unit)
           before after relation Sample.ways Sample.after_relation_6 []
           [("type", "multipolygon")]
           (map Sample.way_member [1; 2]) 7
           [Plane.Ring (Sample.triangle 1); Plane.Ring (Sample.triangle 2)]
           mp tt).
  - repeat constructor; discriminate.
  - simpl. intuition discriminate.
  - reflexivity.
  - reflexivity.
  - reflexivity.
  - reflexivity.
  - reflexivity.
  - reflexivity.
  - reflexivity.
  - reflexivity.
  - reflexivity.
  - reflexivity.
  - reflexivity.
Defined.


(** The value [] under landuse, next to every amenity. *)
Lemma X3_witness :
  create_poi_query (1 : float) 0 1 0
    (VDict ([("amenity", VBool true)] ++ ("landuse", VList []) :: []))
    180 None None =
  create_poi_query (1 : float) 0 1 0
    (VDict ([("amenity", VBool true)] ++ [])) 180 None None.
Proof.
  apply (X3_empty_list_adds_nothing (E := Plane.env) 1 0 1 0
           [("amenity", VBool true)] [] "landuse" 180 None None).
  simpl. intuition discriminate.
Defined.

(** The filter {amenity: 3} for the district, and for the empty
    polygon. *)
Lemma X4_witness :
  (osm_poi_download Sample.triangle_server (VDict [("amenity", VInt 3)])
     (Some Town.district) None None None None 180 None None tt =
     (tt, [], Raise (TypeError error_msg))
   /\ create_poi_gdf Sample.triangle_server (VDict [("amenity", VInt 3)])
        (Some Town.district) None None None None 180 None None tt =
      (tt, [], Raise (TypeError error_msg)))
  /\ (osm_poi_download Sample.triangle_server (VDict [("amenity", VInt 3)])
        (Some (Plane.Ring [])) None None None None 180 None None tt =
        (tt, [], Raise (ValueError unpack_msg))
      /\ create_poi_gdf Sample.triangle_server (VDict [("amenity", VInt 3)])
           (Some (Plane.Ring [])) None None None None 180 None None tt =
         (tt, [], Raise (ValueError unpack_msg))).
Proof.
  split.
  - refine (proj1 (X4_invalid_filter_sends_nothing (E := Plane.env)
                     (L := unit) Sample.triangle_server
                     (VDict [("amenity", VInt 3)]) (Some Town.district)
                     None None None None 180 None None tt) eq_refl _).
    discriminate.
  - exact (proj2 (X4_invalid_filter_sends_nothing (E := Plane.env)
                    (L := unit) Sample.triangle_server
                    (VDict [("amenity", VInt 3)]) (Some (Plane.Ring []))
                    None None None None 180 None None tt)
             (Plane.Ring []) eq_refl eq_refl).
Defined.

(** The district, passed next to bounds that are not its own. *)
Lemma X5_witness :
  osm_poi_download Sample.triangle_server Sample.amenity_tags
    (Some Town.district) (Some 9) None None (Some 7) 180 None None tt =
  osm_poi_download Sample.triangle_server Sample.amenity_tags None
    (Some 2) (Some 0) (Some 2) (Some 0) 180 None None tt
  /\ create_poi_gdf Sample.triangle_server Sample.amenity_tags
       (Some Town.district) (Some 9) None None (Some 7) 180 None None tt =
     create_poi_gdf Sample.triangle_server Sample.amenity_tags
       (Some Town.district) None None None None 180 None None tt.
Proof.
  apply (X5_polygon_bounds_make_the_box (E := Plane.env) (L := unit)
           Sample.triangle_server Sample.amenity_tags Town.district
           (Some 9) None None (Some 7) 2 0 2 0 180 None None tt).
  reflexivity.
Defined.


(** Node 2 in the index of the corner nodes. *)
Lemma X8_witness :
  dict_get Town.corner_coords 2 = last_node_coords Sample.corner_nodes 2.
Proof.
  apply (X8_node_index_lookup (E := Plane.env)
           {| elements := Sample.corner_nodes |} Town.corner_coords 2).
  reflexivity.
Defined.

(** A response whose one node, untagged, has no latitude. *)
Lemma X10_witness :
  let results := [Sample.node 1 None (Some 0) None] in
  exists k,
    (k = "lat" \/ k = "lon" \/ k = "id")
    /\ parse_nodes_coords {| elements := results |} =
       Raise (KeyError (KStr k))
    /\ create_poi_gdf (Town.server results) Sample.amenity_tags None
         (Some 1) (Some 0) (Some 1) (Some 0) 180 None None tt =
       (tt, [Request Sample.amenity_query 180], Raise (KeyError (KStr k))).
Proof.
  intros results.
  apply (X10_incomplete_node_aborts (E := Plane.env) (L := unit)
           (Town.server results) results (Sample.node 1 None (Some 0) None)
           Sample.amenity_tags 1 0 1 0 Sample.amenity_query 180 None None tt).
  - left. reflexivity.
  - split; [reflexivity | left; reflexivity].
  - reflexivity.
  - reflexivity.
Defined.

(** The way through the three corner nodes. *)
Lemma X11_witness :
  parse_polygonal_poi Town.corner_coords (Sample.plain_way 9 [1; 2; 3]) tt =
    (tt, [],
     Ok (Some (way_columns 9 [1; 2; 3]
                 (Plane.Ring [(0, 0); (1, 0); (0, 1)])))).
Proof.
  apply (X11_way_parsed_or_dropped (E := Plane.env) (L := unit)
           Town.corner_coords (Sample.plain_way 9 [1; 2; 3]) [1; 2; 3] tt).
  - reflexivity.
  - reflexivity.
Defined.

(** The way whose tags are named geometry and element_type. *)
Lemma X12_witness :
  exists record,
    parse_polygonal_poi Town.corner_coords Town.odd_way tt =
      (tt, [], Ok (Some record))
    /\ forall col,
         row_cell record col =
           match dict_get [("geometry", "flat"); ("element_type", "road")] col
           with
           | Some value => CStr value
           | None =>
               row_cell (way_columns 9 [1; 2; 3]
                           (Plane.Ring [(0, 0); (1, 0); (0, 1)])) col
           end.
Proof.
  apply (X12_way_tags_replace_columns (E := Plane.env) (L := unit)
           Town.corner_coords Town.odd_way [1; 2; 3] 9
           [(0, 0); (1, 0); (0, 1)] (Plane.Ring [(0, 0); (1, 0); (0, 1)])
           [("geometry", "flat"); ("element_type", "road")] tt);
    try reflexivity.
  repeat (constructor; [simpl; intuition discriminate |]). constructor.
Defined.

(** After the corner nodes, an element without a type, and a way without
    nodes. *)
Lemma X14_witness :
  for_each (Sample.corner_nodes ++ Town.untyped :: [Town.cafe])
    (classify Town.corner_coords) Town.no_locals =
    (Town.no_locals, [], Raise (KeyError (KStr "type")))
  /\ for_each (Sample.corner_nodes ++ Town.way_without_nodes :: [Town.cafe])
       (classify Town.corner_coords) Town.no_locals =
     (Town.no_locals, [], Raise (KeyError (KStr "nodes"))).
Proof.
  split.
  - destruct (X14_malformed_element_ends_the_loop (E := Plane.env)
                Town.corner_coords Sample.corner_nodes [Town.cafe]
                Town.untyped Town.no_locals Town.no_locals [] eq_refl)
      as [Htype _].
    apply Htype. reflexivity.
  - destruct (X14_malformed_element_ends_the_loop (E := Plane.env)
                Town.corner_coords Sample.corner_nodes [Town.cafe]
                Town.way_without_nodes Town.no_locals Town.no_locals []
                eq_refl)
      as [_ Hnodes].
    apply Hnodes; reflexivity.
Defined.

(** Two relations among nodes and a way. *)
Lemma X15_witness :
  let results :=
    Sample.multipolygon_relation 7 [9] :: Sample.corner_nodes
    ++ [Sample.plain_way 9 [1; 2; 3]; Sample.multipolygon_relation 8 [9]] in
  relations
    (fst (fst (for_each results (classify Town.corner_coords)
                 Town.no_locals))) =
  [Sample.multipolygon_relation 7 [9]; Sample.multipolygon_relation 8 [9]].
Proof.
  intros results.
  apply (X15_relations_collected_in_order (E := Plane.env)
           Town.corner_coords results
           (fst (fst (for_each results (classify Town.corner_coords)
                        Town.no_locals)))
           (snd (fst (for_each results (classify Town.corner_coords)
                        Town.no_locals)))).
  reflexivity.
Defined.

(** The corner nodes, the cafe, and two ways, one of them with a tag
    named element_type. *)
Lemma X16_witness :
  let results :=
    Sample.corner_nodes
    ++ [Town.cafe; Sample.plain_way 8 [1; 2; 3]; Town.odd_way] in
  let g := fst (fst (for_each results (classify Town.corner_coords)
                       Town.no_locals)) in
  let gdf_ways := frame_of_dict (poi_ways g) in
  uniqueb (index gdf_ways) = true
  /\ (rows gdf_ways <> [] ->
      mem "nodes" (columns gdf_ways) = true
      /\ mem "geometry" (columns gdf_ways) = true)
  /\ Forall (fun r => row_cell (snd r) "element_type" = CStr "way")
            (rows gdf_ways)
  /\ Forall (fun r => row_cell (snd r) "element_type" = CStr "node")
            (rows (frame_of_dict (poi_nodes g))).
Proof.
  intros results g.
  apply (X16_way_table_well_formed (E := Plane.env)
           Town.corner_coords results g
           (snd (fst (for_each results (classify Town.corner_coords)
                        Town.no_locals)))).
  reflexivity.
Defined.

(** Relation 7 without tags. *)
Lemma X18_witness :
  parse_relation Town.relation_without_tags Sample.start =
    (Sample.start, [Log (RelationUnparsed 7)], Ok tt).
Proof.
  apply (X18_relation_without_type (E := Plane.env)
           Town.relation_without_tags Sample.start).
  left. reflexivity.
Defined.

(** Relation 7 over ways 1 and 2, with its roles changed and a node
    among its members. *)
Lemma X19_witness :
  parse_osm_relations
    ([Sample.multipolygon_relation 6 [3]]
     ++ Sample.multipolygon_relation 7 [1; 2] :: []) Sample.ways tt =
  parse_osm_relations
    ([Sample.multipolygon_relation 6 [3]]
     ++ Town.relation_with_roles :: []) Sample.ways tt.
Proof.
  apply (X19_roles_and_other_members_unused (E := Plane.env) (L := unit)
           [Sample.multipolygon_relation 6 [3]] []
           (Sample.multipolygon_relation 7 [1; 2]) Town.relation_with_roles
           Sample.ways tt).
  - reflexivity.
  - reflexivity.
  - reflexivity.
Defined.

(** Relations 7 and 8, which share way 2. *)
Lemma X20_witness :
  let relations := [Sample.multipolygon_relation 7 [1; 2];
                    Sample.multipolygon_relation 8 [2; 3]] in
  exists t out,
    parse_osm_relations relations Sample.ways tt = (tt, t, Ok out)
    /\ forall r, In r (rows out) ->
         In r (rows Sample.ways) \/ relation_record relations r.
Proof.
  intros relations.
  apply (X20_resolution_returns_ways_and_relations (E := Plane.env)
           (L := unit) relations Sample.ways tt).
  repeat constructor; discriminate.
Defined.

(** Relation 7 over a way whose geometry is a point. *)
Lemma X21_witness :
  let locals := {| gdf_relations := empty_frame;
                   osm_way_df := Town.pointed_ways |} in
  parse_relation (Sample.multipolygon_relation 7 [1]) locals =
    (locals, [Log (MultiPolygonInvalid 7 [1])], Ok tt).
Proof.
  intros locals.
  apply (X21_rejected_multipolygon_is_dropped (E := Plane.env)
           (Sample.multipolygon_relation 7 [1]) locals
           [("type", "multipolygon")] (map Sample.way_member [1]) 7
           [Plane.Pt 0 0]);
    reflexivity.
Defined.

(** The corner nodes alone, in the box of the district and in the
    district. *)
Lemma X22_witness :
  create_poi_gdf (Town.server Sample.corner_nodes) Sample.amenity_tags None
    (Some 2) (Some 0) (Some 2) (Some 0) 180 None None tt =
    (tt, [Request (Town.query_for 2 0 2 0) 180],
     Ok {| columns := []; rows := [] |})
  /\ create_poi_gdf (Town.server Sample.corner_nodes) Sample.amenity_tags
       (Some Town.district) None None None None 180 None None tt =
     (tt, [Request (Town.query_for 2 0 2 0) 180],
      Raise (KeyError (KStr "geometry"))).
Proof.
  destruct (X22_nothing_found (E := Plane.env) (L := unit)
              (Town.server Sample.corner_nodes) Sample.corner_nodes
              Sample.amenity_tags Town.district 2 0 2 0
              (Town.query_for 2 0 2 0) 180 None None tt)
    as [Hbox Hdistrict].
  - repeat constructor.
  - reflexivity.
  - reflexivity.
  - split; [exact Hbox |]. apply Hdistrict; reflexivity.
Defined.

(** The cafe and the bar. *)
Lemma X23_witness :
  exists gdf,
    create_poi_gdf (Town.server [Town.cafe; Town.bar]) Sample.amenity_tags
      None (Some 1) (Some 0) (Some 1) (Some 0) 180 None None tt =
      (tt, [Request Sample.amenity_query 180], Ok gdf)
    /\ rows gdf = flat_map node_record [Town.cafe; Town.bar].
Proof.
  apply (X23_tagged_nodes_make_the_rows (E := Plane.env) (L := unit)
           (Town.server [Town.cafe; Town.bar]) [Town.cafe; Town.bar]
           Sample.amenity_tags 1 0 1 0 Sample.amenity_query 180 None None tt).
  - repeat constructor.
  - repeat (constructor; [simpl; intuition discriminate |]). constructor.
  - reflexivity.
  - reflexivity.
Defined.

(** One unit around the point (1, 1): north 2, south 0, east 2, west
    0. *)
Lemma X24_witness :
  exists t r,
    pois_from_point Sample.triangle_server Town.box_around (1, 1)
      Sample.amenity_tags 1 180 None None tt =
    (tt, Request (Town.query_for 2 0 2 0) 180 :: t, r).
Proof.
  destruct (X24_entry_points_build_the_box (E := Plane.env) (L := unit)
              Sample.triangle_server Town.box_around Town.geocoder
              Sample.no_place (1, 1) 1 2 0 2 0 "here" "there" 1
              Sample.amenity_tags 180 None None tt eq_refl eq_refl)
    as [query [Hquery [Hpoint _]]].
  injection Hquery as <-. exact Hpoint.
Defined.
